(** * PyLag: a shallow embedding of the particle-tracking core

    The development follows the Cython sources of the repository:
    - [pylag/fvcom_data_reader.pyx] (host-element search, least-squares
      velocity interpolation, reading frames),
    - [pylag/integrator.pyx] (fourth-order Runge-Kutta advection and the GOTM
      data reader),
    - [pylag/model.pyx] (the FVCOM and GOTM model drivers).

    Numbers of type [DTYPE_FLOAT_t] are embedded as exact rationals [Q]
    (rounding is abstracted away), numbers of type [DTYPE_INT_t] as [Z].
    Memory views are embedded as total index functions or as lists. *)

From Stdlib Require Import String ZArith QArith Qround Lqa Lia List Bool.
Import ListNotations.

Local Open Scope Q_scope.

(** ** Numeric layer *)

Definition DTYPE_FLOAT_t : Type := Q.
Definition DTYPE_INT_t : Type := Z.

(** [a < b] on floats, as a boolean test. *)
Definition Qltb (a b : Q) : bool := negb (Qle_bool b a).

(** [a <= b] on floats, as a boolean test. *)
Definition Qleb (a b : Q) : bool := Qle_bool a b.

(** What a call does: it returns, it raises, or it never comes back (the
    model of an unbounded [while] ran out of fuel). *)
Inductive Exn : Type :=
| ValueError
| RuntimeError
| UnboundLocalError
| ZeroDivisionError.

Inductive Outcome (A : Type) : Type :=
| Returned (a : A)
| Raised (e : Exn)
| Diverged.

Arguments Returned {A} a.
Arguments Raised {A} e.
Arguments Diverged {A}.

Definition bind {A B : Type} (o : Outcome A) (k : A -> Outcome B)
  : Outcome B :=
  match o with
  | Returned a => k a
  | Raised e => Raised e
  | Diverged => Diverged
  end.

Notation "x <- c ;; k" := (bind c (fun x => k))
  (at level 61, c at next level, right associativity).

(** Small C arrays: [DTYPE_FLOAT_t a[3]] (velocities, barycentric
    coordinates, values at the three vertices of an element). *)
Record Vec3 : Type := mkVec3 {
  v0 : DTYPE_FLOAT_t;
  v1 : DTYPE_FLOAT_t;
  v2 : DTYPE_FLOAT_t
}.

(** One- and two-dimensional memory views, as total index functions. *)
Definition Array1 (A : Type) : Type := Z -> A.
Definition Array2 (A : Type) : Type := Z -> Z -> A.

(** ** Particles and position deltas (pylag/particle, pylag/delta) *)

Record Particle : Type := mkParticle {
  group_id : DTYPE_INT_t;
  xpos : DTYPE_FLOAT_t;
  ypos : DTYPE_FLOAT_t;
  zpos : DTYPE_FLOAT_t;
  host_horizontal_elem : DTYPE_INT_t;
  host_z_layer : DTYPE_INT_t;
  in_domain : bool
}.

Record Delta : Type := mkDelta {
  delta_x : DTYPE_FLOAT_t;
  delta_y : DTYPE_FLOAT_t;
  delta_z : DTYPE_FLOAT_t
}.

(** [reset(&delta_X)] *)
Definition reset : Delta := mkDelta 0 0 0.

(** [particle_ptr.in_domain = False] *)
Definition set_out_of_domain (p : Particle) : Particle :=
  mkParticle (group_id p) (xpos p) (ypos p) (zpos p)
             (host_horizontal_elem p) (host_z_layer p) false.

(** ** The data-reader interface consumed by the model drivers

    [model.pyx] talks to an object of class [DataReader]; the driver only
    depends on the operations below.  [find_host] and
    [find_host_using_local_search] return the pair [(flag, host)]. *)

Record DataReader : Type := mkDataReader {
  find_host : DTYPE_FLOAT_t -> DTYPE_FLOAT_t -> DTYPE_FLOAT_t ->
              DTYPE_FLOAT_t -> DTYPE_INT_t -> DTYPE_INT_t * DTYPE_INT_t;
  find_host_using_local_search :
    DTYPE_FLOAT_t -> DTYPE_FLOAT_t -> DTYPE_INT_t -> DTYPE_INT_t * DTYPE_INT_t;
  find_host_using_global_search :
    DTYPE_FLOAT_t -> DTYPE_FLOAT_t -> DTYPE_INT_t;
  get_zmin : DTYPE_FLOAT_t -> DTYPE_FLOAT_t -> DTYPE_FLOAT_t ->
             DTYPE_INT_t -> DTYPE_FLOAT_t;
  get_zmax : DTYPE_FLOAT_t -> DTYPE_FLOAT_t -> DTYPE_FLOAT_t ->
             DTYPE_INT_t -> DTYPE_FLOAT_t;
  find_zlayer : DTYPE_FLOAT_t -> DTYPE_FLOAT_t -> DTYPE_FLOAT_t ->
                DTYPE_FLOAT_t -> DTYPE_INT_t -> DTYPE_INT_t -> DTYPE_INT_t
}.

(** A random-walk model adds its displacement to the accumulated delta. *)
Definition RandomWalk : Type :=
  DTYPE_FLOAT_t -> Particle -> DataReader -> Delta -> Delta.

(** ** Helpers of [pylag/interpolation] and [pylag/math]

    These modules are cimported by the readers but are not part of the
    sources at hand; the constants come from [constants.pxi]. *)

Module interp.

(** Modelled from the spec: [interpolation.get_linear_fraction] is missing;
    the temporal fraction is [(t - t_last)/(t_next - t_last)], and the sigma
    fraction [(z - z_lower)/(z_upper - z_lower)]. *)
Definition get_linear_fraction (var var1 var2 : DTYPE_FLOAT_t)
  : DTYPE_FLOAT_t :=
  (var - var1) / (var2 - var1).

(** Modelled from the spec: [interpolation.get_linear_fraction_safe] is
    missing; the fraction is clamped to the unit interval. *)
Definition get_linear_fraction_safe (var var1 var2 : DTYPE_FLOAT_t)
  : DTYPE_FLOAT_t :=
  let f := get_linear_fraction var var1 var2 in
  if Qltb f 0 then 0 else if Qltb 1 f then 1 else f.

(** Modelled from the spec: [interpolation.linear_interp] is missing; fields
    are linear in time between the two snapshots and linear in sigma between
    the two bounding layers. *)
Definition linear_interp (fraction val_last val_next : DTYPE_FLOAT_t)
  : DTYPE_FLOAT_t :=
  (1 - fraction) * val_last + fraction * val_next.

(** Modelled from the spec: [interpolation.interpolate_within_element] is
    missing; within a triangle the value is the sum of [f_vertex[i] * phi[i]]. *)
Definition interpolate_within_element (var phi : Vec3) : DTYPE_FLOAT_t :=
  v0 var * v0 phi + v1 var * v1 phi + v2 var * v2 phi.

(** Modelled from the spec: [interpolation.get_barycentric_coords] is
    missing; barycentric coordinates are the standard area ratios. *)
Definition get_barycentric_coords (x y : DTYPE_FLOAT_t) (x_tri y_tri : Vec3)
  : Vec3 :=
  let twice_area :=
    (v1 y_tri - v2 y_tri) * (v0 x_tri - v2 x_tri)
    + (v2 x_tri - v1 x_tri) * (v0 y_tri - v2 y_tri) in
  let phi0 :=
    ((v1 y_tri - v2 y_tri) * (x - v2 x_tri)
     + (v2 x_tri - v1 x_tri) * (y - v2 y_tri)) / twice_area in
  let phi1 :=
    ((v2 y_tri - v0 y_tri) * (x - v2 x_tri)
     + (v0 x_tri - v2 x_tri) * (y - v2 y_tri)) / twice_area in
  mkVec3 phi0 phi1 (1 - phi0 - phi1).

End interp.

(** Modelled from the spec: [math.float_min] and [math.int_min] are missing;
    they are the minimum of two numbers. *)
Definition float_min (a b : DTYPE_FLOAT_t) : DTYPE_FLOAT_t :=
  if Qltb a b then a else b.

Definition int_min (a b : DTYPE_INT_t) : DTYPE_INT_t :=
  if (a <? b)%Z then a else b.

(** Modelled from the spec: [constants.pxi] is missing; the tolerance of the
    host search is 1e-10.  The array sizes [N_VERTICES = 3] and
    [N_NEIGH_ELEMS = 4] are built into [Vec3] and into the loops below. *)
Definition EPSILON : DTYPE_FLOAT_t := 1 # 10000000000.

(** ** FVCOMDataReader (pylag/fvcom_data_reader.pyx) *)

Module FVCOMDataReader.

(** The grid, read once by [_read_grid] and never written again. *)
Record Grid : Type := mkGrid {
  _n_elems : DTYPE_INT_t;
  _n_nodes : DTYPE_INT_t;
  _n_siglay : DTYPE_INT_t;
  _n_siglev : DTYPE_INT_t;
  _nv : Array2 DTYPE_INT_t;
  _nbe : Array2 DTYPE_INT_t;
  _x : Array1 DTYPE_FLOAT_t;
  _y : Array1 DTYPE_FLOAT_t;
  _xc : Array1 DTYPE_FLOAT_t;
  _yc : Array1 DTYPE_FLOAT_t;
  _a1u : Array2 DTYPE_FLOAT_t;
  _a2u : Array2 DTYPE_FLOAT_t;
  _siglev : Array2 DTYPE_FLOAT_t;
  _siglay : Array2 DTYPE_FLOAT_t;
  _h : Array1 DTYPE_FLOAT_t
}.

(** The mediator serves the data read from file; [M] is its internal state
    (the position of the reading frame). *)
Record Mediator (M : Type) : Type := mkMediator {
  update_reading_frames : M -> DTYPE_FLOAT_t -> M;
  get_time_at_last_time_index : M -> DTYPE_FLOAT_t;
  get_time_at_next_time_index : M -> DTYPE_FLOAT_t;
  get_nodal_variable_at_last_time_index : M -> string -> Array1 DTYPE_FLOAT_t;
  get_nodal_variable_at_next_time_index : M -> string -> Array1 DTYPE_FLOAT_t;
  get_time_dependent_variable_at_last_time_index :
    M -> string -> Array2 DTYPE_FLOAT_t;
  get_time_dependent_variable_at_next_time_index :
    M -> string -> Array2 DTYPE_FLOAT_t
}.

Arguments update_reading_frames {M}.
Arguments get_time_at_last_time_index {M}.
Arguments get_time_at_next_time_index {M}.
Arguments get_nodal_variable_at_last_time_index {M}.
Arguments get_nodal_variable_at_next_time_index {M}.
Arguments get_time_dependent_variable_at_last_time_index {M}.
Arguments get_time_dependent_variable_at_next_time_index {M}.

(** The mutable part of the reader: the mediator and the two snapshots of
    every time-dependent field, with the times that bound them. *)
Record Reader (M : Type) : Type := mkReader {
  mediator : M;
  _zeta_last : Array1 DTYPE_FLOAT_t;
  _zeta_next : Array1 DTYPE_FLOAT_t;
  _u_last : Array2 DTYPE_FLOAT_t;
  _u_next : Array2 DTYPE_FLOAT_t;
  _v_last : Array2 DTYPE_FLOAT_t;
  _v_next : Array2 DTYPE_FLOAT_t;
  _omega_last : Array2 DTYPE_FLOAT_t;
  _omega_next : Array2 DTYPE_FLOAT_t;
  _kh_last : Array2 DTYPE_FLOAT_t;
  _kh_next : Array2 DTYPE_FLOAT_t;
  _viscofh_last : Array2 DTYPE_FLOAT_t;
  _viscofh_next : Array2 DTYPE_FLOAT_t;
  _time_last : DTYPE_FLOAT_t;
  _time_next : DTYPE_FLOAT_t
}.

Arguments mkReader {M}.
Arguments mediator {M}.
Arguments _zeta_last {M}.
Arguments _zeta_next {M}.
Arguments _u_last {M}.
Arguments _u_next {M}.
Arguments _v_last {M}.
Arguments _v_next {M}.
Arguments _omega_last {M}.
Arguments _omega_next {M}.
Arguments _kh_last {M}.
Arguments _kh_next {M}.
Arguments _viscofh_last {M}.
Arguments _viscofh_next {M}.
Arguments _time_last {M}.
Arguments _time_next {M}.

(** [_read_time_dependent_vars]: every snapshot and both time references are
    taken afresh from the mediator [m]. *)
Definition _read_time_dependent_vars {M : Type} (med : Mediator M) (m : M)
  : Reader M :=
  mkReader m
    (get_nodal_variable_at_last_time_index med m "zeta")
    (get_nodal_variable_at_next_time_index med m "zeta")
    (get_time_dependent_variable_at_last_time_index med m "u")
    (get_time_dependent_variable_at_next_time_index med m "u")
    (get_time_dependent_variable_at_last_time_index med m "v")
    (get_time_dependent_variable_at_next_time_index med m "v")
    (get_time_dependent_variable_at_last_time_index med m "omega")
    (get_time_dependent_variable_at_next_time_index med m "omega")
    (get_time_dependent_variable_at_last_time_index med m "kh")
    (get_time_dependent_variable_at_next_time_index med m "kh")
    (get_time_dependent_variable_at_last_time_index med m "viscofh")
    (get_time_dependent_variable_at_next_time_index med m "viscofh")
    (get_time_at_last_time_index med m)
    (get_time_at_next_time_index med m).

(** [read_data]:
<<
    time_fraction = interp.get_linear_fraction(time, self._time_last, self._time_next)
    if time_fraction < 0.0 or time_fraction >= 1.0:
        self.mediator.update_reading_frames(time)
        self._read_time_dependent_vars()
>> *)
Definition read_data {M : Type} (med : Mediator M) (r : Reader M)
  (time : DTYPE_FLOAT_t) : Reader M :=
  let time_fraction :=
    interp.get_linear_fraction time (_time_last r) (_time_next r) in
  if Qltb time_fraction 0 || Qleb 1 time_fraction then
    _read_time_dependent_vars med (update_reading_frames med (mediator r) time)
  else r.

(** [_get_phi]: barycentric coordinates of a point in element [host]. *)
Definition _get_phi (g : Grid) (xpos ypos : DTYPE_FLOAT_t) (host : DTYPE_INT_t)
  : Vec3 :=
  let vertex := fun i => _nv g i host in
  let x_tri := mkVec3 (_x g (vertex 0%Z)) (_x g (vertex 1%Z)) (_x g (vertex 2%Z)) in
  let y_tri := mkVec3 (_y g (vertex 0%Z)) (_y g (vertex 1%Z)) (_y g (vertex 2%Z)) in
  interp.get_barycentric_coords xpos ypos x_tri y_tri.

(** The count made once a host is found:
<<
    n_land_boundaries = 0
    for i in xrange(3):
        if self._nbe[i,guess] == -1:
            n_land_boundaries += 1
>> *)
Definition count_land_boundaries (g : Grid) (guess : DTYPE_INT_t) : Z :=
  fold_left
    (fun n i => if (_nbe g i guess =? -1)%Z then (n + 1)%Z else n)
    [0%Z; 1%Z; 2%Z] 0%Z.

(** [find_host_using_local_search].  The walk is a [while True] loop; [fuel]
    bounds the number of elements visited.  The C local
    [n_host_land_boundaries] is declared and read but never assigned, so its
    value is whatever the stack holds: it is a parameter here. *)
Fixpoint find_host_using_local_search (fuel : nat)
  (n_host_land_boundaries : DTYPE_INT_t) (g : Grid)
  (xpos ypos : DTYPE_FLOAT_t) (guess : DTYPE_INT_t) : Outcome DTYPE_INT_t :=
  match fuel with
  | O => Diverged
  | S fuel' =>
      let phi := _get_phi g xpos ypos guess in
      let phi_test := float_min (float_min (v0 phi) (v1 phi)) (v2 phi) in
      let host_found := Qleb 0 phi_test || Qleb (- EPSILON) phi_test in
      if host_found then
        let n_land_boundaries := count_land_boundaries g guess in
        if (n_host_land_boundaries <? 2)%Z then Returned guess
        else Returned (-1)%Z
      else
        next <- (if Qeq_bool (v0 phi) phi_test then Returned (_nbe g 0%Z guess)
                 else if Qeq_bool (v1 phi) phi_test then Returned (_nbe g 1%Z guess)
                 else if Qeq_bool (v2 phi) phi_test then Returned (_nbe g 2%Z guess)
                 else Raised RuntimeError) ;;
        if (next =? -1)%Z then Returned next
        else find_host_using_local_search fuel' n_host_land_boundaries g
               xpos ypos next
  end.

(** [find_host] delegates to the local search. *)
Definition find_host (fuel : nat) (n_host_land_boundaries : DTYPE_INT_t)
  (g : Grid) (xpos ypos : DTYPE_FLOAT_t) (guess : DTYPE_INT_t)
  : Outcome DTYPE_INT_t :=
  find_host_using_local_search fuel n_host_land_boundaries g xpos ypos guess.

(** [_interp_on_sigma_layer]: sigma on layer [kidx] at the point [phi]. *)
Definition _interp_on_sigma_layer (g : Grid) (phi : Vec3)
  (host kidx : DTYPE_INT_t) : DTYPE_FLOAT_t :=
  let sigma_nodes :=
    mkVec3 (_siglay g kidx (_nv g 0%Z host))
           (_siglay g kidx (_nv g 1%Z host))
           (_siglay g kidx (_nv g 2%Z host)) in
  interp.interpolate_within_element sigma_nodes phi.

(** Where the particle sits in the water column: above the top layer or
    below the bottom layer ([k_boundary]), or between two layers. *)
Inductive SigmaLocation : Type :=
| AtBoundary (k_boundary : DTYPE_INT_t)
| BetweenLayers (k_lower_layer k_upper_layer : DTYPE_INT_t)
                (sigma_lower_layer sigma_upper_layer : DTYPE_FLOAT_t).

(** The search of the middle of the water column:
<<
    for k in xrange(1, self._n_siglay):
        sigma_test = self._interp_on_sigma_layer(phi, host, k)
        if zpos >= sigma_test:
            ...
            break
>>
    [n] counts the layers still to be tried, starting at layer [k]. *)
Fixpoint search_middle (g : Grid) (phi : Vec3) (host : DTYPE_INT_t)
  (zpos : DTYPE_FLOAT_t) (k : DTYPE_INT_t) (n : nat) : option SigmaLocation :=
  match n with
  | O => None
  | S n' =>
      let sigma_test := _interp_on_sigma_layer g phi host k in
      if Qleb sigma_test zpos then
        Some (BetweenLayers k (k - 1)%Z
                (_interp_on_sigma_layer g phi host k)
                (_interp_on_sigma_layer g phi host (k - 1)%Z))
      else search_middle g phi host zpos (k + 1)%Z n'
  end.

(** The bounding sigma layers: first the top layer, then the bottom layer,
    then the middle of the water column. *)
Definition find_sigma_layers (g : Grid) (phi : Vec3) (host : DTYPE_INT_t)
  (zpos : DTYPE_FLOAT_t) : option SigmaLocation :=
  if Qleb (_interp_on_sigma_layer g phi host 0%Z) zpos then
    Some (AtBoundary 0%Z)
  else
    let k := (_n_siglay g - 1)%Z in
    if Qleb zpos (_interp_on_sigma_layer g phi host k) then
      Some (AtBoundary k)
    else
      search_middle g phi host zpos 1%Z (Z.to_nat (_n_siglay g - 1)).

(** [_interpolate_vel_between_elements]:
<<
    rx = xpos - self._xc[host]
    ry = ypos - self._yc[host]
    dudx = 0.0
    dudy = 0.0
    for i in xrange(N_NEIGH_ELEMS):
        dudx += vel_elem[i] * self._a1u[i, host]
        dudy += vel_elem[i] * self._a2u[i, host]
    return vel_elem[0] + dudx*rx + dudy*ry
>> *)
Definition _interpolate_vel_between_elements (g : Grid)
  (xpos ypos : DTYPE_FLOAT_t) (host : DTYPE_INT_t)
  (vel_elem : Array1 DTYPE_FLOAT_t) : DTYPE_FLOAT_t :=
  let rx := xpos - _xc g host in
  let ry := ypos - _yc g host in
  let dudx :=
    fold_left (fun acc i => acc + vel_elem i * _a1u g i host)
              [0%Z; 1%Z; 2%Z; 3%Z] 0 in
  let dudy :=
    fold_left (fun acc i => acc + vel_elem i * _a2u g i host)
              [0%Z; 1%Z; 2%Z; 3%Z] 0 in
  vel_elem 0%Z + dudx * rx + dudy * ry.

(** A four-entry array [uc[0..3]]: entry 0 is written from the host, entry
    [j = i+1] is written in the loop over the three edges [i]. *)
Definition fill_elems (at_host : DTYPE_FLOAT_t)
  (in_loop : DTYPE_INT_t -> DTYPE_FLOAT_t) : Array1 DTYPE_FLOAT_t :=
  fun j => if (j =? 0)%Z then at_host else in_loop (j - 1)%Z.

(** The vertical interpolation that ends the function:
<<
    sigma_fraction = interp.get_linear_fraction(zpos, sigma_lower_layer, sigma_upper_layer)
    if sigma_fraction < 0.0 or sigma_fraction > 1.0:
        raise ValueError('Sigma out of range.')
    vel[0] = interp.linear_interp(sigma_fraction, up1, up2)
    vel[1] = interp.linear_interp(sigma_fraction, vp1, vp2)
>> *)
Definition interpolate_between_layers
  (zpos sigma_lower_layer sigma_upper_layer up1 vp1 up2 vp2 : DTYPE_FLOAT_t)
  : Outcome (DTYPE_FLOAT_t * DTYPE_FLOAT_t) :=
  let sigma_fraction :=
    interp.get_linear_fraction zpos sigma_lower_layer sigma_upper_layer in
  if Qltb sigma_fraction 0 || Qltb 1 sigma_fraction then Raised ValueError
  else Returned (interp.linear_interp sigma_fraction up1 up2,
                 interp.linear_interp sigma_fraction vp1 vp2).

(** [_get_uv_velocity_using_linear_least_squares_interpolation]: the pair
    [(vel[0], vel[1])] written by the call. *)
Definition _get_uv_velocity_using_linear_least_squares_interpolation
  {M : Type} (g : Grid) (r : Reader M)
  (time xpos ypos zpos : DTYPE_FLOAT_t) (host : DTYPE_INT_t)
  : Outcome (DTYPE_FLOAT_t * DTYPE_FLOAT_t) :=
  let phi := _get_phi g xpos ypos host in
  match find_sigma_layers g phi host zpos with
  | None => Raised ValueError
  | Some location =>
      let time_fraction :=
        interp.get_linear_fraction time (_time_last r) (_time_next r) in
      if Qltb time_fraction 0 || Qltb 1 time_fraction then Raised ValueError
      else
        let u_at := fun k e =>
          interp.linear_interp time_fraction (_u_last r k e) (_u_next r k e) in
        let v_at := fun k e =>
          interp.linear_interp time_fraction (_v_last r k e) (_v_next r k e) in
        let nbe_min :=
          int_min (int_min (_nbe g 0%Z host) (_nbe g 1%Z host))
                  (_nbe g 2%Z host) in
        if (nbe_min <? 0)%Z then
          (* Boundary element - no horizontal interpolation *)
          match location with
          | AtBoundary k_boundary =>
              Returned (u_at k_boundary host, v_at k_boundary host)
          | BetweenLayers k_lower_layer k_upper_layer
                          sigma_lower_layer sigma_upper_layer =>
              interpolate_between_layers zpos
                sigma_lower_layer sigma_upper_layer
                (u_at k_lower_layer host) (v_at k_lower_layer host)
                (u_at k_upper_layer host) (v_at k_upper_layer host)
          end
        else
          (* Non-boundary element *)
          match location with
          | AtBoundary k_boundary =>
              let uc1 := fill_elems (u_at k_boundary host)
                           (fun i => u_at k_boundary (_nbe g i host)) in
              let vc1 := fill_elems (v_at k_boundary host)
                           (fun i => v_at k_boundary (_nbe g i host)) in
              Returned (_interpolate_vel_between_elements g xpos ypos host uc1,
                        _interpolate_vel_between_elements g xpos ypos host vc1)
          | BetweenLayers k_lower_layer k_upper_layer
                          sigma_lower_layer sigma_upper_layer =>
              (* in this loop the source indexes the fields with [host],
                 not with [neighbour] *)
              let uc1 := fill_elems (u_at k_lower_layer host)
                           (fun i => u_at k_lower_layer host) in
              let vc1 := fill_elems (v_at k_lower_layer host)
                           (fun i => v_at k_lower_layer host) in
              let uc2 := fill_elems (u_at k_upper_layer host)
                           (fun i => u_at k_upper_layer host) in
              let vc2 := fill_elems (v_at k_upper_layer host)
                           (fun i => v_at k_upper_layer host) in
              let up1 := _interpolate_vel_between_elements g xpos ypos host uc1 in
              let vp1 := _interpolate_vel_between_elements g xpos ypos host vc1 in
              let up2 := _interpolate_vel_between_elements g xpos ypos host uc2 in
              let vp2 := _interpolate_vel_between_elements g xpos ypos host vc2 in
              interpolate_between_layers zpos
                sigma_lower_layer sigma_upper_layer up1 vp1 up2 vp2
          end
  end.

(** The horizontal velocity between two sigma layers as the specification
    words it: [u_c + (sum_j u[j] a1u[j,e]) (x - x_c)
    + (sum_j u[j] a2u[j,e]) (y - y_c)], where [u[0]] is the value at the
    centre of the host [e] and [u[1..3]] are the values at the centres of its
    three neighbours, each interpolated in time ([field k e] is the field on
    layer [k] at the centre of [e], already interpolated in time) and then
    in sigma between the bounding layers. *)
Definition lls_between_layers_spec (g : Grid) (field : Array2 DTYPE_FLOAT_t)
  (sigma_fraction : DTYPE_FLOAT_t) (k_lower_layer k_upper_layer : DTYPE_INT_t)
  (xpos ypos : DTYPE_FLOAT_t) (host : DTYPE_INT_t) : DTYPE_FLOAT_t :=
  let centre := fun j => if (j =? 0)%Z then host else _nbe g (j - 1)%Z host in
  let u := fun j =>
    interp.linear_interp sigma_fraction
      (field k_lower_layer (centre j)) (field k_upper_layer (centre j)) in
  u 0%Z
  + (u 0%Z * _a1u g 0%Z host + u 1%Z * _a1u g 1%Z host
     + u 2%Z * _a1u g 2%Z host + u 3%Z * _a1u g 3%Z host) * (xpos - _xc g host)
  + (u 0%Z * _a2u g 0%Z host + u 1%Z * _a2u g 1%Z host
     + u 2%Z * _a2u g 2%Z host + u 3%Z * _a2u g 3%Z host) * (ypos - _yc g host).

End FVCOMDataReader.

(** ** GOTMDataReader (pylag/integrator.pyx, second unit of the file) *)

Module GOTMDataReader.

(** The mediator of the one-dimensional column model; every variable is a
    one-dimensional array. *)
Record Mediator (M : Type) : Type := mkMediator {
  update_reading_frames : M -> DTYPE_FLOAT_t -> M;
  get_time_at_last_time_index : M -> DTYPE_FLOAT_t;
  get_time_at_next_time_index : M -> DTYPE_FLOAT_t;
  get_time_dependent_variable_at_last_time_index :
    M -> string -> list DTYPE_FLOAT_t;
  get_time_dependent_variable_at_next_time_index :
    M -> string -> list DTYPE_FLOAT_t
}.

Arguments update_reading_frames {M}.
Arguments get_time_at_last_time_index {M}.
Arguments get_time_at_next_time_index {M}.
Arguments get_time_dependent_variable_at_last_time_index {M}.
Arguments get_time_dependent_variable_at_next_time_index {M}.

(** The reader: the snapshots ([_last], [_next]) and the fields interpolated
    to the current time ([_time_fraction], [_H], [_zeta], [_zlev], [_kh]). *)
Record Reader (M : Type) : Type := mkReader {
  mediator : M;
  _n_zlay : nat;
  _time_last : DTYPE_FLOAT_t;
  _time_next : DTYPE_FLOAT_t;
  _time_fraction : DTYPE_FLOAT_t;
  _H : DTYPE_FLOAT_t;
  _zeta_last : DTYPE_FLOAT_t;
  _zeta_next : DTYPE_FLOAT_t;
  _zeta : DTYPE_FLOAT_t;
  _zlev_last : list DTYPE_FLOAT_t;
  _zlev_next : list DTYPE_FLOAT_t;
  _zlev : list DTYPE_FLOAT_t;
  _kh_last : list DTYPE_FLOAT_t;
  _kh_next : list DTYPE_FLOAT_t;
  _kh : list DTYPE_FLOAT_t
}.

Arguments mkReader {M}.
Arguments mediator {M}.
Arguments _n_zlay {M}.
Arguments _time_last {M}.
Arguments _time_next {M}.
Arguments _time_fraction {M}.
Arguments _H {M}.
Arguments _zeta_last {M}.
Arguments _zeta_next {M}.
Arguments _zeta {M}.
Arguments _zlev_last {M}.
Arguments _zlev_next {M}.
Arguments _zlev {M}.
Arguments _kh_last {M}.
Arguments _kh_next {M}.
Arguments _kh {M}.

(** [self._n_zlev = self._n_zlay + 1] *)
Definition _n_zlev {M : Type} (r : Reader M) : nat := S (_n_zlay r).

(** Interface depths from layer centres [z] and layer widths [h]:
<<
    for i in xrange(self._n_zlay):
        self._zlev_last[i] = z[i] - h[i]/2.0
    self._zlev_last[-1] = z[i] + h[i]/2.0
>>
    (the column has at least one layer, so [i] ends at [_n_zlay - 1], which
    is also the index [-1] of [z] and [h]). *)
Definition interface_depths (n_zlay : nat) (z h : list DTYPE_FLOAT_t)
  : list DTYPE_FLOAT_t :=
  (map (fun i => nth i z 0 - nth i h 0 / 2) (seq 0 n_zlay)
   ++ [nth (n_zlay - 1) z 0 + nth (n_zlay - 1) h 0 / 2])%list.

(** Diffusivities on the interfaces: zero at the missing interface [0], the
    value read for layer [i] at interface [i+1]. *)
Definition interface_kh (n_zlay : nat) (nuh : list DTYPE_FLOAT_t)
  : list DTYPE_FLOAT_t :=
  0 :: map (fun i => nth i nuh 0) (seq 0 n_zlay).

(** [_read_time_dependent_vars]: the snapshots are taken afresh from the
    mediator; the interpolated fields are left as they are. *)
Definition _read_time_dependent_vars {M : Type} (med : Mediator M)
  (r : Reader M) : Reader M :=
  let m := mediator r in
  let n := _n_zlay r in
  mkReader m n
    (get_time_at_last_time_index med m)
    (get_time_at_next_time_index med m)
    (_time_fraction r)
    (_H r)
    (nth 0 (get_time_dependent_variable_at_last_time_index med m "zeta") 0)
    (nth 0 (get_time_dependent_variable_at_next_time_index med m "zeta") 0)
    (_zeta r)
    (interface_depths n
       (get_time_dependent_variable_at_last_time_index med m "z")
       (get_time_dependent_variable_at_last_time_index med m "h"))
    (interface_depths n
       (get_time_dependent_variable_at_next_time_index med m "z")
       (get_time_dependent_variable_at_next_time_index med m "h"))
    (_zlev r)
    (interface_kh n (get_time_dependent_variable_at_last_time_index med m "nuh"))
    (interface_kh n (get_time_dependent_variable_at_next_time_index med m "nuh"))
    (_kh r).

(** [_interpolate_in_time]: all gridded variables at the current time. *)
Definition _interpolate_in_time {M : Type} (r : Reader M)
  (time : DTYPE_FLOAT_t) : Reader M :=
  let time_fraction :=
    interp.get_linear_fraction_safe time (_time_last r) (_time_next r) in
  mkReader (mediator r) (_n_zlay r) (_time_last r) (_time_next r)
    time_fraction
    (- interp.linear_interp time_fraction
         (nth 0 (_zlev_last r) 0) (nth 0 (_zlev_next r) 0))
    (_zeta_last r) (_zeta_next r)
    (interp.linear_interp time_fraction (_zeta_last r) (_zeta_next r))
    (_zlev_last r) (_zlev_next r)
    (map (fun i => interp.linear_interp time_fraction
                     (nth i (_zlev_last r) 0) (nth i (_zlev_next r) 0))
         (seq 0 (_n_zlev r)))
    (_kh_last r) (_kh_next r)
    (map (fun i => interp.linear_interp time_fraction
                     (nth i (_kh_last r) 0) (nth i (_kh_next r) 0))
         (seq 0 (_n_zlev r))).

(** The mediator moves its reading frames. *)
Definition with_mediator {M : Type} (r : Reader M) (m : M) : Reader M :=
  mkReader m (_n_zlay r) (_time_last r) (_time_next r) (_time_fraction r)
    (_H r) (_zeta_last r) (_zeta_next r) (_zeta r)
    (_zlev_last r) (_zlev_next r) (_zlev r)
    (_kh_last r) (_kh_next r) (_kh r).

(** [read_data]:
<<
    time_fraction = interp.get_linear_fraction(time, self._time_last, self._time_next)
    if time_fraction < 0.0 or time_fraction >= 1.0:
        self.mediator.update_reading_frames(time)
        self._read_time_dependent_vars()
    self._interpolate_in_time(time)
>> *)
Definition read_data {M : Type} (med : Mediator M) (r : Reader M)
  (time : DTYPE_FLOAT_t) : Reader M :=
  let time_fraction :=
    interp.get_linear_fraction time (_time_last r) (_time_next r) in
  let r1 :=
    if Qltb time_fraction 0 || Qleb 1 time_fraction then
      _read_time_dependent_vars med
        (with_mediator r (update_reading_frames med (mediator r) time))
    else r in
  _interpolate_in_time r1 time.

End GOTMDataReader.

(** ** RK4Integrator (pylag/integrator.pyx, first unit of the file) *)

Module RK4Integrator.

(** The reader as this integrator sees it: [find_host(xpos, ypos, guess)]
    returns the host element or -1, [get_velocity] fills [vel[0..2]] or
    raises. *)
Record DataReader : Type := mkDataReader {
  find_host : DTYPE_FLOAT_t -> DTYPE_FLOAT_t -> DTYPE_INT_t -> DTYPE_INT_t;
  get_velocity : DTYPE_FLOAT_t -> DTYPE_FLOAT_t -> DTYPE_FLOAT_t ->
                 DTYPE_FLOAT_t -> DTYPE_INT_t -> Outcome Vec3
}.

(** [for i in xrange(ndim): self.k[i] = self._time_step * self.vel[i]] *)
Definition stage (_time_step : DTYPE_FLOAT_t) (vel : Vec3) : Vec3 :=
  mkVec3 (_time_step * v0 vel) (_time_step * v1 vel) (_time_step * v2 vel).

(** The new position computed after stage 4. *)
Definition weighted_sum (k1 k2 k3 k4 : DTYPE_FLOAT_t) : DTYPE_FLOAT_t :=
  (k1 + 2 * k2 + 2 * k3 + k4) / 6.

(** [advect], with the particle it leaves behind.  The first component
    lists, in order, the results of the calls to [find_host] that were made;
    the second is the outcome of the call: the particle as it stands when
    [advect] returns, or the exception that a velocity lookup raised (the
    particle is then untouched, nothing having been written yet). *)
Definition advect_trace (_time_step time : DTYPE_FLOAT_t)
  (particle : Particle) (data_reader : DataReader)
  : list DTYPE_INT_t * Outcome Particle :=
  (* Stage 1 *)
  let t := time in
  let xpos1 := xpos particle in
  let ypos1 := ypos particle in
  let zpos1 := zpos particle in
  let host1 := host_horizontal_elem particle in
  match get_velocity data_reader t xpos1 ypos1 zpos1 host1 with
  | Raised e => ([], Raised e)
  | Diverged => ([], Diverged)
  | Returned vel1 =>
  let k1 := stage _time_step vel1 in
  (* Stage 2 *)
  let t := time + (1#2) * _time_step in
  let xpos2 := xpos particle + (1#2) * v0 k1 in
  let ypos2 := ypos particle + (1#2) * v1 k1 in
  let zpos2 := zpos particle + (1#2) * v2 k1 in
  let host2 := find_host data_reader xpos2 ypos2 host1 in
  if (host2 =? -1)%Z then ([host2], Returned particle) else
  match get_velocity data_reader t xpos2 ypos2 zpos2 host2 with
  | Raised e => ([host2], Raised e)
  | Diverged => ([host2], Diverged)
  | Returned vel2 =>
  let k2 := stage _time_step vel2 in
  (* Stage 3 *)
  let t := time + (1#2) * _time_step in
  let xpos3 := xpos particle + (1#2) * v0 k2 in
  let ypos3 := ypos particle + (1#2) * v1 k2 in
  let zpos3 := zpos particle + (1#2) * v2 k2 in
  let host3 := find_host data_reader xpos3 ypos3 host2 in
  if (host3 =? -1)%Z then ([host2; host3], Returned particle) else
  match get_velocity data_reader t xpos3 ypos3 zpos3 host3 with
  | Raised e => ([host2; host3], Raised e)
  | Diverged => ([host2; host3], Diverged)
  | Returned vel3 =>
  let k3 := stage _time_step vel3 in
  (* Stage 4 *)
  let t := time + _time_step in
  let xpos4 := xpos particle + v0 k3 in
  let ypos4 := ypos particle + v1 k3 in
  let zpos4 := zpos particle + v2 k3 in
  let host4 := find_host data_reader xpos4 ypos4 host3 in
  if (host4 =? -1)%Z then ([host2; host3; host4], Returned particle) else
  match get_velocity data_reader t xpos4 ypos4 zpos4 host4 with
  | Raised e => ([host2; host3; host4], Raised e)
  | Diverged => ([host2; host3; host4], Diverged)
  | Returned vel4 =>
  let k4 := stage _time_step vel4 in
  (* Calculate the new position *)
  let xpos5 := xpos particle + weighted_sum (v0 k1) (v0 k2) (v0 k3) (v0 k4) in
  let ypos5 := ypos particle + weighted_sum (v1 k1) (v1 k2) (v1 k3) (v1 k4) in
  let zpos5 := zpos particle + weighted_sum (v2 k1) (v2 k2) (v2 k3) (v2 k4) in
  let host5 := find_host data_reader xpos5 ypos5 host4 in
  if (host5 =? -1)%Z then ([host2; host3; host4; host5], Returned particle)
  else
    (* Update the particle's position *)
    ([host2; host3; host4; host5],
     Returned (mkParticle (group_id particle) xpos5 ypos5 zpos5 host5
                          (host_z_layer particle) (in_domain particle)))
  end end end end.

(** [advect]: the state of the particle after the call. *)
Definition advect (_time_step time : DTYPE_FLOAT_t) (particle : Particle)
  (data_reader : DataReader) : Outcome Particle :=
  snd (advect_trace _time_step time particle data_reader).

(** The hosts reported by the re-locations made during the call. *)
Definition relocations (_time_step time : DTYPE_FLOAT_t) (particle : Particle)
  (data_reader : DataReader) : list DTYPE_INT_t :=
  fst (advect_trace _time_step time particle data_reader).

End RK4Integrator.

(** ** FVCOMOPTModel (pylag/model.pyx) *)

Module FVCOMOPTModel.

(** [num_integrator.advect(time, particle_ptr, data_reader, &delta_X)]
    returns [host_err] and writes its displacement into the delta. *)
Definition NumIntegrator : Type :=
  DTYPE_FLOAT_t -> Particle -> DataReader -> Delta -> DTYPE_INT_t * Delta.

(** [horiz_bc_calculator.apply(data_reader, x_old, y_old, x_new, y_new,
    last_host)] returns the corrected [(xpos, ypos)]. *)
Definition HorizBoundaryConditionCalculator : Type :=
  DataReader -> DTYPE_FLOAT_t -> DTYPE_FLOAT_t -> DTYPE_FLOAT_t ->
  DTYPE_FLOAT_t -> DTYPE_INT_t -> DTYPE_FLOAT_t * DTYPE_FLOAT_t.

(** [vert_bc_calculator.apply(zpos, zmin, zmax)] returns the corrected
    [zpos]. *)
Definition VertBoundaryConditionCalculator : Type :=
  DTYPE_FLOAT_t -> DTYPE_FLOAT_t -> DTYPE_FLOAT_t -> DTYPE_FLOAT_t.

(** The values of the option [SIMULATION.depth_coordinates]; any other
    string takes neither branch of [_create_seed]. *)
Inductive DepthCoordinates : Type :=
| cartesian
| sigma
| unrecognised.

Record Model : Type := mkModel {
  data_reader : DataReader;
  num_integrator : option NumIntegrator;
  vert_rand_walk_model : option RandomWalk;
  horiz_rand_walk_model : option RandomWalk;
  horiz_bc_calculator : HorizBoundaryConditionCalculator;
  vert_bc_calculator : VertBoundaryConditionCalculator;
  time_step : DTYPE_FLOAT_t;
  depth_coordinates : DepthCoordinates
}.

(** *** update *)

(** Advection: [host_err] and the delta after the call; without an
    integrator the delta is the reset one and [host_err] is not read. *)
Definition advection (m : Model) (time : DTYPE_FLOAT_t) (p : Particle)
  : option DTYPE_INT_t * Delta :=
  match num_integrator m with
  | Some integrator =>
      let (host_err, delta_X) := integrator time p (data_reader m) reset in
      (Some host_err, delta_X)
  | None => (None, reset)
  end.

(** The vertical, then the horizontal random walk. *)
Definition random_walks (m : Model) (time : DTYPE_FLOAT_t) (p : Particle)
  (delta_X : Delta) : Delta :=
  let delta_1 :=
    match vert_rand_walk_model m with
    | Some rw => rw time p (data_reader m) delta_X
    | None => delta_X
    end in
  match horiz_rand_walk_model m with
  | Some rw => rw time p (data_reader m) delta_1
  | None => delta_1
  end.

(** The variables live across the land-boundary loop. *)
Record Located : Type := mkLocated {
  loc_xpos : DTYPE_FLOAT_t;
  loc_ypos : DTYPE_FLOAT_t;
  loc_flag : DTYPE_INT_t;
  loc_host : DTYPE_INT_t
}.

(** The first query, at the summed position. *)
Definition locate (m : Model) (p : Particle) (xpos' ypos' : DTYPE_FLOAT_t)
  : Located :=
  let (flag, host) :=
    find_host (data_reader m) (xpos p) (ypos p) xpos' ypos'
              (host_horizontal_elem p) in
  mkLocated xpos' ypos' flag host.

(** One pass through the body of the land-boundary loop:
<<
    xpos, ypos = self.horiz_bc_calculator.apply(self.data_reader,
            particle_ptr.xpos, particle_ptr.ypos, xpos, ypos,
            particle_ptr.host_horizontal_elem)
    flag, host = self.data_reader.find_host(particle_ptr.xpos,
        particle_ptr.ypos, xpos, ypos, particle_ptr.host_horizontal_elem)
>> *)
Definition bc_body (m : Model) (p : Particle) (s : Located) : Located :=
  let (xpos', ypos') :=
    horiz_bc_calculator m (data_reader m) (xpos p) (ypos p)
      (loc_xpos s) (loc_ypos s) (host_horizontal_elem p) in
  locate m p xpos' ypos'.

(** [while flag == -1: ...].  The result carries the number of passes made
    through the body (a ghost counter) and the variables at loop exit. *)
Fixpoint bc_loop (fuel : nat) (m : Model) (p : Particle) (s : Located)
  : Outcome (nat * Located) :=
  if (loc_flag s =? -1)%Z then
    match fuel with
    | O => Diverged
    | S fuel' =>
        r <- bc_loop fuel' m p (bc_body m p s) ;;
        Returned (S (fst r), snd r)
    end
  else Returned (O, s).

(** The position is committed when the flag is 0. *)
Definition commit (m : Model) (time : DTYPE_FLOAT_t) (p : Particle)
  (s : Located) (zpos0 : DTYPE_FLOAT_t) : Particle :=
  let xpos' := loc_xpos s in
  let ypos' := loc_ypos s in
  let host := loc_host s in
  let zmin := get_zmin (data_reader m) (time + time_step m) xpos' ypos' host in
  let zmax := get_zmax (data_reader m) (time + time_step m) xpos' ypos' host in
  let zpos1 :=
    if Qltb zpos0 zmin || Qltb zmax zpos0
    then vert_bc_calculator m zpos0 zmin zmax
    else zpos0 in
  let old_host_z_layer := host_z_layer p in
  let host_z_layer' :=
    find_zlayer (data_reader m) (time + time_step m) xpos' ypos' zpos1 host
                old_host_z_layer in
  mkParticle (group_id p) xpos' ypos' zpos1 host host_z_layer' (in_domain p).

(** The body of the particle loop of [update]. *)
Definition update_particle (fuel : nat) (m : Model) (time : DTYPE_FLOAT_t)
  (p : Particle) : Outcome Particle :=
  if in_domain p then
    let (host_err, delta_0) := advection m time p in
    if match host_err with Some e => (e =? -2)%Z | None => false end then
      Returned (set_out_of_domain p)
    else
      let delta_X := random_walks m time p delta_0 in
      (* Sum contributions *)
      let xpos' := xpos p + delta_x delta_X in
      let ypos' := ypos p + delta_y delta_X in
      let zpos' := zpos p + delta_z delta_X in
      (* First check for land boundary crossing *)
      r <- bc_loop fuel m p (locate m p xpos' ypos') ;;
      let s := snd r in
      (* Second check for open boundary crossing *)
      if (loc_flag s =? -2)%Z then Returned (set_out_of_domain p)
      else if (loc_flag s =? 0)%Z then Returned (commit m time p s zpos')
      else Raised ValueError
  else Returned p.

(** [update]: the loop over the particle set.  Particles are updated in
    place, so when the body raises (or never returns) for one particle, the
    ones before it keep their new state and the others their old state. *)
Fixpoint update (fuel : nat) (m : Model) (time : DTYPE_FLOAT_t)
  (ps : list Particle) : list Particle * Outcome unit :=
  match ps with
  | [] => ([], Returned tt)
  | p :: rest =>
      match update_particle fuel m time p with
      | Returned p' =>
          let (rest', o) := update fuel m time rest in (p' :: rest', o)
      | Raised e => (p :: rest, Raised e)
      | Diverged => (p :: rest, Diverged)
      end
  end.

(** Successive calls of [update], one per entry of [times]. *)
Fixpoint updates (fuel : nat) (m : Model) (times : list DTYPE_FLOAT_t)
  (ps : list Particle) : list Particle :=
  match times with
  | [] => ps
  | time :: later => updates fuel m later (fst (update fuel m time ps))
  end.

(** *** get_diagnostics *)

(** The dictionary of lists returned by [get_diagnostics]. *)
Record Diagnostics : Type := mkDiagnostics {
  diag_xpos : list DTYPE_FLOAT_t;
  diag_ypos : list DTYPE_FLOAT_t;
  diag_zpos : list DTYPE_FLOAT_t;
  diag_host_horizontal_elem : list DTYPE_INT_t;
  diag_h : list DTYPE_FLOAT_t;
  diag_zeta : list DTYPE_FLOAT_t
}.

(** One pass through the loop of [get_diagnostics]: six appends. *)
Definition append_diagnostics (m : Model) (time : DTYPE_FLOAT_t)
  (diags : Diagnostics) (p : Particle) : Diagnostics :=
  let h := get_zmin (data_reader m) time (xpos p) (ypos p)
                    (host_horizontal_elem p) in
  let zeta := get_zmax (data_reader m) time (xpos p) (ypos p)
                       (host_horizontal_elem p) in
  mkDiagnostics
    (diag_xpos diags ++ [xpos p])
    (diag_ypos diags ++ [ypos p])
    (diag_zpos diags ++ [zpos p])
    (diag_host_horizontal_elem diags ++ [host_horizontal_elem p])
    (diag_h diags ++ [h])
    (diag_zeta diags ++ [zeta]).

(** [get_diagnostics]: the loop runs over the whole particle set. *)
Definition get_diagnostics (m : Model) (time : DTYPE_FLOAT_t)
  (ps : list Particle) : Diagnostics :=
  fold_left (append_diagnostics m time) ps
            (mkDiagnostics [] [] [] [] [] []).

(** *** _create_seed *)

(** One row of the seed: [(group, x, y, z_temp)]. *)
Record SeedRow : Type := mkSeedRow {
  row_group : DTYPE_INT_t;
  row_x : DTYPE_FLOAT_t;
  row_y : DTYPE_FLOAT_t;
  row_z_temp : DTYPE_FLOAT_t
}.

(** The Python locals that live across the iterations of the seed loop:
    [guess] ([None] at first), [z] (unbound at first), the list of seed
    particles and the counter. *)
Record SeedState : Type := mkSeedState {
  guess : option DTYPE_INT_t;
  z : option DTYPE_FLOAT_t;
  particle_seed_smart_ptrs : list Particle;
  particles_in_domain : nat
}.

(** [ParticleSmartPtr(group_id=group, in_domain=in_domain)]: the remaining
    fields take the defaults of the constructor, which marks unset values
    with -999. *)
Definition ParticleSmartPtr_default (group : DTYPE_INT_t) (in_dom : bool)
  : Particle :=
  mkParticle group (-999) (-999) (-999) (-999)%Z (-999)%Z in_dom.

Section CreateSeed.

(** [math.sigma_to_cartesian_coords] is cimported from [pylag/math], which is
    not among the sources: the conversion is a parameter. *)
Variable sigma_to_cartesian_coords :
  DTYPE_FLOAT_t -> DTYPE_FLOAT_t -> DTYPE_FLOAT_t -> DTYPE_FLOAT_t.

(** The host of a seed particle: a local search from the last host when
    there is one, a global search when there is none or the local one
    failed. *)
Definition seed_host (m : Model) (st : SeedState) (row : SeedRow)
  : DTYPE_INT_t :=
  match guess st with
  | Some g =>
      let (flag, host_horizontal_elem) :=
        find_host_using_local_search (data_reader m) (row_x row) (row_y row) g in
      if (flag <? 0)%Z then
        find_host_using_global_search (data_reader m) (row_x row) (row_y row)
      else host_horizontal_elem
  | None =>
      find_host_using_global_search (data_reader m) (row_x row) (row_y row)
  end.

(** The depth of a seed particle after the conversion selected by the
    configuration; with an unrecognised option [z] keeps what it held. *)
Definition seed_depth (m : Model) (st : SeedState) (row : SeedRow)
  (zmin zmax : DTYPE_FLOAT_t) : option DTYPE_FLOAT_t :=
  match depth_coordinates m with
  | cartesian => Some (row_z_temp row + zmax)
  | sigma => Some (sigma_to_cartesian_coords (row_z_temp row) zmin zmax)
  | unrecognised => z st
  end.

(** The body of the seed loop. *)
Definition create_seed_particle (m : Model) (time : DTYPE_FLOAT_t)
  (st : SeedState) (row : SeedRow) : Outcome SeedState :=
  let host_horizontal_elem := seed_host m st row in
  if (0 <=? host_horizontal_elem)%Z then
    let zmin := get_zmin (data_reader m) time (row_x row) (row_y row)
                         host_horizontal_elem in
    let zmax := get_zmax (data_reader m) time (row_x row) (row_y row)
                         host_horizontal_elem in
    match seed_depth m st row zmin zmax with
    | None => Raised UnboundLocalError
    | Some z' =>
        (* Check that the given depth is valid *)
        if Qltb z' zmin then Raised ValueError
        else if Qltb zmax z' then Raised ValueError
        else
          let z_layer :=
            find_zlayer (data_reader m) time (row_x row) (row_y row) z'
                        host_horizontal_elem 0%Z in
          Returned
            (mkSeedState (Some host_horizontal_elem) (Some z')
               (particle_seed_smart_ptrs st
                ++ [mkParticle (row_group row) (row_x row) (row_y row) z'
                               host_horizontal_elem z_layer true])
               (S (particles_in_domain st)))
    end
  else
    Returned
      (mkSeedState (guess st) (z st)
         (particle_seed_smart_ptrs st
          ++ [ParticleSmartPtr_default (row_group row) false])
         (particles_in_domain st)).

(** The seed loop over the zipped arrays. *)
Fixpoint create_seed_loop (m : Model) (time : DTYPE_FLOAT_t)
  (st : SeedState) (rows : list SeedRow) : Outcome SeedState :=
  match rows with
  | [] => Returned st
  | row :: rest =>
      st' <- create_seed_particle m time st row ;;
      create_seed_loop m time st' rest
  end.

(** [_create_seed]: the seed particles, or the exception raised. *)
Definition _create_seed (m : Model) (time : DTYPE_FLOAT_t)
  (rows : list SeedRow) : Outcome (list Particle) :=
  st <- create_seed_loop m time (mkSeedState None None [] O) rows ;;
  Returned (particle_seed_smart_ptrs st).

End CreateSeed.

End FVCOMOPTModel.

(** ** GOTMOPTModel (pylag/model.pyx) *)

Module GOTMOPTModel.

Record Model : Type := mkModel {
  data_reader : DataReader;
  vert_rand_walk_model : option RandomWalk
}.

(** The reflecting surface/bottom correction of [update]:
<<
    if zpos < zmin:
        zpos = zmin + zmin - zpos
    elif zpos > zmax:
        zpos = zmax + zmax - zpos
>> *)
Definition reflect_zpos (zmin zmax zpos : DTYPE_FLOAT_t) : DTYPE_FLOAT_t :=
  if Qltb zpos zmin then zmin + zmin - zpos
  else if Qltb zmax zpos then zmax + zmax - zpos
  else zpos.

(** The validity check that follows it:
<<
    if zpos < zmin:
        raise ValueError(...)
    elif zpos > zmax:
        raise ValueError(...)
>> *)
Definition check_zpos (zmin zmax zpos : DTYPE_FLOAT_t) : Outcome DTYPE_FLOAT_t :=
  if Qltb zpos zmin then Raised ValueError
  else if Qltb zmax zpos then Raised ValueError
  else Returned zpos.

(** Reflection followed by the check: the vertical boundary treatment of one
    particle. *)
Definition apply_vertical_bc (zmin zmax zpos : DTYPE_FLOAT_t)
  : Outcome DTYPE_FLOAT_t :=
  check_zpos zmin zmax (reflect_zpos zmin zmax zpos).

(** The body of the particle loop of [update]. *)
Definition update_particle (m : Model) (time : DTYPE_FLOAT_t) (p : Particle)
  : Outcome Particle :=
  if in_domain p then
    let delta_X :=
      match vert_rand_walk_model m with
      | Some rw => rw time p (data_reader m) reset
      | None => reset
      end in
    let zpos0 := zpos p + delta_z delta_X in
    let zmin := get_zmin (data_reader m) time 0 0 0%Z in
    let zmax := get_zmax (data_reader m) time 0 0 0%Z in
    match apply_vertical_bc zmin zmax zpos0 with
    | Returned zpos1 =>
        let host_z_layer1 :=
          find_zlayer (data_reader m) time (xpos p) (ypos p) zpos1
                      (host_horizontal_elem p) (host_z_layer p) in
        Returned (mkParticle (group_id p) (xpos p) (ypos p) zpos1
                             (host_horizontal_elem p) host_z_layer1
                             (in_domain p))
    | Raised e => Raised e
    | Diverged => Diverged
    end
  else Returned p.

(** [update]: the loop over the particle set.  Particles are updated in
    place, so when one particle raises, the ones before it keep their new
    state and the ones after it keep their old state.  The second component
    tells how the call ended. *)
Fixpoint update (m : Model) (time : DTYPE_FLOAT_t) (ps : list Particle)
  : list Particle * Outcome unit :=
  match ps with
  | [] => ([], Returned tt)
  | p :: rest =>
      match update_particle m time p with
      | Returned p' =>
          let (rest', o) := update m time rest in (p' :: rest', o)
      | Raised e => (p :: rest, Raised e)
      | Diverged => (p :: rest, Diverged)
      end
  end.

(** Successive calls of [update], one per entry of [times]. *)
Fixpoint updates (m : Model) (times : list DTYPE_FLOAT_t)
  (ps : list Particle) : list Particle :=
  match times with
  | [] => ps
  | time :: later => updates m later (fst (update m time ps))
  end.

End GOTMOPTModel.

(** ** Concrete readers, models and particles

    Small instances on which the definitions above are run. *)

Module Fixtures.

(** A channel between the walls [x = 0] and [x = 1]: positions outside it
    are across a land boundary (flag -1). *)
Definition channel_reader : DataReader :=
  mkDataReader
    (fun _ _ x_new _ guess =>
       if Qltb x_new 0 || Qltb 1 x_new then ((-1)%Z, guess) else (0%Z, 0%Z))
    (fun x _ guess =>
       if Qltb x 0 || Qltb 1 x then ((-1)%Z, guess) else (0%Z, 0%Z))
    (fun x _ => if Qltb x 0 || Qltb 1 x then (-1)%Z else 0%Z)
    (fun _ _ _ _ => -1)
    (fun _ _ _ _ => 0)
    (fun _ _ _ _ _ _ => 0%Z).

(** The same strip with an open boundary at [x = 1] (flag -2). *)
Definition open_reader : DataReader :=
  mkDataReader
    (fun _ _ x_new _ guess =>
       if Qltb 1 x_new then ((-2)%Z, guess)
       else if Qltb x_new 0 then ((-1)%Z, guess) else (0%Z, 0%Z))
    (fun x _ guess =>
       if Qltb x 0 || Qltb 1 x then ((-1)%Z, guess) else (0%Z, 0%Z))
    (fun x _ => if Qltb x 0 || Qltb 1 x then (-1)%Z else 0%Z)
    (fun _ _ _ _ => -1)
    (fun _ _ _ _ => 0)
    (fun _ _ _ _ _ _ => 0%Z).

(** Reflection at the walls of the channel. *)
Definition wall_reflection : FVCOMOPTModel.HorizBoundaryConditionCalculator :=
  fun _ _ _ x_new y_new _ =>
    if Qltb 1 x_new then (1 + 1 - x_new, y_new)
    else if Qltb x_new 0 then (0 + 0 - x_new, y_new)
    else (x_new, y_new).

(** A horizontal displacement of [dx] added to the delta. *)
Definition jump (dx : DTYPE_FLOAT_t) : RandomWalk :=
  fun _ _ _ d => mkDelta (delta_x d + dx) (delta_y d) (delta_z d).

(** A vertical displacement of [dz] added to the delta. *)
Definition sink (dz : DTYPE_FLOAT_t) : RandomWalk :=
  fun _ _ _ d => mkDelta (delta_x d) (delta_y d) (delta_z d + dz).

Definition reflecting_vert_bc : FVCOMOPTModel.VertBoundaryConditionCalculator :=
  fun zpos zmin zmax => GOTMOPTModel.reflect_zpos zmin zmax zpos.

(** A particle thrown twelve channel widths to the right. *)
Definition channel_model : FVCOMOPTModel.Model :=
  FVCOMOPTModel.mkModel channel_reader None None (Some (jump 12))
    wall_reflection reflecting_vert_bc 1 FVCOMOPTModel.sigma.

(** A particle pushed across the open boundary. *)
Definition open_model : FVCOMOPTModel.Model :=
  FVCOMOPTModel.mkModel open_reader None None (Some (jump 1))
    wall_reflection reflecting_vert_bc 1 FVCOMOPTModel.sigma.

Definition column_model : GOTMOPTModel.Model :=
  GOTMOPTModel.mkModel channel_reader (Some (sink (1#4))).

Definition p0 : Particle :=
  mkParticle 7%Z (1#2) (1#2) (-(1#2)) 0%Z 0%Z true.

(** The conversion used with the seed fixtures. *)
Definition sigma_to_cartesian_coords (sigma zmin zmax : DTYPE_FLOAT_t)
  : DTYPE_FLOAT_t :=
  zmax + sigma * (zmax - zmin).




(** The same velocity field in a domain that ends at [x = 1]. *)
Definition bounded_reader : RK4Integrator.DataReader :=
  RK4Integrator.mkDataReader
    (fun x _ _ => if Qltb 1 x then (-1)%Z else 0%Z)
    (fun _ x y _ _ => Returned (mkVec3 x ((3#2) * y) 0)).

(** A mediator whose state is the index of the reading frame: frame [m]
    spans the times [m] to [m + 1]; the velocity [u] at the centre of
    element [e] is [e + 1] on every layer and the other fields vanish. *)
Definition fvcom_mediator : FVCOMDataReader.Mediator Z :=
  FVCOMDataReader.mkMediator Z
    (fun _ time => Qfloor time)
    (fun m => inject_Z m)
    (fun m => inject_Z (m + 1))
    (fun _ _ _ => 0)
    (fun _ _ _ => 0)
    (fun _ name _ e => if String.eqb name "u" then inject_Z (e + 1) else 0)
    (fun _ name _ e => if String.eqb name "u" then inject_Z (e + 1) else 0).

Definition fvcom_reader : FVCOMDataReader.Reader Z :=
  FVCOMDataReader._read_time_dependent_vars fvcom_mediator 0%Z.

(** A water column of two layers served frame by frame. *)
Definition gotm_mediator : GOTMDataReader.Mediator Z :=
  GOTMDataReader.mkMediator Z
    (fun _ time => Qfloor time)
    (fun m => inject_Z m)
    (fun m => inject_Z (m + 1))
    (fun m name =>
       if String.eqb name "z" then [-(3#2); -(1#2)]
       else if String.eqb name "h" then [1; 1]
       else if String.eqb name "nuh" then [1#100; 2#100]
       else [inject_Z m])
    (fun m name =>
       if String.eqb name "z" then [-(3#2); -(1#2)]
       else if String.eqb name "h" then [1; 1]
       else if String.eqb name "nuh" then [3#100; 4#100]
       else [inject_Z (m + 1)]).

Definition gotm_reader : GOTMDataReader.Reader Z :=
  GOTMDataReader._read_time_dependent_vars gotm_mediator
    (GOTMDataReader.mkReader 0%Z 2%nat 0 0 0 0 0 0 0 [] [] [] [] [] []).

(** Entry [[i, e]] of an array given row by row; rows are indexed by
    [i]. *)
Definition table {A : Type} (rows : list (list A)) (default : A)
  : Array2 A :=
  fun i e => nth (Z.to_nat e) (nth (Z.to_nat i) rows []) default.

Definition vector {A : Type} (entries : list A) (default : A) : Array1 A :=
  fun i => nth (Z.to_nat i) entries default.

(** A unit square cut into two triangles: element 0 has the nodes
    (0,0), (1,0), (0,1), element 1 the nodes (1,0), (1,1), (0,1).  They
    share the diagonal, which lies opposite the first vertex of element 0
    and opposite the second vertex of element 1; the two other edges of each
    element are land. *)
Definition corner_grid : FVCOMDataReader.Grid :=
  FVCOMDataReader.mkGrid 2%Z 4%Z 2%Z 3%Z
    (table [[0; 1]; [1; 3]; [2; 2]]%Z 0%Z)
    (table [[1; -1]; [-1; 0]; [-1; -1]]%Z 0%Z)
    (vector [0; 1; 0; 1] 0)
    (vector [0; 0; 1; 1] 0)
    (vector [1#3; 2#3] 0)
    (vector [1#3; 2#3] 0)
    (fun _ _ => 0)
    (fun _ _ => 0)
    (table [[0; 0; 0; 0]; [-(1#2); -(1#2); -(1#2); -(1#2)];
            [-1; -1; -1; -1]] 0)
    (table [[-(1#4); -(1#4); -(1#4); -(1#4)];
            [-(3#4); -(3#4); -(3#4); -(3#4)]] 0)
    (vector [10; 10; 10; 10] 0).

(** The triangle (0,0), (1,0), (0,1) surrounded by three neighbours:
    element 1 across the edge opposite vertex 0, element 2 across the edge
    opposite vertex 1, element 3 across the edge opposite vertex 2.  The
    least-squares coefficients of element 0 estimate the x-gradient from the
    host and its first neighbour. *)
Definition interior_grid : FVCOMDataReader.Grid :=
  FVCOMDataReader.mkGrid 4%Z 6%Z 2%Z 3%Z
    (table [[0; 1; 0; 0]; [1; 3; 2; 5]; [2; 2; 4; 1]]%Z 0%Z)
    (table [[1; -1; -1; -1]; [2; 0; -1; 0]; [3; -1; 0; -1]]%Z 0%Z)
    (vector [0; 1; 0; 1; -1; 1] 0)
    (vector [0; 0; 1; 1; 1; -1] 0)
    (vector [1#3; 2#3; -(1#3); 2#3] 0)
    (vector [1#3; 2#3; 2#3; -(1#3)] 0)
    (table [[-1; 0; 0; 0]; [1; 0; 0; 0]; [0; 0; 0; 0]; [0; 0; 0; 0]] 0)
    (fun _ _ => 0)
    (table [[0; 0; 0; 0; 0; 0];
            [-(1#2); -(1#2); -(1#2); -(1#2); -(1#2); -(1#2)];
            [-1; -1; -1; -1; -1; -1]] 0)
    (table [[-(1#4); -(1#4); -(1#4); -(1#4); -(1#4); -(1#4)];
            [-(3#4); -(3#4); -(3#4); -(3#4); -(3#4); -(3#4)]] 0)
    (vector [10; 10; 10; 10; 10; 10] 0).

End Fixtures.

(** ** FVCOMDataReader, continued: global search and the nodal fields *)

Module FVCOMFields.

Import FVCOMDataReader.

(** The test made on each element by the global search:
<<
    phi_test = float_min(float_min(phi[0], phi[1]), phi[2])
    if phi_test >= 0.0:
        return i
    elif phi_test >= -EPSILON:
        ...
        return i
>> *)
Definition element_holds (g : Grid) (xpos ypos : DTYPE_FLOAT_t)
  (i : DTYPE_INT_t) : bool :=
  let phi := _get_phi g xpos ypos i in
  let phi_test := float_min (float_min (v0 phi) (v1 phi)) (v2 phi) in
  if Qleb 0 phi_test then true
  else if Qleb (- EPSILON) phi_test then true
  else false.

(** [for i in xrange(self._n_elems): ...], with [n] elements left to try
    from element [i] on; -1 when the loop ends without a hit. *)
Fixpoint global_search_from (g : Grid) (xpos ypos : DTYPE_FLOAT_t)
  (i : DTYPE_INT_t) (n : nat) : DTYPE_INT_t :=
  match n with
  | O => (-1)%Z
  | S n' =>
      if element_holds g xpos ypos i then i
      else global_search_from g xpos ypos (i + 1)%Z n'
  end.

(** [find_host_using_global_search] *)
Definition find_host_using_global_search (g : Grid)
  (xpos ypos : DTYPE_FLOAT_t) : DTYPE_INT_t :=
  global_search_from g xpos ypos 0%Z (Z.to_nat (_n_elems g)).

(** [_interp_on_sigma_level]: sigma on level [kidx] at the point [phi]. *)
Definition _interp_on_sigma_level (g : Grid) (phi : Vec3)
  (host kidx : DTYPE_INT_t) : DTYPE_FLOAT_t :=
  let sigma_nodes :=
    mkVec3 (_siglev g kidx (_nv g 0%Z host))
           (_siglev g kidx (_nv g 1%Z host))
           (_siglev g kidx (_nv g 2%Z host)) in
  interp.interpolate_within_element sigma_nodes phi.

(** The sigma levels that bound the particle. *)
Record Levels : Type := mkLevels {
  k_lower_level : DTYPE_INT_t;
  k_upper_level : DTYPE_INT_t;
  sigma_lower_level : DTYPE_FLOAT_t;
  sigma_upper_level : DTYPE_FLOAT_t
}.

(** The search of the bounding levels:
<<
    for i in xrange(self._n_siglay):
        k_lower_level = i + 1
        k_upper_level = i
        sigma_lower_level = self._interp_on_sigma_level(phi, host, k_lower_level)
        sigma_upper_level = self._interp_on_sigma_level(phi, host, k_upper_level)
        if zpos <= sigma_upper_level and zpos >= sigma_lower_level:
            particle_found = True
            break
>>
    [n] counts the layers still to be tried, starting at layer [i]. *)
Fixpoint search_levels (g : Grid) (phi : Vec3) (host : DTYPE_INT_t)
  (zpos : DTYPE_FLOAT_t) (i : DTYPE_INT_t) (n : nat) : option Levels :=
  match n with
  | O => None
  | S n' =>
      let k_lower := (i + 1)%Z in
      let k_upper := i in
      let sigma_lower := _interp_on_sigma_level g phi host k_lower in
      let sigma_upper := _interp_on_sigma_level g phi host k_upper in
      if Qleb zpos sigma_upper && Qleb sigma_lower zpos then
        Some (mkLevels k_lower k_upper sigma_lower sigma_upper)
      else search_levels g phi host zpos (i + 1)%Z n'
  end.

Definition find_sigma_levels (g : Grid) (phi : Vec3) (host : DTYPE_INT_t)
  (zpos : DTYPE_FLOAT_t) : option Levels :=
  search_levels g phi host zpos 0%Z (Z.to_nat (_n_siglay g)).

(** The values of a nodal array at the three vertices of [host]. *)
Definition at_vertices (g : Grid) (host : DTYPE_INT_t)
  (field : Array1 DTYPE_FLOAT_t) : Vec3 :=
  mkVec3 (field (_nv g 0%Z host)) (field (_nv g 1%Z host))
         (field (_nv g 2%Z host)).

(** Linear interpolation in time, vertex by vertex. *)
Definition interp_vertices (fraction : DTYPE_FLOAT_t) (last next : Vec3)
  : Vec3 :=
  mkVec3 (interp.linear_interp fraction (v0 last) (v0 next))
         (interp.linear_interp fraction (v1 last) (v1 next))
         (interp.linear_interp fraction (v2 last) (v2 next)).

(** A nodal field on level (or layer) [k], interpolated in time and then
    within the host element. *)
Definition nodal_value (g : Grid) (phi : Vec3)
  (host : DTYPE_INT_t) (time_fraction : DTYPE_FLOAT_t)
  (field_last field_next : Array2 DTYPE_FLOAT_t) (k : DTYPE_INT_t)
  : DTYPE_FLOAT_t :=
  interp.interpolate_within_element
    (interp_vertices time_fraction
       (at_vertices g host (field_last k))
       (at_vertices g host (field_next k)))
    phi.

(** Sea surface elevation and bathymetry at the point [phi] of [host]. *)
Definition zeta_at {M : Type} (g : Grid) (r : Reader M) (phi : Vec3)
  (host : DTYPE_INT_t) (time_fraction : DTYPE_FLOAT_t) : DTYPE_FLOAT_t :=
  interp.interpolate_within_element
    (interp_vertices time_fraction
       (at_vertices g host (_zeta_last r))
       (at_vertices g host (_zeta_next r)))
    phi.

Definition h_at (g : Grid) (phi : Vec3) (host : DTYPE_INT_t)
  : DTYPE_FLOAT_t :=
  interp.interpolate_within_element (at_vertices g host (_h g)) phi.

(** [get_bathymetry] *)
Definition get_bathymetry (g : Grid) (xpos ypos : DTYPE_FLOAT_t)
  (host : DTYPE_INT_t) : DTYPE_FLOAT_t :=
  h_at g (_get_phi g xpos ypos host) host.

(** [get_sea_sur_elev] *)
Definition get_sea_sur_elev {M : Type} (g : Grid) (r : Reader M)
  (time xpos ypos : DTYPE_FLOAT_t) (host : DTYPE_INT_t) : DTYPE_FLOAT_t :=
  let phi := _get_phi g xpos ypos host in
  let time_fraction :=
    interp.get_linear_fraction time (_time_last r) (_time_next r) in
  zeta_at g r phi host time_fraction.

(** The interpolation between the bounding levels that ends
    [get_vertical_eddy_diffusivity] and [_get_omega_velocity]:
<<
    sigma_fraction = interp.get_linear_fraction(zpos, sigma_lower_level, sigma_upper_level)
    if sigma_fraction < 0.0 or sigma_fraction > 1.0:
        raise ValueError('Sigma out of range.')
    return interp.linear_interp(sigma_fraction, lower, upper) / divisor
>>
    where [divisor] is [(h + zeta)**2] for the diffusivity and [h + zeta]
    for omega.  The division is a checked one: with a divisor of zero it
    raises [ZeroDivisionError]. *)
Definition interpolate_between_levels (zpos : DTYPE_FLOAT_t) (lv : Levels)
  (lower upper divisor : DTYPE_FLOAT_t) : Outcome DTYPE_FLOAT_t :=
  let sigma_fraction :=
    interp.get_linear_fraction zpos (sigma_lower_level lv)
                               (sigma_upper_level lv) in
  if Qltb sigma_fraction 0 || Qltb 1 sigma_fraction then Raised ValueError
  else if Qeq_bool divisor 0 then Raised ZeroDivisionError
  else Returned (interp.linear_interp sigma_fraction lower upper / divisor).

(** [get_vertical_eddy_diffusivity] *)
Definition get_vertical_eddy_diffusivity {M : Type} (g : Grid) (r : Reader M)
  (time xpos ypos zpos : DTYPE_FLOAT_t) (host : DTYPE_INT_t)
  : Outcome DTYPE_FLOAT_t :=
  let phi := _get_phi g xpos ypos host in
  match find_sigma_levels g phi host zpos with
  | None => Raised ValueError
  | Some lv =>
      let time_fraction :=
        interp.get_linear_fraction time (_time_last r) (_time_next r) in
      let kh_lower_level :=
        nodal_value g phi host time_fraction
                    (_kh_last r) (_kh_next r) (k_lower_level lv) in
      let kh_upper_level :=
        nodal_value g phi host time_fraction
                    (_kh_last r) (_kh_next r) (k_upper_level lv) in
      let zeta := zeta_at g r phi host time_fraction in
      let h := h_at g phi host in
      interpolate_between_levels zpos lv kh_lower_level kh_upper_level
        ((h + zeta) * (h + zeta))
  end.

(** [_get_omega_velocity] *)
Definition _get_omega_velocity {M : Type} (g : Grid) (r : Reader M)
  (time xpos ypos zpos : DTYPE_FLOAT_t) (host : DTYPE_INT_t) (phi : Vec3)
  : Outcome DTYPE_FLOAT_t :=
  match find_sigma_levels g phi host zpos with
  | None => Raised ValueError
  | Some lv =>
      let time_fraction :=
        interp.get_linear_fraction time (_time_last r) (_time_next r) in
      let omega_lower_level :=
        nodal_value g phi host time_fraction
                    (_omega_last r) (_omega_next r) (k_lower_level lv) in
      let omega_upper_level :=
        nodal_value g phi host time_fraction
                    (_omega_last r) (_omega_next r) (k_upper_level lv) in
      let zeta := zeta_at g r phi host time_fraction in
      let h := h_at g phi host in
      interpolate_between_levels zpos lv omega_lower_level omega_upper_level
        (h + zeta)
  end.

(** [get_velocity]: the horizontal components first, then omega. *)
Definition get_velocity {M : Type} (g : Grid) (r : Reader M)
  (time xpos ypos zpos : DTYPE_FLOAT_t) (host : DTYPE_INT_t) : Outcome Vec3 :=
  let phi := _get_phi g xpos ypos host in
  vel_uv <- _get_uv_velocity_using_linear_least_squares_interpolation
              g r time xpos ypos zpos host ;;
  omega <- _get_omega_velocity g r time xpos ypos zpos host phi ;;
  Returned (mkVec3 (fst vel_uv) (snd vel_uv) omega).

(** The probe point of [get_vertical_eddy_diffusivity_derivative]:
<<
    zpos_increment = 1.0e-3
    if ((zpos + zpos_increment) > 0.0):
        zpos_increment = -zpos_increment
    zpos_incremented = zpos + zpos_increment
>> *)
Definition zpos_increment (zpos : DTYPE_FLOAT_t) : DTYPE_FLOAT_t :=
  if Qltb 0 (zpos + (1#1000)) then - (1#1000) else 1#1000.

Definition zpos_incremented (zpos : DTYPE_FLOAT_t) : DTYPE_FLOAT_t :=
  zpos + zpos_increment zpos.

(** [get_vertical_eddy_diffusivity_derivative] *)
Definition get_vertical_eddy_diffusivity_derivative {M : Type} (g : Grid)
  (r : Reader M) (time xpos ypos zpos : DTYPE_FLOAT_t) (host : DTYPE_INT_t)
  : Outcome DTYPE_FLOAT_t :=
  k1 <- get_vertical_eddy_diffusivity g r time xpos ypos zpos host ;;
  k2 <- get_vertical_eddy_diffusivity g r time xpos ypos
          (zpos_incremented zpos) host ;;
  Returned ((k2 - k1) / zpos_increment zpos).

(** [get_horizontal_eddy_diffusivity]: [viscofh] lives at the nodes, on
    sigma layers. *)
Definition get_horizontal_eddy_diffusivity {M : Type} (g : Grid)
  (r : Reader M) (time xpos ypos zpos : DTYPE_FLOAT_t) (host : DTYPE_INT_t)
  : Outcome DTYPE_FLOAT_t :=
  let phi := _get_phi g xpos ypos host in
  match find_sigma_layers g phi host zpos with
  | None => Raised ValueError
  | Some location =>
      let time_fraction :=
        interp.get_linear_fraction time (_time_last r) (_time_next r) in
      if Qltb time_fraction 0 || Qltb 1 time_fraction then Raised ValueError
      else
        let viscofh_on := fun k =>
          nodal_value g phi host time_fraction
                      (_viscofh_last r) (_viscofh_next r) k in
        match location with
        | AtBoundary k_boundary => Returned (viscofh_on k_boundary)
        | BetweenLayers k_lower_layer k_upper_layer
                        sigma_lower_layer sigma_upper_layer =>
            let sigma_fraction :=
              interp.get_linear_fraction zpos sigma_lower_layer
                                         sigma_upper_layer in
            if Qltb sigma_fraction 0 || Qltb 1 sigma_fraction
            then Raised ValueError
            else Returned (interp.linear_interp sigma_fraction
                             (viscofh_on k_lower_layer)
                             (viscofh_on k_upper_layer))
        end
  end.

(** What the layer search guarantees about the location it reports. *)
Definition location_brackets (g : Grid) (phi : Vec3)
  (host : Z) (zpos : Q) (location : SigmaLocation) : Prop :=
  let sigma := _interp_on_sigma_layer g phi host in
  match location with
  | AtBoundary k =>
      (k = 0%Z /\ sigma 0%Z <= zpos)
      \/ (k = (_n_siglay g - 1)%Z /\ zpos <= sigma k)
  | BetweenLayers k_lower k_upper s_lower s_upper =>
      (1 <= k_lower < _n_siglay g)%Z
      /\ k_upper = (k_lower - 1)%Z
      /\ s_lower = sigma k_lower /\ s_upper = sigma k_upper
      /\ s_lower <= zpos /\ zpos < s_upper
  end.

(** The water depth [h + zeta] that the two level lookups compute at the
    point and time they are asked about, and by which they divide. *)
Definition depth_at {M : Type} (g : Grid) (r : Reader M)
  (time xpos ypos : DTYPE_FLOAT_t) (host : DTYPE_INT_t) : DTYPE_FLOAT_t :=
  let phi := _get_phi g xpos ypos host in
  let time_fraction :=
    interp.get_linear_fraction time (_time_last r) (_time_next r) in
  h_at g phi host + zeta_at g r phi host time_fraction.

(** Twice the signed area of element [host], the denominator of its
    barycentric coordinates; it vanishes for a degenerate element. *)
Definition twice_area (g : Grid) (host : DTYPE_INT_t) : DTYPE_FLOAT_t :=
  let vertex := fun i => _nv g i host in
  (_y g (vertex 1%Z) - _y g (vertex 2%Z))
  * (_x g (vertex 0%Z) - _x g (vertex 2%Z))
  + (_x g (vertex 2%Z) - _x g (vertex 1%Z))
    * (_y g (vertex 0%Z) - _y g (vertex 2%Z)).

(** A nodal field that equals [a + b x + c y] at the three vertices of
    [host]. *)
Definition on_plane (g : Grid) (host : DTYPE_INT_t)
  (field : Array1 DTYPE_FLOAT_t) (a b c : DTYPE_FLOAT_t) : Prop :=
  let vertex := fun i => _nv g i host in
  field (vertex 0%Z) == a + b * _x g (vertex 0%Z) + c * _y g (vertex 0%Z)
  /\ field (vertex 1%Z) == a + b * _x g (vertex 1%Z) + c * _y g (vertex 1%Z)
  /\ field (vertex 2%Z) == a + b * _x g (vertex 2%Z) + c * _y g (vertex 2%Z).

End FVCOMFields.
(** ** GOTMDataReader, continued: the vertical grid and the diffusivity *)

Module GOTMColumn.

Import GOTMDataReader.

Section Column.

(** [sigma_to_cartesian_coords] is cimported from [data_reader], which
    declares it elsewhere: the conversion is a parameter. *)
Variable sigma_to_cartesian_coords :
  DTYPE_FLOAT_t -> DTYPE_FLOAT_t -> DTYPE_FLOAT_t -> DTYPE_FLOAT_t.

(** [self._zlev[k]] *)
Definition zlev_at (zlev : list DTYPE_FLOAT_t) (k : DTYPE_INT_t)
  : DTYPE_FLOAT_t :=
  nth (Z.to_nat k) zlev 0.

(** [z <= self._zlev[k+1] and z >= self._zlev[k]] *)
Definition layer_holds (zlev : list DTYPE_FLOAT_t) (z : DTYPE_FLOAT_t)
  (k : DTYPE_INT_t) : bool :=
  Qleb z (zlev_at zlev (k + 1)%Z) && Qleb (zlev_at zlev k) z.

(** The local search:
<<
    for k in xrange(guess-2, guess+2, 1):
        if k < 0 or k >= self._n_zlay:
            continue
        if z <= self._zlev[k+1] and z >= self._zlev[k]:
            return k
>> *)
Fixpoint search_window (n_zlay : DTYPE_INT_t) (zlev : list DTYPE_FLOAT_t)
  (z : DTYPE_FLOAT_t) (ks : list DTYPE_INT_t) : option DTYPE_INT_t :=
  match ks with
  | [] => None
  | k :: rest =>
      if (k <? 0)%Z || (n_zlay <=? k)%Z then
        search_window n_zlay zlev z rest
      else if layer_holds zlev z k then Some k
      else search_window n_zlay zlev z rest
  end.

(** The search of the full vertical grid:
<<
    for k in xrange(self._n_zlay):
        if z <= self._zlev[k+1] and z >= self._zlev[k]:
            return k
>> *)
Fixpoint search_column (zlev : list DTYPE_FLOAT_t) (z : DTYPE_FLOAT_t)
  (k : DTYPE_INT_t) (n : nat) : option DTYPE_INT_t :=
  match n with
  | O => None
  | S n' =>
      if layer_holds zlev z k then Some k
      else search_column zlev z (k + 1)%Z n'
  end.

(** [find_zlayer]: a local search around [guess], then the full grid.  The
    body ends in [raise ValueError] when both searches fail, but the
    function is declared [cpdef DTYPE_INT_t] with no [except] clause: the
    exception cannot leave the call, it is reported and the call returns
    0. *)
Definition find_zlayer {M : Type} (r : Reader M)
  (time xpos ypos zpos : DTYPE_FLOAT_t) (host guess : DTYPE_INT_t)
  : DTYPE_INT_t :=
  let z := sigma_to_cartesian_coords zpos (_H r) (_zeta r) in
  let n_zlay := Z.of_nat (_n_zlay r) in
  match search_window n_zlay (_zlev r) z
          [(guess - 2)%Z; (guess - 1)%Z; guess; (guess + 1)%Z] with
  | Some k => k
  | None =>
      match search_column (_zlev r) z 0%Z (_n_zlay r) with
      | Some k => k
      | None => 0%Z
      end
  end.

(** [get_vertical_eddy_diffusivity] *)
Definition get_vertical_eddy_diffusivity {M : Type} (r : Reader M)
  (time xpos ypos zpos : DTYPE_FLOAT_t) (host zlayer : DTYPE_INT_t)
  : DTYPE_FLOAT_t :=
  let z := sigma_to_cartesian_coords zpos (_H r) (_zeta r) in
  let z_fraction :=
    interp.get_linear_fraction_safe z (zlev_at (_zlev r) zlayer)
                                    (zlev_at (_zlev r) (zlayer + 1)%Z) in
  interp.linear_interp z_fraction (zlev_at (_kh r) zlayer)
                       (zlev_at (_kh r) (zlayer + 1)%Z)
  / ((_H r + _zeta r) * (_H r + _zeta r)).

End Column.

(** The shape of the snapshots that [_read_time_dependent_vars] builds: one
    entry per interface and no diffusivity at the interface that GOTM does
    not save. *)
Definition snapshots_shaped {M : Type} (r : Reader M) : Prop :=
  length (_zlev_last r) = _n_zlev r
  /\ length (_zlev_next r) = _n_zlev r
  /\ length (_kh_last r) = _n_zlev r
  /\ length (_kh_next r) = _n_zlev r
  /\ nth 0 (_kh_last r) 0 = 0
  /\ nth 0 (_kh_next r) 0 = 0.

End GOTMColumn.

(** ** AnalyticDataReader (analytic test reader of the integrators) *)

Module AnalyticDataReader.

Definition _get_u_component (xpos : DTYPE_FLOAT_t) : DTYPE_FLOAT_t := xpos.

Definition _get_v_component (ypos : DTYPE_FLOAT_t) : DTYPE_FLOAT_t :=
  (3#2) * ypos.

(** [find_host] always answers 0; [get_velocity] is [(x, 1.5 y, 0)]. *)
Definition data_reader : RK4Integrator.DataReader :=
  RK4Integrator.mkDataReader
    (fun _ _ _ => 0%Z)
    (fun _ xpos ypos _ _ =>
       Returned (mkVec3 (_get_u_component xpos) (_get_v_component ypos) 0)).

(** The fourth-order Taylor polynomial of the exponential. *)
Definition taylor4 (a : Q) : Q :=
  1 + a + a * a / 2 + a * a * a / 6 + a * a * a * a / 24.

End AnalyticDataReader.

(** ** MockTwoDNumMethod (pylag/mock.pyx): the walls of the test box *)

Module MockTwoDNumMethod.

(** The boundary treatment applied to each coordinate after the step:
<<
    while xpos_new < xmin or xpos_new > xmax:
        if xpos_new < xmin:
            xpos_new = xmin + xmin - xpos_new
        elif xpos_new > xmax:
            xpos_new = xmax + xmax - xpos_new
>>
    The result carries the number of passes made (a ghost counter). *)
Fixpoint reflect_into (fuel : nat) (xmin xmax xpos_new : DTYPE_FLOAT_t)
  : Outcome (nat * DTYPE_FLOAT_t) :=
  if Qltb xpos_new xmin || Qltb xmax xpos_new then
    match fuel with
    | O => Diverged
    | S fuel' =>
        r <- reflect_into fuel' xmin xmax
               (if Qltb xpos_new xmin then xmin + xmin - xpos_new
                else if Qltb xmax xpos_new then xmax + xmax - xpos_new
                else xpos_new) ;;
        Returned (S (fst r), snd r)
    end
  else Returned (O, xpos_new).

End MockTwoDNumMethod.

(** ** RefHorizBoundaryConditionCalculator (pylag/boundary_conditions) *)

Module RefHorizBoundaryConditionCalculator.

(** Two-dimensional position and direction vectors, [DTYPE_FLOAT_t a[2]]. *)
Record Vec2 : Type := mkVec2 {
  c0 : DTYPE_FLOAT_t;
  c1 : DTYPE_FLOAT_t
}.

(** Modelled from the spec: [math.inner_product] is missing; it is the
    scalar product [n . d] of two vectors. *)
Definition inner_product (a b : Vec2) : DTYPE_FLOAT_t :=
  c0 a * c0 b + c1 a * c1 b.

(** What [data_reader.get_boundary_intersection] hands back: the end points
    [x1], [x2] of the side that was crossed and the intersection [xi]. *)
Record Intersection : Type := mkIntersection {
  side_x1 : Vec2;
  side_x2 : Vec2;
  side_xi : Vec2
}.

Definition BoundaryReader : Type :=
  DTYPE_FLOAT_t -> DTYPE_FLOAT_t -> DTYPE_FLOAT_t -> DTYPE_FLOAT_t ->
  DTYPE_INT_t -> Intersection.

(** The reflection itself, once the side is known:
<<
    for i in xrange(2):
        d[i] = x4[i] - xi[i]
    n[0] = x2[1] - x1[1]; n[1] = x1[0] - x2[0]
    mult = 2.0 * inner_product(n, d) / inner_product(n, n)
    for i in xrange(2):
        r[i] = d[i] - mult*n[i]
        x4_prime[i] = xi[i] + r[i]
>> *)
Definition normal (s : Intersection) : Vec2 :=
  mkVec2 (c1 (side_x2 s) - c1 (side_x1 s)) (c0 (side_x1 s) - c0 (side_x2 s)).

Definition reflect (s : Intersection) (x4 : Vec2) : Vec2 :=
  let xi := side_xi s in
  let d := mkVec2 (c0 x4 - c0 xi) (c1 x4 - c1 xi) in
  let n := normal s in
  let mult := 2 * inner_product n d / inner_product n n in
  let r := mkVec2 (c0 d - mult * c0 n) (c1 d - mult * c1 n) in
  mkVec2 (c0 xi + c0 r) (c1 xi + c1 r).

(** [apply] *)
Definition apply (get_boundary_intersection : BoundaryReader)
  (x_old y_old x_new y_new : DTYPE_FLOAT_t) (last_host : DTYPE_INT_t)
  : DTYPE_FLOAT_t * DTYPE_FLOAT_t :=
  let x4 := mkVec2 x_new y_new in
  let s := get_boundary_intersection x_old y_old x_new y_new last_host in
  let x4_prime := reflect s x4 in
  (c0 x4_prime, c1 x4_prime).

End RefHorizBoundaryConditionCalculator.

(** ** GOTMOPTModel._create_seed (pylag/model.pyx) *)

Module GOTMSeed.

Section CreateSeed.

(** [math.cartesian_to_sigma_coords] is cimported from [pylag/math], which
    is not among the sources: the conversion is a parameter. *)
Variable cartesian_to_sigma_coords :
  DTYPE_FLOAT_t -> DTYPE_FLOAT_t -> DTYPE_FLOAT_t -> DTYPE_FLOAT_t.

(** The reader operations used only here. *)
Variable get_bathymetry :
  DTYPE_FLOAT_t -> DTYPE_FLOAT_t -> DTYPE_INT_t -> DTYPE_FLOAT_t.
Variable get_sea_sur_elev :
  DTYPE_FLOAT_t -> DTYPE_FLOAT_t -> DTYPE_FLOAT_t -> DTYPE_INT_t ->
  DTYPE_FLOAT_t.

(** The Python locals that live across the iterations: [sigma] (unbound at
    first) and the list of seed particles. *)
Record SeedState : Type := mkSeedState {
  sigma : option DTYPE_FLOAT_t;
  particle_seed_smart_ptrs : list Particle
}.

(** The depth in sigma coordinates selected by the configuration; with an
    unrecognised option [sigma] keeps what it held. *)
Definition seed_sigma (dc : FVCOMOPTModel.DepthCoordinates)
  (dr : DataReader) (time : DTYPE_FLOAT_t) (st : SeedState)
  (row : FVCOMOPTModel.SeedRow) : option DTYPE_FLOAT_t :=
  let x := FVCOMOPTModel.row_x row in
  let y := FVCOMOPTModel.row_y row in
  let host := 0%Z in
  match dc with
  | FVCOMOPTModel.cartesian =>
      let h := get_bathymetry x y host in
      let zeta := get_sea_sur_elev time x y host in
      let z := FVCOMOPTModel.row_z_temp row + zeta in
      Some (cartesian_to_sigma_coords z h zeta)
  | FVCOMOPTModel.sigma => Some (FVCOMOPTModel.row_z_temp row)
  | FVCOMOPTModel.unrecognised => sigma st
  end.

(** The body of the seed loop. *)
Definition create_seed_particle (dc : FVCOMOPTModel.DepthCoordinates)
  (dr : DataReader) (time : DTYPE_FLOAT_t) (st : SeedState)
  (row : FVCOMOPTModel.SeedRow) : Outcome SeedState :=
  let x := FVCOMOPTModel.row_x row in
  let y := FVCOMOPTModel.row_y row in
  let in_dom := true in
  let host := 0%Z in
  match seed_sigma dc dr time st row with
  | None => Raised UnboundLocalError
  | Some sigma' =>
      let zmin := get_zmin dr time x y host in
      let zmax := get_zmax dr time x y host in
      if Qltb sigma' zmin then Raised ValueError
      else if Qltb zmax sigma' then Raised ValueError
      else
        let z_layer := find_zlayer dr time x y sigma' host 0%Z in
        Returned
          (mkSeedState (Some sigma')
             (particle_seed_smart_ptrs st
              ++ [mkParticle (FVCOMOPTModel.row_group row) x y sigma' host
                             z_layer in_dom]))
  end.

Fixpoint create_seed_loop (dc : FVCOMOPTModel.DepthCoordinates)
  (dr : DataReader) (time : DTYPE_FLOAT_t) (st : SeedState)
  (rows : list FVCOMOPTModel.SeedRow) : Outcome SeedState :=
  match rows with
  | [] => Returned st
  | row :: rest =>
      st' <- create_seed_particle dc dr time st row ;;
      create_seed_loop dc dr time st' rest
  end.

(** [_create_seed]: the seed particles, or the exception raised. *)
Definition _create_seed (dc : FVCOMOPTModel.DepthCoordinates)
  (dr : DataReader) (time : DTYPE_FLOAT_t)
  (rows : list FVCOMOPTModel.SeedRow) : Outcome (list Particle) :=
  st <- create_seed_loop dc dr time (mkSeedState None []) rows ;;
  Returned (particle_seed_smart_ptrs st).

End CreateSeed.

End GOTMSeed.

(** ** Further concrete instances *)

Module MoreFixtures.

(** The wall [x = 1], from (1,1) down to (1,0), and the point where the
    segment from the old to the new position meets it. *)
Definition wall_intersection
  : RefHorizBoundaryConditionCalculator.BoundaryReader :=
  fun x_old y_old x_new y_new _ =>
    RefHorizBoundaryConditionCalculator.mkIntersection
      (RefHorizBoundaryConditionCalculator.mkVec2 1 1)
      (RefHorizBoundaryConditionCalculator.mkVec2 1 0)
      (RefHorizBoundaryConditionCalculator.mkVec2 1
         (y_old + (y_new - y_old) * (1 - x_old) / (x_new - x_old))).

(** A reader of a water column between [zmin = -1] and [zmax = 0]. *)
Definition column_reader : DataReader :=
  mkDataReader
    (fun _ _ _ _ _ => (0%Z, 0%Z))
    (fun _ _ _ => (0%Z, 0%Z))
    (fun _ _ => 0%Z)
    (fun _ _ _ _ => -1)
    (fun _ _ _ _ => 0)
    (fun _ _ _ _ _ _ => 0%Z).

Definition gentle_column_model : GOTMOPTModel.Model :=
  GOTMOPTModel.mkModel column_reader (Some (Fixtures.sink (1#4))).

Definition seed_rows : list FVCOMOPTModel.SeedRow :=
  [FVCOMOPTModel.mkSeedRow 7%Z (1#2) (1#2) (-(1#2));
   FVCOMOPTModel.mkSeedRow 8%Z (3#2) (1#2) (-(1#4));
   FVCOMOPTModel.mkSeedRow 9%Z (1#4) (1#2) 0].

(** The mesh of [Fixtures.interior_grid] over a bed that deepens as
    [10 + 2 x + 3 y]. *)
Definition sloping_grid : FVCOMDataReader.Grid :=
  FVCOMDataReader.mkGrid
    (FVCOMDataReader._n_elems Fixtures.interior_grid)
    (FVCOMDataReader._n_nodes Fixtures.interior_grid)
    (FVCOMDataReader._n_siglay Fixtures.interior_grid)
    (FVCOMDataReader._n_siglev Fixtures.interior_grid)
    (FVCOMDataReader._nv Fixtures.interior_grid)
    (FVCOMDataReader._nbe Fixtures.interior_grid)
    (FVCOMDataReader._x Fixtures.interior_grid)
    (FVCOMDataReader._y Fixtures.interior_grid)
    (FVCOMDataReader._xc Fixtures.interior_grid)
    (FVCOMDataReader._yc Fixtures.interior_grid)
    (FVCOMDataReader._a1u Fixtures.interior_grid)
    (FVCOMDataReader._a2u Fixtures.interior_grid)
    (FVCOMDataReader._siglev Fixtures.interior_grid)
    (FVCOMDataReader._siglay Fixtures.interior_grid)
    (Fixtures.vector [10; 12; 13; 15; 11; 9] 0).

(** A reader whose surface tilts from [zeta = x] at time 0 to
    [zeta = 1 + y] at time 1; the other fields are those of
    [Fixtures.fvcom_reader]. *)
Definition tilting_reader : FVCOMDataReader.Reader Z :=
  FVCOMDataReader.mkReader 0%Z
    (Fixtures.vector [0; 1; 0; 1; -1; 1] 0)
    (Fixtures.vector [1; 1; 2; 2; 2; 0] 0)
    (FVCOMDataReader._u_last Fixtures.fvcom_reader)
    (FVCOMDataReader._u_next Fixtures.fvcom_reader)
    (FVCOMDataReader._v_last Fixtures.fvcom_reader)
    (FVCOMDataReader._v_next Fixtures.fvcom_reader)
    (FVCOMDataReader._omega_last Fixtures.fvcom_reader)
    (FVCOMDataReader._omega_next Fixtures.fvcom_reader)
    (FVCOMDataReader._kh_last Fixtures.fvcom_reader)
    (FVCOMDataReader._kh_next Fixtures.fvcom_reader)
    (FVCOMDataReader._viscofh_last Fixtures.fvcom_reader)
    (FVCOMDataReader._viscofh_next Fixtures.fvcom_reader)
    0 1.

(** The GOTM column of [Fixtures.gotm_reader] once data have been read
    for the time 1/2: depth 2, elevation 1/2, interfaces at -2, -1 and 0. *)
Definition gotm_reader_at_half : GOTMDataReader.Reader Z :=
  GOTMDataReader.read_data Fixtures.gotm_mediator Fixtures.gotm_reader (1#2).

(** The channel of [Fixtures.channel_model] with a step of three quarters
    of its width: from the middle the particle meets the wall [x = 1]
    once. *)
Definition nudged_model : FVCOMOPTModel.Model :=
  FVCOMOPTModel.mkModel Fixtures.channel_reader None None
    (Some (Fixtures.jump (3#4))) Fixtures.wall_reflection
    Fixtures.reflecting_vert_bc 1 FVCOMOPTModel.sigma.

End MoreFixtures.
(** ** Auxiliary facts on the boolean float tests *)

Lemma Qltb_true (a b : Q) : Qltb a b = true <-> a < b.
Proof.
  unfold Qltb. rewrite negb_true_iff.
  split; intro H.
  - apply Qnot_le_lt. intro L. apply Qle_bool_iff in L. congruence.
  - destruct (Qle_bool b a) eqn:E; [|reflexivity].
    apply Qle_bool_iff in E. apply Qle_not_lt in E. contradiction.
Qed.

Lemma Qltb_false (a b : Q) : Qltb a b = false <-> b <= a.
Proof.
  unfold Qltb. rewrite negb_false_iff. apply Qle_bool_iff.
Qed.

Lemma Qltb_spec (a b : Q) : reflect (a < b) (Qltb a b).
Proof.
  destruct (Qltb a b) eqn:E; constructor.
  - now apply Qltb_true.
  - apply Qltb_false in E. now apply Qle_not_lt.
Qed.

(** * Properties *)

(** ** Vertical boundary treatment of the GOTM driver *)

Lemma reflect_zpos_cases (zmin zmax z : Q) :
  (z < zmin /\ GOTMOPTModel.reflect_zpos zmin zmax z = zmin + zmin - z)
  \/ (zmin <= z /\ zmax < z
      /\ GOTMOPTModel.reflect_zpos zmin zmax z = zmax + zmax - z)
  \/ (zmin <= z /\ z <= zmax /\ GOTMOPTModel.reflect_zpos zmin zmax z = z).
Proof.
  unfold GOTMOPTModel.reflect_zpos.
  destruct (Qltb_spec z zmin) as [Hlo | Hlo].
  - left. split; [assumption | reflexivity].
  - apply Qnot_lt_le in Hlo.
    destruct (Qltb_spec zmax z) as [Hhi | Hhi].
    + right; left. repeat split; assumption.
    + apply Qnot_lt_le in Hhi. right; right. repeat split; assumption.
Qed.

Lemma check_zpos_ok (zmin zmax z : Q) :
  zmin <= z -> z <= zmax -> GOTMOPTModel.check_zpos zmin zmax z = Returned z.
Proof.
  intros Hlo Hhi. unfold GOTMOPTModel.check_zpos.
  destruct (Qltb_spec z zmin); [lra|].
  destruct (Qltb_spec zmax z); [lra|].
  reflexivity.
Qed.

Lemma check_zpos_raises (zmin zmax z : Q) :
  z < zmin \/ zmax < z ->
  GOTMOPTModel.check_zpos zmin zmax z = Raised ValueError.
Proof.
  intros H. unfold GOTMOPTModel.check_zpos.
  destruct (Qltb_spec z zmin); [reflexivity|].
  destruct (Qltb_spec zmax z); [reflexivity|].
  lra.
Qed.

Lemma check_zpos_returned (zmin zmax z z' : Q) :
  GOTMOPTModel.check_zpos zmin zmax z = Returned z' ->
  z' = z /\ zmin <= z /\ z <= zmax.
Proof.
  unfold GOTMOPTModel.check_zpos.
  destruct (Qltb_spec z zmin); [discriminate|].
  destruct (Qltb_spec zmax z); [discriminate|].
  intros [= <-]. repeat split; lra.
Qed.

(** Claim C7, as the code has it: on [zmin < zmax] the correction reflects
    once about the bound that was crossed ([zmin + zmin - z] below the floor,
    [zmax + zmax - z] above the surface) and leaves a position inside the
    column alone.  There is no second reflection and no clamping: when the
    reflected position overshoots the opposite bound the call raises
    [ValueError].  Whenever a position is produced it lies in
    [[zmin, zmax]]. *)
Theorem vertical_bc_reflects_once (zmin zmax z : Q) :
  zmin < zmax ->
  let r := GOTMOPTModel.apply_vertical_bc zmin zmax z in
  (zmin <= z -> z <= zmax -> r = Returned z)
  /\ (z < zmin -> zmin + zmin - z <= zmax -> r = Returned (zmin + zmin - z))
  /\ (zmax < z -> zmin <= zmax + zmax - z -> r = Returned (zmax + zmax - z))
  /\ (z < zmin -> zmax < zmin + zmin - z -> r = Raised ValueError)
  /\ (zmax < z -> zmax + zmax - z < zmin -> r = Raised ValueError)
  /\ (forall z', r = Returned z' -> zmin <= z' /\ z' <= zmax).
Proof.
  intros Hlt r. subst r. unfold GOTMOPTModel.apply_vertical_bc.
  destruct (reflect_zpos_cases zmin zmax z)
    as [[H1 ->] | [(H1 & H2 & ->) | (H1 & H2 & ->)]].
  - repeat split; intros; try lra.
    + apply check_zpos_ok; lra.
    + apply check_zpos_raises; lra.
    + apply check_zpos_returned in H as (-> & ? & ?); assumption.
    + apply check_zpos_returned in H as (-> & ? & ?); assumption.
  - repeat split; intros; try lra.
    + apply check_zpos_ok; lra.
    + apply check_zpos_raises; lra.
    + apply check_zpos_returned in H as (-> & ? & ?); assumption.
    + apply check_zpos_returned in H as (-> & ? & ?); assumption.
  - repeat split; intros; try lra.
    + apply check_zpos_ok; lra.
    + apply check_zpos_returned in H as (-> & ? & ?); assumption.
    + apply check_zpos_returned in H as (-> & ? & ?); assumption.
Qed.

Lemma vertical_bc_reflects_once_witness :
  -1 < 0
  /\ GOTMOPTModel.apply_vertical_bc (-1) 0 (1#2) = Returned (0 + 0 - (1#2)).
Proof.
  split; [reflexivity|].
  destruct (vertical_bc_reflects_once (-1) 0 (1#2)) as (_ & _ & H & _).
  - reflexivity.
  - apply H.
    + reflexivity.
    + vm_compute. discriminate.
Defined.

(** Claim C7 fails on the code: with [zmin = -1], [zmax = 0] and [z = 2] the
    reflected position [-2] lies below the floor, and the call raises instead
    of producing a position in the column. *)
Lemma vertical_bc_overshoot_raises :
  -1 < 0
  /\ GOTMOPTModel.apply_vertical_bc (-1) 0 2 = Raised ValueError
  /\ ~ (exists z', GOTMOPTModel.apply_vertical_bc (-1) 0 2 = Returned z'
                   /\ -1 <= z' /\ z' <= 0).
Proof.
  split; [reflexivity|]. split; [reflexivity|].
  intros (z' & H & _). vm_compute in H. discriminate.
Qed.

(** ** The particle loop of the drivers *)

Lemma fvcom_update_particle_out (fuel : nat) (m : FVCOMOPTModel.Model)
  (time : Q) (p : Particle) :
  in_domain p = false ->
  FVCOMOPTModel.update_particle fuel m time p = Returned p.
Proof.
  intros H. unfold FVCOMOPTModel.update_particle. now rewrite H.
Qed.

Lemma gotm_update_particle_out (m : GOTMOPTModel.Model) (time : Q)
  (p : Particle) :
  in_domain p = false ->
  GOTMOPTModel.update_particle m time p = Returned p.
Proof.
  intros H. unfold GOTMOPTModel.update_particle. now rewrite H.
Qed.

Lemma fvcom_update_keeps_out (fuel : nat) (m : FVCOMOPTModel.Model) (time : Q) :
  forall (ps : list Particle) (i : nat) (p : Particle),
    nth_error ps i = Some p -> in_domain p = false ->
    nth_error (fst (FVCOMOPTModel.update fuel m time ps)) i = Some p.
Proof.
  induction ps as [|a rest IH]; intros i p Hnth Hout.
  - destruct i; discriminate.
  - cbn [FVCOMOPTModel.update].
    destruct (FVCOMOPTModel.update_particle fuel m time a) as [a'| |] eqn:Ea;
      try exact Hnth.
    destruct (FVCOMOPTModel.update fuel m time rest) as [rest' o] eqn:Er.
    destruct i as [|j]; cbn [fst nth_error] in *.
    + injection Hnth as ->.
      rewrite (fvcom_update_particle_out fuel m time p Hout) in Ea.
      now injection Ea as ->.
    + exact (IH j p Hnth Hout).
Qed.

Lemma gotm_update_keeps_out (m : GOTMOPTModel.Model) (time : Q) :
  forall (ps : list Particle) (i : nat) (p : Particle),
    nth_error ps i = Some p -> in_domain p = false ->
    nth_error (fst (GOTMOPTModel.update m time ps)) i = Some p.
Proof.
  induction ps as [|a rest IH]; intros i p Hnth Hout.
  - destruct i; discriminate.
  - cbn [GOTMOPTModel.update].
    destruct (GOTMOPTModel.update_particle m time a) as [a'| |] eqn:Ea;
      try exact Hnth.
    destruct (GOTMOPTModel.update m time rest) as [rest' o] eqn:Er.
    destruct i as [|j]; cbn [fst nth_error] in *.
    + injection Hnth as ->.
      rewrite (gotm_update_particle_out m time p Hout) in Ea.
      now injection Ea as ->.
    + exact (IH j p Hnth Hout).
Qed.

(** Claim C9: a particle whose [in_domain] flag is false keeps every one of
    its fields through any number of later calls of [update], in the FVCOM
    driver and in the GOTM driver alike, whatever happens to the other
    particles of the set. *)
Theorem out_of_domain_is_terminal
  (fuel : nat) (fm : FVCOMOPTModel.Model) (gm : GOTMOPTModel.Model)
  (times : list Q) (ps : list Particle) (i : nat) (p : Particle) :
  nth_error ps i = Some p ->
  in_domain p = false ->
  nth_error (FVCOMOPTModel.updates fuel fm times ps) i = Some p
  /\ nth_error (GOTMOPTModel.updates gm times ps) i = Some p.
Proof.
  intros Hnth Hout. split.
  - revert ps Hnth. induction times as [|t later IH]; intros ps Hnth.
    + exact Hnth.
    + cbn [FVCOMOPTModel.updates]. apply IH.
      now apply fvcom_update_keeps_out.
  - revert ps Hnth. induction times as [|t later IH]; intros ps Hnth.
    + exact Hnth.
    + cbn [GOTMOPTModel.updates]. apply IH.
      now apply gotm_update_keeps_out.
Qed.

Lemma out_of_domain_is_terminal_witness :
  nth_error
    (FVCOMOPTModel.updates 20 Fixtures.channel_model [0; 1]
       [Fixtures.p0; set_out_of_domain Fixtures.p0]) 1
  = Some (set_out_of_domain Fixtures.p0)
  /\ nth_error
       (GOTMOPTModel.updates Fixtures.column_model [0; 1]
          [Fixtures.p0; set_out_of_domain Fixtures.p0]) 1
     = Some (set_out_of_domain Fixtures.p0).
Proof.
  apply (out_of_domain_is_terminal 20 Fixtures.channel_model
           Fixtures.column_model [0; 1]
           [Fixtures.p0; set_out_of_domain Fixtures.p0] 1
           (set_out_of_domain Fixtures.p0)).
  - reflexivity.
  - reflexivity.
Defined.

(** ** The land-boundary loop of [FVCOMOPTModel.update] *)

Lemma bc_loop_unfold (fuel : nat) (m : FVCOMOPTModel.Model) (p : Particle)
  (s : FVCOMOPTModel.Located) :
  FVCOMOPTModel.bc_loop fuel m p s =
  if (FVCOMOPTModel.loc_flag s =? -1)%Z then
    match fuel with
    | O => Diverged
    | S fuel' =>
        r <- FVCOMOPTModel.bc_loop fuel' m p (FVCOMOPTModel.bc_body m p s) ;;
        Returned (S (fst r), snd r)
    end
  else Returned (O, s).
Proof. destruct fuel; reflexivity. Qed.

Lemma bc_loop_exit_flag (m : FVCOMOPTModel.Model) (p : Particle) :
  forall (fuel : nat) (s : FVCOMOPTModel.Located) (r : nat * FVCOMOPTModel.Located),
    FVCOMOPTModel.bc_loop fuel m p s = Returned r ->
    FVCOMOPTModel.loc_flag (snd r) <> (-1)%Z.
Proof.
  induction fuel as [|fuel IH]; intros s r; rewrite bc_loop_unfold;
    destruct (Z.eqb_spec (FVCOMOPTModel.loc_flag s) (-1)) as [E|E];
    try discriminate; try (intros [= <-]; exact E).
  destruct (FVCOMOPTModel.bc_loop fuel m p (FVCOMOPTModel.bc_body m p s))
    as [r'| |] eqn:Er; cbn [bind]; try discriminate.
  intros [= <-]. cbn [snd]. exact (IH _ _ Er).
Qed.

Lemma bc_loop_never_ends (m : FVCOMOPTModel.Model) (p : Particle) :
  forall (fuel : nat) (s : FVCOMOPTModel.Located),
    (forall k, FVCOMOPTModel.loc_flag
                 (Nat.iter k (FVCOMOPTModel.bc_body m p) s) = (-1)%Z) ->
    FVCOMOPTModel.bc_loop fuel m p s = Diverged.
Proof.
  induction fuel as [|fuel IH]; intros s Hland; rewrite bc_loop_unfold;
    rewrite (Hland O : FVCOMOPTModel.loc_flag s = (-1)%Z);
    cbn [Z.eqb Pos.eqb]; [reflexivity|].
  rewrite IH; [reflexivity|].
  intros k. rewrite <- Nat.iter_succ_r. apply Hland.
Qed.

Lemma bc_loop_iter (m : FVCOMOPTModel.Model) (p : Particle) :
  forall (n fuel : nat) (s : FVCOMOPTModel.Located),
    (forall k, (k < n)%nat ->
       FVCOMOPTModel.loc_flag
         (Nat.iter k (FVCOMOPTModel.bc_body m p) s) = (-1)%Z) ->
    FVCOMOPTModel.loc_flag
      (Nat.iter n (FVCOMOPTModel.bc_body m p) s) <> (-1)%Z ->
    (n <= fuel)%nat ->
    FVCOMOPTModel.bc_loop fuel m p s
    = Returned (n, Nat.iter n (FVCOMOPTModel.bc_body m p) s).
Proof.
  induction n as [|n IH]; intros fuel s Hland Hexit Hfuel;
    rewrite bc_loop_unfold.
  - cbn [Nat.iter nat_rect] in Hexit.
    destruct (Z.eqb_spec (FVCOMOPTModel.loc_flag s) (-1)); [contradiction|].
    reflexivity.
  - rewrite (Hland O (Nat.lt_0_succ n) : FVCOMOPTModel.loc_flag s = (-1)%Z).
    cbn [Z.eqb Pos.eqb].
    destruct fuel as [|fuel]; [lia|].
    rewrite (IH fuel (FVCOMOPTModel.bc_body m p s)).
    + cbn [bind fst snd]. now rewrite <- Nat.iter_succ_r.
    + intros k Hk. rewrite <- Nat.iter_succ_r. apply Hland. lia.
    + rewrite <- Nat.iter_succ_r. exact Hexit.
    + lia.
Qed.

Lemma update_particle_after_loop
  (fuel : nat) (m : FVCOMOPTModel.Model) (time : Q) (p : Particle)
  (n : nat) (s : FVCOMOPTModel.Located) :
  in_domain p = true ->
  fst (FVCOMOPTModel.advection m time p) <> Some (-2)%Z ->
  (let delta_X :=
     FVCOMOPTModel.random_walks m time p
       (snd (FVCOMOPTModel.advection m time p)) in
   FVCOMOPTModel.bc_loop fuel m p
     (FVCOMOPTModel.locate m p (xpos p + delta_x delta_X)
                               (ypos p + delta_y delta_X))
   = Returned (n, s)) ->
  FVCOMOPTModel.update_particle fuel m time p
  = if (FVCOMOPTModel.loc_flag s =? -2)%Z then Returned (set_out_of_domain p)
    else if (FVCOMOPTModel.loc_flag s =? 0)%Z then
      Returned
        (FVCOMOPTModel.commit m time p s
           (zpos p
            + delta_z (FVCOMOPTModel.random_walks m time p
                         (snd (FVCOMOPTModel.advection m time p)))))
    else Raised ValueError.
Proof.
  intros Hin Hadv Hloop. unfold FVCOMOPTModel.update_particle. rewrite Hin.
  destruct (FVCOMOPTModel.advection m time p) as [host_err delta_0].
  cbn [fst snd] in *. cbv zeta in Hloop.
  assert (Hno : match host_err with
                | Some e => (e =? -2)%Z
                | None => false
                end = false).
  { destruct host_err as [e|]; [|reflexivity].
    apply Z.eqb_neq. intros ->. now apply Hadv. }
  rewrite Hno, Hloop. reflexivity.
Qed.

(** Claim C3, as the code has it: the pair "apply the horizontal boundary
    condition, re-query [find_host]" is repeated for as long as the flag is
    -1, however many times that is.  If the flag is -1 after each of the
    first [n] queries and differs from -1 after the next one, the body runs
    exactly [n] times and the loop exits with the variables of that last
    query.  No bound on [n] is built in, and the fate of the particle
    depends on the exit flag alone: out_of_domain for -2, committed for 0,
    [ValueError] otherwise. *)
Theorem land_boundary_loop_runs_while_flag_is_land
  (m : FVCOMOPTModel.Model) (time : Q) (p : Particle) (n fuel : nat) :
  let delta_X :=
    FVCOMOPTModel.random_walks m time p
      (snd (FVCOMOPTModel.advection m time p)) in
  let s := FVCOMOPTModel.locate m p (xpos p + delta_x delta_X)
                                    (ypos p + delta_y delta_X) in
  let s_n := Nat.iter n (FVCOMOPTModel.bc_body m p) s in
  in_domain p = true ->
  fst (FVCOMOPTModel.advection m time p) <> Some (-2)%Z ->
  (forall k, (k < n)%nat ->
     FVCOMOPTModel.loc_flag
       (Nat.iter k (FVCOMOPTModel.bc_body m p) s) = (-1)%Z) ->
  FVCOMOPTModel.loc_flag s_n <> (-1)%Z ->
  (n <= fuel)%nat ->
  FVCOMOPTModel.bc_loop fuel m p s = Returned (n, s_n)
  /\ FVCOMOPTModel.update_particle fuel m time p
     = if (FVCOMOPTModel.loc_flag s_n =? -2)%Z
       then Returned (set_out_of_domain p)
       else if (FVCOMOPTModel.loc_flag s_n =? 0)%Z
       then Returned (FVCOMOPTModel.commit m time p s_n
                        (zpos p + delta_z delta_X))
       else Raised ValueError.
Proof.
  intros delta_X s s_n Hin Hadv Hland Hexit Hfuel.
  assert (Hloop : FVCOMOPTModel.bc_loop fuel m p s = Returned (n, s_n))
    by now apply bc_loop_iter.
  split; [exact Hloop|].
  now apply (update_particle_after_loop fuel m time p n s_n).
Qed.

Lemma land_boundary_loop_runs_while_flag_is_land_witness :
  FVCOMOPTModel.bc_loop 12 Fixtures.channel_model Fixtures.p0
    (FVCOMOPTModel.locate Fixtures.channel_model Fixtures.p0
       ((1#2) + (0 + 12)) ((1#2) + 0))
  = Returned
      (12%nat,
       Nat.iter 12
         (FVCOMOPTModel.bc_body Fixtures.channel_model Fixtures.p0)
         (FVCOMOPTModel.locate Fixtures.channel_model Fixtures.p0
            ((1#2) + (0 + 12)) ((1#2) + 0)))
  /\ FVCOMOPTModel.update_particle 12 Fixtures.channel_model 0 Fixtures.p0
     = Returned
         (FVCOMOPTModel.commit Fixtures.channel_model 0 Fixtures.p0
            (Nat.iter 12
               (FVCOMOPTModel.bc_body Fixtures.channel_model Fixtures.p0)
               (FVCOMOPTModel.locate Fixtures.channel_model Fixtures.p0
                  ((1#2) + (0 + 12)) ((1#2) + 0)))
            (-(1#2) + 0)).
Proof.
  apply (land_boundary_loop_runs_while_flag_is_land
           Fixtures.channel_model 0 Fixtures.p0 12 12).
  - reflexivity.
  - discriminate.
  - intros k Hk.
    do 12 (destruct k as [|k]; [vm_compute; reflexivity|]).
    lia.
  - vm_compute. discriminate.
  - lia.
Defined.

(** Claim C3 fails on the code: in a channel of unit width a particle thrown
    twelve widths away is reflected twelve times, more than ten, before
    [find_host] accepts the position; the particle is then committed inside
    the channel and stays in the domain. *)
Lemma land_boundary_loop_exceeds_ten_passes :
  exists (s : FVCOMOPTModel.Located) (p' : Particle),
    FVCOMOPTModel.bc_loop 20 Fixtures.channel_model Fixtures.p0
      (FVCOMOPTModel.locate Fixtures.channel_model Fixtures.p0
         ((1#2) + (0 + 12)) ((1#2) + 0))
    = Returned (12%nat, s)
    /\ (10 < 12)%nat
    /\ FVCOMOPTModel.loc_flag s = 0%Z
    /\ FVCOMOPTModel.update_particle 20 Fixtures.channel_model 0 Fixtures.p0
       = Returned p'
    /\ in_domain p' = true
    /\ xpos p' == 1#2.
Proof.
  eexists. eexists.
  split; [vm_compute; reflexivity|].
  split; [lia|].
  split; [reflexivity|].
  split; [vm_compute; reflexivity|].
  split; reflexivity.
Qed.

(** ** Open boundaries and diagnostics *)

Lemma fold_append_diagnostics (m : FVCOMOPTModel.Model) (time : Q) :
  forall (ps : list Particle) (d : FVCOMOPTModel.Diagnostics),
    fold_left (FVCOMOPTModel.append_diagnostics m time) ps d =
    FVCOMOPTModel.mkDiagnostics
      (FVCOMOPTModel.diag_xpos d ++ map xpos ps)
      (FVCOMOPTModel.diag_ypos d ++ map ypos ps)
      (FVCOMOPTModel.diag_zpos d ++ map zpos ps)
      (FVCOMOPTModel.diag_host_horizontal_elem d
       ++ map host_horizontal_elem ps)
      (FVCOMOPTModel.diag_h d
       ++ map (fun p => get_zmin (FVCOMOPTModel.data_reader m) time
                          (xpos p) (ypos p) (host_horizontal_elem p)) ps)
      (FVCOMOPTModel.diag_zeta d
       ++ map (fun p => get_zmax (FVCOMOPTModel.data_reader m) time
                          (xpos p) (ypos p) (host_horizontal_elem p)) ps).
Proof.
  induction ps as [|p ps IH]; intros d.
  - cbn. rewrite !app_nil_r. now destruct d.
  - cbn [fold_left map]. rewrite IH.
    unfold FVCOMOPTModel.append_diagnostics; cbn.
    now rewrite <- !app_assoc.
Qed.

Lemma get_diagnostics_xpos (m : FVCOMOPTModel.Model) (time : Q)
  (ps : list Particle) :
  FVCOMOPTModel.diag_xpos (FVCOMOPTModel.get_diagnostics m time ps)
  = map xpos ps.
Proof.
  unfold FVCOMOPTModel.get_diagnostics. now rewrite fold_append_diagnostics.
Qed.

(** Claim C6, as the code has it: when the crossing test of an active
    particle ends with the open-boundary flag -2, that same call of [update]
    sets [in_domain] to false and leaves position, host and layer as they
    were.  [get_diagnostics] does not look at [in_domain]: it returns one
    entry for every particle of the set, and the entry of a particle that
    left the domain is the position it had when it left. *)
Theorem open_boundary_exit
  (fuel : nat) (m : FVCOMOPTModel.Model) (time time' : Q) (p : Particle)
  (n : nat) (s : FVCOMOPTModel.Located) (before after : list Particle) :
  in_domain p = true ->
  (let delta_X :=
     FVCOMOPTModel.random_walks m time p
       (snd (FVCOMOPTModel.advection m time p)) in
   FVCOMOPTModel.bc_loop fuel m p
     (FVCOMOPTModel.locate m p (xpos p + delta_x delta_X)
                               (ypos p + delta_y delta_X))
   = Returned (n, s)) ->
  FVCOMOPTModel.loc_flag s = (-2)%Z ->
  FVCOMOPTModel.update_particle fuel m time p = Returned (set_out_of_domain p)
  /\ in_domain (set_out_of_domain p) = false
  /\ FVCOMOPTModel.diag_xpos
       (FVCOMOPTModel.get_diagnostics m time'
          (before ++ set_out_of_domain p :: after))
     = map xpos before ++ xpos p :: map xpos after
  /\ length (FVCOMOPTModel.diag_xpos
               (FVCOMOPTModel.get_diagnostics m time'
                  (before ++ set_out_of_domain p :: after)))
     = length (before ++ p :: after).
Proof.
  intros Hin Hloop Hflag. split; [|split; [reflexivity|split]].
  - unfold FVCOMOPTModel.update_particle. rewrite Hin.
    destruct (FVCOMOPTModel.advection m time p) as [host_err delta_0].
    cbn [snd] in Hloop.
    destruct host_err as [e|]; [destruct (e =? -2)%Z; [reflexivity|]|];
      cbv zeta in Hloop; rewrite Hloop; cbn [bind snd];
      rewrite Hflag; reflexivity.
  - rewrite get_diagnostics_xpos, map_app. reflexivity.
  - rewrite get_diagnostics_xpos, length_map, !length_app. reflexivity.
Qed.

Lemma open_boundary_exit_witness :
  FVCOMOPTModel.update_particle 5 Fixtures.open_model 0 Fixtures.p0
  = Returned (set_out_of_domain Fixtures.p0)
  /\ in_domain (set_out_of_domain Fixtures.p0) = false
  /\ FVCOMOPTModel.diag_xpos
       (FVCOMOPTModel.get_diagnostics Fixtures.open_model 1
          ([] ++ set_out_of_domain Fixtures.p0 :: []))
     = map xpos [] ++ xpos Fixtures.p0 :: map xpos []
  /\ length (FVCOMOPTModel.diag_xpos
               (FVCOMOPTModel.get_diagnostics Fixtures.open_model 1
                  ([] ++ set_out_of_domain Fixtures.p0 :: [])))
     = length ([] ++ Fixtures.p0 :: []).
Proof.
  apply (open_boundary_exit 5 Fixtures.open_model 0 1 Fixtures.p0 O
           (FVCOMOPTModel.locate Fixtures.open_model Fixtures.p0
              ((1#2) + (0 + 1)) ((1#2) + 0)) [] []).
  - reflexivity.
  - vm_compute. reflexivity.
  - vm_compute. reflexivity.
Defined.

(** Claim C6 fails on the code: a particle that crossed the open boundary is
    marked out_of_domain by the call of [update], and the diagnostics taken
    afterwards still hold an entry for it. *)
Lemma out_of_domain_particle_in_diagnostics :
  in_domain Fixtures.p0 = true
  /\ FVCOMOPTModel.loc_flag
       (FVCOMOPTModel.locate Fixtures.open_model Fixtures.p0
          ((1#2) + (0 + 1)) ((1#2) + 0)) = (-2)%Z
  /\ FVCOMOPTModel.update 5 Fixtures.open_model 0 [Fixtures.p0]
     = ([set_out_of_domain Fixtures.p0], Returned tt)
  /\ FVCOMOPTModel.diag_xpos
       (FVCOMOPTModel.get_diagnostics Fixtures.open_model 1
          (fst (FVCOMOPTModel.update 5 Fixtures.open_model 0 [Fixtures.p0])))
     = [1#2]
  /\ FVCOMOPTModel.diag_xpos
       (FVCOMOPTModel.get_diagnostics Fixtures.open_model 1
          (fst (FVCOMOPTModel.update 5 Fixtures.open_model 0 [Fixtures.p0])))
     <> [].
Proof.
  repeat split; try (vm_compute; reflexivity).
  vm_compute. discriminate.
Qed.

(** ** Runge-Kutta advection *)

Ltac rk4_cases :=
  repeat match goal with
  | |- context [RK4Integrator.get_velocity ?d ?t ?a ?b ?c ?h] =>
      destruct (RK4Integrator.get_velocity d t a b c h) eqn:?
  | |- context [(?h =? -1)%Z] => destruct (Z.eqb_spec h (-1))
  end.

(** Claim C4: if any of the re-locations made during [advect] (after stage
    1, 2 or 3, or at the summed position) reports -1, [advect] returns and
    the particle is exactly as it was on entry: position, host and every
    other field. *)
Theorem advect_early_exit_keeps_particle
  (_time_step time : Q) (particle : Particle)
  (data_reader : RK4Integrator.DataReader) :
  In (-1)%Z (RK4Integrator.relocations _time_step time particle data_reader) ->
  RK4Integrator.advect _time_step time particle data_reader
  = Returned particle.
Proof.
  unfold RK4Integrator.advect, RK4Integrator.relocations,
    RK4Integrator.advect_trace.
  cbv zeta. rk4_cases; cbn [fst snd]; intros HIn;
    try reflexivity; exfalso; cbn [In] in HIn; intuition congruence.
Qed.

Lemma advect_early_exit_keeps_particle_witness :
  RK4Integrator.advect 1 0 Fixtures.p0 Fixtures.bounded_reader
  = Returned Fixtures.p0.
Proof.
  apply (advect_early_exit_keeps_particle 1 0 Fixtures.p0
           Fixtures.bounded_reader).
  vm_compute. right; right; left. reflexivity.
Defined.



(** ** Reading frames *)

Lemma Qleb_false (a b : Q) : Qleb a b = false <-> b < a.
Proof.
  unfold Qleb. split; intro H.
  - apply Qnot_le_lt. intro L. apply Qle_bool_iff in L. congruence.
  - destruct (Qle_bool a b) eqn:E; [|reflexivity].
    apply Qle_bool_iff in E. apply Qle_not_lt in E. contradiction.
Qed.

Lemma linear_fraction_within_frame (t t_last t_next : Q) :
  t_last <= t -> t < t_next ->
  0 <= interp.get_linear_fraction t t_last t_next
  /\ interp.get_linear_fraction t t_last t_next < 1.
Proof.
  intros Hlo Hhi. unfold interp.get_linear_fraction.
  assert (Hpos : 0 < t_next - t_last) by lra.
  split.
  - apply Qle_shift_div_l; [assumption | lra].
  - apply Qlt_shift_div_r; [assumption | lra].
Qed.

Lemma frame_test_within_frame (t t_last t_next : Q) :
  t_last <= t -> t < t_next ->
  Qltb (interp.get_linear_fraction t t_last t_next) 0
  || Qleb 1 (interp.get_linear_fraction t t_last t_next) = false.
Proof.
  intros Hlo Hhi.
  destruct (linear_fraction_within_frame t t_last t_next Hlo Hhi) as [H0 H1].
  apply orb_false_intro.
  - now apply Qltb_false.
  - now apply Qleb_false.
Qed.

Lemma gotm_read_data_within_frame {N : Type}
  (med : GOTMDataReader.Mediator N) (r : GOTMDataReader.Reader N) (t : Q) :
  GOTMDataReader._time_last r <= t -> t < GOTMDataReader._time_next r ->
  GOTMDataReader.read_data med r t = GOTMDataReader._interpolate_in_time r t.
Proof.
  intros Hlo Hhi. unfold GOTMDataReader.read_data. cbv zeta.
  now rewrite frame_test_within_frame.
Qed.

(** Claim C5: for a time [t] with [t_last <= t < t_next], [read_data(t)]
    does not advance the reading frame.  The FVCOM reader is left exactly as
    it was; the GOTM reader keeps its mediator, both time references and
    every snapshot buffer, and only recomputes the fields interpolated to
    [t].  In both readers a second call with the same [t] leaves the state
    reached by the first. *)
Theorem read_data_within_frame
  {M N : Type}
  (fmed : FVCOMDataReader.Mediator M) (fr : FVCOMDataReader.Reader M)
  (gmed : GOTMDataReader.Mediator N) (gr : GOTMDataReader.Reader N)
  (t : Q) :
  FVCOMDataReader._time_last fr <= t -> t < FVCOMDataReader._time_next fr ->
  GOTMDataReader._time_last gr <= t -> t < GOTMDataReader._time_next gr ->
  FVCOMDataReader.read_data fmed fr t = fr
  /\ FVCOMDataReader.read_data fmed (FVCOMDataReader.read_data fmed fr t) t
     = FVCOMDataReader.read_data fmed fr t
  /\ (let gr' := GOTMDataReader.read_data gmed gr t in
      GOTMDataReader.mediator gr' = GOTMDataReader.mediator gr
      /\ GOTMDataReader._time_last gr' = GOTMDataReader._time_last gr
      /\ GOTMDataReader._time_next gr' = GOTMDataReader._time_next gr
      /\ GOTMDataReader._zeta_last gr' = GOTMDataReader._zeta_last gr
      /\ GOTMDataReader._zeta_next gr' = GOTMDataReader._zeta_next gr
      /\ GOTMDataReader._zlev_last gr' = GOTMDataReader._zlev_last gr
      /\ GOTMDataReader._zlev_next gr' = GOTMDataReader._zlev_next gr
      /\ GOTMDataReader._kh_last gr' = GOTMDataReader._kh_last gr
      /\ GOTMDataReader._kh_next gr' = GOTMDataReader._kh_next gr
      /\ GOTMDataReader.read_data gmed gr' t = gr').
Proof.
  intros Hf1 Hf2 Hg1 Hg2.
  assert (Hf : FVCOMDataReader.read_data fmed fr t = fr).
  { unfold FVCOMDataReader.read_data. cbv zeta.
    now rewrite frame_test_within_frame. }
  split; [exact Hf|]. split; [now rewrite !Hf|].
  cbv zeta. rewrite (gotm_read_data_within_frame gmed gr t Hg1 Hg2).
  repeat (split; [reflexivity|]).
  rewrite gotm_read_data_within_frame; [reflexivity| |]; assumption.
Qed.

Lemma read_data_within_frame_witness :
  FVCOMDataReader.read_data Fixtures.fvcom_mediator Fixtures.fvcom_reader (1#2)
  = Fixtures.fvcom_reader
  /\ GOTMDataReader.read_data Fixtures.gotm_mediator
       (GOTMDataReader.read_data Fixtures.gotm_mediator
          Fixtures.gotm_reader (1#2)) (1#2)
     = GOTMDataReader.read_data Fixtures.gotm_mediator
         Fixtures.gotm_reader (1#2).
Proof.
  destruct (read_data_within_frame Fixtures.fvcom_mediator
              Fixtures.fvcom_reader Fixtures.gotm_mediator
              Fixtures.gotm_reader (1#2))
    as (Hf & _ & _ & _ & _ & _ & _ & _ & _ & _ & _ & Hg).
  - vm_compute. discriminate.
  - reflexivity.
  - vm_compute. discriminate.
  - reflexivity.
  - split; [exact Hf | exact Hg].
Defined.

(** ** Host search of the FVCOM reader *)

Lemma local_search_at_host (fuel : nat) (n_host_land_boundaries : Z)
  (g : FVCOMDataReader.Grid) (xpos ypos : Q) (guess : Z) :
  (let phi := FVCOMDataReader._get_phi g xpos ypos guess in
   let phi_test := float_min (float_min (v0 phi) (v1 phi)) (v2 phi) in
   Qleb 0 phi_test || Qleb (- EPSILON) phi_test = true) ->
  FVCOMDataReader.find_host_using_local_search (S fuel)
    n_host_land_boundaries g xpos ypos guess
  = Returned (if (n_host_land_boundaries <? 2)%Z then guess else (-1)%Z).
Proof.
  cbv zeta. intros Hfound.
  cbn [FVCOMDataReader.find_host_using_local_search]. cbv zeta.
  rewrite Hfound.
  now destruct (n_host_land_boundaries <? 2)%Z.
Qed.

(** Claim C1 against the code: once the host is identified, the answer is
    decided by the C local [n_host_land_boundaries], which is never
    assigned, and not by the count [n_land_boundaries] of land edges that
    was just made.  Whatever value [junk] that local holds, one of two
    meshes shows the divergence: element 0 of [corner_grid] has two land
    edges and is returned when [junk < 2]; element 0 of [interior_grid] has
    none and is rejected with -1 when [junk >= 2]. *)
Theorem local_search_ignores_land_boundary_count (junk : Z) :
  FVCOMDataReader.count_land_boundaries Fixtures.corner_grid 0%Z = 2%Z
  /\ FVCOMDataReader.find_host_using_local_search 5 junk
       Fixtures.corner_grid (1#4) (1#4) 0%Z
     = Returned (if (junk <? 2)%Z then 0%Z else (-1)%Z)
  /\ FVCOMDataReader.count_land_boundaries Fixtures.interior_grid 0%Z = 0%Z
  /\ FVCOMDataReader.find_host_using_local_search 5 junk
       Fixtures.interior_grid (1#4) (1#4) 0%Z
     = Returned (if (junk <? 2)%Z then 0%Z else (-1)%Z).
Proof.
  split; [reflexivity|]. split; [|split; [reflexivity|]].
  - apply local_search_at_host. vm_compute. reflexivity.
  - apply local_search_at_host. vm_compute. reflexivity.
Qed.

(** ** Least-squares interpolation of the horizontal velocity *)

Lemma interpolate_vel_between_elements_sum (g : FVCOMDataReader.Grid)
  (xpos ypos : Q) (host : Z) (vel_elem : Array1 Q) :
  FVCOMDataReader._interpolate_vel_between_elements g xpos ypos host vel_elem
  == vel_elem 0%Z
     + (vel_elem 0%Z * FVCOMDataReader._a1u g 0%Z host
        + vel_elem 1%Z * FVCOMDataReader._a1u g 1%Z host
        + vel_elem 2%Z * FVCOMDataReader._a1u g 2%Z host
        + vel_elem 3%Z * FVCOMDataReader._a1u g 3%Z host)
       * (xpos - FVCOMDataReader._xc g host)
     + (vel_elem 0%Z * FVCOMDataReader._a2u g 0%Z host
        + vel_elem 1%Z * FVCOMDataReader._a2u g 1%Z host
        + vel_elem 2%Z * FVCOMDataReader._a2u g 2%Z host
        + vel_elem 3%Z * FVCOMDataReader._a2u g 3%Z host)
       * (ypos - FVCOMDataReader._yc g host).
Proof.
  unfold FVCOMDataReader._interpolate_vel_between_elements.
  cbn [fold_left]. ring.
Qed.

(** In a boundary element (some [nbe[i, host] < 0]) the velocity is the one
    at the centre of the host, interpolated in time and between the
    bounding layers, without horizontal interpolation. *)
Lemma lls_boundary_element {M : Type} (g : FVCOMDataReader.Grid)
  (r : FVCOMDataReader.Reader M) (time xpos ypos zpos : Q) (host : Z)
  (location : FVCOMDataReader.SigmaLocation) :
  let f := interp.get_linear_fraction time (FVCOMDataReader._time_last r)
             (FVCOMDataReader._time_next r) in
  let u_at := fun k => interp.linear_interp f
                (FVCOMDataReader._u_last r k host)
                (FVCOMDataReader._u_next r k host) in
  let v_at := fun k => interp.linear_interp f
                (FVCOMDataReader._v_last r k host)
                (FVCOMDataReader._v_next r k host) in
  FVCOMDataReader.find_sigma_layers g
    (FVCOMDataReader._get_phi g xpos ypos host) host zpos = Some location ->
  0 <= f -> f <= 1 ->
  (int_min (int_min (FVCOMDataReader._nbe g 0%Z host)
                    (FVCOMDataReader._nbe g 1%Z host))
           (FVCOMDataReader._nbe g 2%Z host) < 0)%Z ->
  FVCOMDataReader._get_uv_velocity_using_linear_least_squares_interpolation
    g r time xpos ypos zpos host
  = match location with
    | FVCOMDataReader.AtBoundary k => Returned (u_at k, v_at k)
    | FVCOMDataReader.BetweenLayers k_lower k_upper s_lower s_upper =>
        FVCOMDataReader.interpolate_between_layers zpos s_lower s_upper
          (u_at k_lower) (v_at k_lower) (u_at k_upper) (v_at k_upper)
    end.
Proof.
  intros f u_at v_at Hloc Hf0 Hf1 Hbdy.
  unfold FVCOMDataReader._get_uv_velocity_using_linear_least_squares_interpolation.
  cbv zeta. rewrite Hloc. fold f.
  destruct (Qltb_spec f 0); [lra|].
  destruct (Qltb_spec 1 f); [lra|].
  cbn [orb]. apply Z.ltb_lt in Hbdy. rewrite Hbdy.
  destruct location; reflexivity.
Qed.

(** Between two layers the answer of the code does not depend on the
    velocities stored for the neighbours: two readers that agree on the time
    references and on the velocities at the centre of the host get the same
    answer. *)
Lemma lls_between_layers_blind_to_neighbours {M : Type}
  (g : FVCOMDataReader.Grid) (r r' : FVCOMDataReader.Reader M)
  (time xpos ypos zpos : Q) (host k_lower k_upper : Z) (s_lower s_upper : Q) :
  FVCOMDataReader.find_sigma_layers g
    (FVCOMDataReader._get_phi g xpos ypos host) host zpos
  = Some (FVCOMDataReader.BetweenLayers k_lower k_upper s_lower s_upper) ->
  FVCOMDataReader._time_last r = FVCOMDataReader._time_last r' ->
  FVCOMDataReader._time_next r = FVCOMDataReader._time_next r' ->
  (forall k, FVCOMDataReader._u_last r k host = FVCOMDataReader._u_last r' k host
             /\ FVCOMDataReader._u_next r k host = FVCOMDataReader._u_next r' k host
             /\ FVCOMDataReader._v_last r k host = FVCOMDataReader._v_last r' k host
             /\ FVCOMDataReader._v_next r k host = FVCOMDataReader._v_next r' k host) ->
  FVCOMDataReader._get_uv_velocity_using_linear_least_squares_interpolation
    g r time xpos ypos zpos host
  = FVCOMDataReader._get_uv_velocity_using_linear_least_squares_interpolation
      g r' time xpos ypos zpos host.
Proof.
  intros Hloc Hlast Hnext Hhost.
  unfold FVCOMDataReader._get_uv_velocity_using_linear_least_squares_interpolation.
  cbv zeta. rewrite Hloc, <- Hlast, <- Hnext.
  destruct (Hhost k_lower) as (-> & -> & -> & ->).
  destruct (Hhost k_upper) as (-> & -> & -> & ->).
  reflexivity.
Qed.

(** Claim C2 against the code: in an element without boundary edges and for
    a particle between two sigma layers, the four entries handed to the
    least-squares formula are all read at the host's centre.  In
    [interior_grid], where [u] is 1 at the centre of element 0 and 2 at the
    centre of its first neighbour, the code returns [u = 1] at
    [(1/2, 1/4, -1/2)], while the formula of the claim gives [7/6], the value
    the code itself returns above the top layer. *)
Theorem lls_between_layers_reads_host_only :
  let g := Fixtures.interior_grid in
  let r := Fixtures.fvcom_reader in
  let u_at := fun k e =>
    interp.linear_interp (1#2) (FVCOMDataReader._u_last r k e)
                               (FVCOMDataReader._u_next r k e) in
  let claimed :=
    FVCOMDataReader.lls_between_layers_spec g u_at (1#2) 1%Z 0%Z (1#2) (1#4) 0%Z in
  int_min (int_min (FVCOMDataReader._nbe g 0%Z 0%Z) (FVCOMDataReader._nbe g 1%Z 0%Z))
          (FVCOMDataReader._nbe g 2%Z 0%Z) = 1%Z
  /\ claimed == 7#6
  /\ match FVCOMDataReader._get_uv_velocity_using_linear_least_squares_interpolation
             g r (1#2) (1#2) (1#4) (-(1#2)) 0%Z with
     | Returned (u, _) => u == 1 /\ ~ u == claimed
     | _ => False
     end
  /\ match FVCOMDataReader._get_uv_velocity_using_linear_least_squares_interpolation
             g r (1#2) (1#2) (1#4) (-(1#8)) 0%Z with
     | Returned (u, _) => u == 7#6
     | _ => False
     end.
Proof.
  cbv zeta. split; [reflexivity|]. split; [reflexivity|]. split.
  - vm_compute. split; [reflexivity | discriminate].
  - vm_compute. reflexivity.
Qed.

(** ** Seed creation *)




(** ** Global and local host search *)

Lemma global_search_from_spec (g : FVCOMDataReader.Grid) (xpos ypos : Q) :
  forall (n : nat) (i : Z),
    let r := FVCOMFields.global_search_from g xpos ypos i n in
    (r = (-1)%Z
     /\ forall j, (i <= j < i + Z.of_nat n)%Z ->
                  FVCOMFields.element_holds g xpos ypos j = false)
    \/ ((i <= r < i + Z.of_nat n)%Z
        /\ FVCOMFields.element_holds g xpos ypos r = true
        /\ forall j, (i <= j < r)%Z ->
                     FVCOMFields.element_holds g xpos ypos j = false).
Proof.
  induction n as [|n IH]; intros i; cbn [FVCOMFields.global_search_from].
  - left. split; [reflexivity|]. intros j Hj. lia.
  - destruct (FVCOMFields.element_holds g xpos ypos i) eqn:Ei.
    + right. split; [lia|]. split; [exact Ei|]. intros j Hj. lia.
    + destruct (IH (i + 1)%Z) as [[Hr Hnone] | (Hr & Hhold & Hfirst)].
      * left. split; [exact Hr|]. intros j Hj.
        destruct (Z.eq_dec j i) as [->|Hne]; [exact Ei|].
        apply Hnone. lia.
      * right. split; [lia|]. split; [exact Hhold|]. intros j Hj.
        destruct (Z.eq_dec j i) as [->|Hne]; [exact Ei|].
        apply Hfirst. lia.
Qed.

(** The global search answers the first element (in index order) that holds
    the point up to the tolerance, and -1 exactly when no element of the
    mesh does; on a mesh without elements it answers -1. *)
Theorem global_search_finds_first_element (g : FVCOMDataReader.Grid)
  (xpos ypos : Q) :
  let r := FVCOMFields.find_host_using_global_search g xpos ypos in
  (r = (-1)%Z
   /\ forall j, (0 <= j < FVCOMDataReader._n_elems g)%Z ->
                FVCOMFields.element_holds g xpos ypos j = false)
  \/ ((0 <= r < FVCOMDataReader._n_elems g)%Z
      /\ FVCOMFields.element_holds g xpos ypos r = true
      /\ forall j, (0 <= j < r)%Z ->
                   FVCOMFields.element_holds g xpos ypos j = false).
Proof.
  unfold FVCOMFields.find_host_using_global_search.
  destruct (global_search_from_spec g xpos ypos
              (Z.to_nat (FVCOMDataReader._n_elems g)) 0%Z)
    as [[Hr Hnone] | (Hr & Hhold & Hfirst)].
  - left. split; [exact Hr|]. intros j Hj. apply Hnone. lia.
  - right. split; [lia|]. split; [exact Hhold|]. intros j Hj.
    apply Hfirst. lia.
Qed.

Lemma element_holds_found (g : FVCOMDataReader.Grid) (xpos ypos : Q) (i : Z) :
  (let phi := FVCOMDataReader._get_phi g xpos ypos i in
   let phi_test := float_min (float_min (v0 phi) (v1 phi)) (v2 phi) in
   Qleb 0 phi_test || Qleb (- EPSILON) phi_test)
  = FVCOMFields.element_holds g xpos ypos i.
Proof.
  unfold FVCOMFields.element_holds. cbv zeta.
  destruct (Qleb 0 _); [reflexivity|]. now destruct (Qleb (- EPSILON) _).
Qed.

(** Whatever the walk of the local search does, an element index it answers
    (anything but -1) is an element that holds the point up to the
    tolerance; and when that index is an element of the mesh, the global
    search succeeds too, with an index no larger. *)
Theorem local_search_answers_a_holding_element
  (fuel : nat) (n_host_land_boundaries : Z) (g : FVCOMDataReader.Grid)
  (xpos ypos : Q) (guess r : Z) :
  FVCOMDataReader.find_host_using_local_search fuel n_host_land_boundaries
    g xpos ypos guess = Returned r ->
  r <> (-1)%Z ->
  FVCOMFields.element_holds g xpos ypos r = true
  /\ ((0 <= r < FVCOMDataReader._n_elems g)%Z ->
      (0 <= FVCOMFields.find_host_using_global_search g xpos ypos <= r)%Z).
Proof.
  intros Hret Hr.
  assert (Hhold : FVCOMFields.element_holds g xpos ypos r = true).
  { revert guess Hret. induction fuel as [|fuel IH]; intros guess;
      cbn [FVCOMDataReader.find_host_using_local_search]; [discriminate|].
    cbv zeta. pose proof (element_holds_found g xpos ypos guess) as Hf.
    cbv zeta in Hf. rewrite Hf. clear Hf.
    destruct (FVCOMFields.element_holds g xpos ypos guess) eqn:Eg.
    - destruct (n_host_land_boundaries <? 2)%Z; intros [= <-];
        [exact Eg | contradiction].
    - set (phi := FVCOMDataReader._get_phi g xpos ypos guess).
      set (phi_test := float_min (float_min (v0 phi) (v1 phi)) (v2 phi)).
      destruct (Qeq_bool (v0 phi) phi_test);
        [|destruct (Qeq_bool (v1 phi) phi_test);
          [|destruct (Qeq_bool (v2 phi) phi_test); [|discriminate]]];
        cbn [bind];
        match goal with
        | |- context [(?n =? -1)%Z] => destruct (Z.eqb_spec n (-1))
        end;
        try (intros [= <-]; contradiction); apply IH. }
  split; [exact Hhold|]. intros Hrange.
  pose proof (global_search_from_spec g xpos ypos
                (Z.to_nat (FVCOMDataReader._n_elems g)) 0%Z) as Hs.
  cbv zeta in Hs.
  change (FVCOMFields.global_search_from g xpos ypos 0%Z
            (Z.to_nat (FVCOMDataReader._n_elems g)))
    with (FVCOMFields.find_host_using_global_search g xpos ypos) in Hs.
  destruct Hs as [[_ Hnone] | (Hr' & _ & Hfirst)].
  - rewrite (Hnone r) in Hhold; [discriminate | lia].
  - split; [lia|].
    destruct (Z.le_gt_cases
                (FVCOMFields.find_host_using_global_search g xpos ypos) r)
      as [Hle|Hgt]; [exact Hle|].
    rewrite (Hfirst r) in Hhold; [discriminate | lia].
Qed.

Lemma local_search_answers_a_holding_element_witness :
  FVCOMFields.element_holds Fixtures.corner_grid (3#4) (3#4) 1%Z = true
  /\ ((0 <= 1 < FVCOMDataReader._n_elems Fixtures.corner_grid)%Z ->
      (0 <= FVCOMFields.find_host_using_global_search
              Fixtures.corner_grid (3#4) (3#4) <= 1)%Z).
Proof.
  apply (local_search_answers_a_holding_element 5 0%Z Fixtures.corner_grid
           (3#4) (3#4) 0%Z 1%Z).
  - vm_compute. reflexivity.
  - discriminate.
Defined.

(** ** The bounding sigma layers *)

Lemma Qleb_true (a b : Q) : Qleb a b = true <-> a <= b.
Proof. unfold Qleb. apply Qle_bool_iff. Qed.

Lemma Qleb_spec (a b : Q) : reflect (a <= b) (Qleb a b).
Proof.
  destruct (Qleb a b) eqn:E; constructor.
  - now apply Qleb_true.
  - apply Qleb_false in E. now apply Qlt_not_le.
Qed.

Lemma search_middle_found (g : FVCOMDataReader.Grid) (phi : Vec3) (host : Z)
  (zpos : Q) :
  forall (n : nat) (k : Z) (location : FVCOMDataReader.SigmaLocation),
    FVCOMDataReader.search_middle g phi host zpos k n = Some location ->
    exists j,
      (k <= j < k + Z.of_nat n)%Z
      /\ location
         = FVCOMDataReader.BetweenLayers j (j - 1)%Z
             (FVCOMDataReader._interp_on_sigma_layer g phi host j)
             (FVCOMDataReader._interp_on_sigma_layer g phi host (j - 1)%Z)
      /\ FVCOMDataReader._interp_on_sigma_layer g phi host j <= zpos
      /\ forall i, (k <= i < j)%Z ->
           zpos < FVCOMDataReader._interp_on_sigma_layer g phi host i.
Proof.
  induction n as [|n IH]; intros k location;
    cbn [FVCOMDataReader.search_middle]; [discriminate|].
  cbv zeta.
  destruct (Qleb_spec (FVCOMDataReader._interp_on_sigma_layer g phi host k)
              zpos) as [Hle|Hgt].
  - intros [= <-]. exists k. split; [lia|]. split; [reflexivity|].
    split; [exact Hle|]. intros i Hi. lia.
  - intros Hrest. destruct (IH _ _ Hrest) as (j & Hj & Hloc & Hlow & Hfirst).
    exists j. split; [lia|]. split; [exact Hloc|]. split; [exact Hlow|].
    intros i Hi. destruct (Z.eq_dec i k) as [->|Hne].
    + now apply Qnot_le_lt.
    + apply Hfirst. lia.
Qed.

Lemma search_middle_none (g : FVCOMDataReader.Grid) (phi : Vec3) (host : Z)
  (zpos : Q) :
  forall (n : nat) (k : Z),
    FVCOMDataReader.search_middle g phi host zpos k n = None ->
    forall i, (k <= i < k + Z.of_nat n)%Z ->
      zpos < FVCOMDataReader._interp_on_sigma_layer g phi host i.
Proof.
  induction n as [|n IH]; intros k; cbn [FVCOMDataReader.search_middle].
  - intros _ i Hi. lia.
  - cbv zeta.
    destruct (Qleb_spec (FVCOMDataReader._interp_on_sigma_layer g phi host k)
                zpos) as [Hle|Hgt]; [discriminate|].
    intros Hrest i Hi. destruct (Z.eq_dec i k) as [->|Hne].
    + now apply Qnot_le_lt.
    + apply (IH _ Hrest). lia.
Qed.

Lemma find_sigma_layers_brackets (g : FVCOMDataReader.Grid) (phi : Vec3)
  (host : Z) (zpos : Q) :
  (1 <= FVCOMDataReader._n_siglay g)%Z ->
  exists location,
    FVCOMDataReader.find_sigma_layers g phi host zpos = Some location
    /\ FVCOMFields.location_brackets g phi host zpos location.
Proof.
  intros Hn. unfold FVCOMDataReader.find_sigma_layers. cbv zeta.
  destruct (Qleb_spec (FVCOMDataReader._interp_on_sigma_layer g phi host 0%Z)
              zpos) as [Htop|Htop].
  { eexists. split; [reflexivity|]. left. now split. }
  apply Qnot_le_lt in Htop.
  destruct (Qleb_spec zpos
              (FVCOMDataReader._interp_on_sigma_layer g phi host
                 (FVCOMDataReader._n_siglay g - 1)%Z)) as [Hbot|Hbot].
  { eexists. split; [reflexivity|]. right. now split. }
  apply Qnot_le_lt in Hbot.
  destruct (FVCOMDataReader.search_middle g phi host zpos 1%Z
              (Z.to_nat (FVCOMDataReader._n_siglay g - 1)))
    as [location|] eqn:Emid.
  - exists location. split; [reflexivity|].
    destruct (search_middle_found g phi host zpos _ _ _ Emid)
      as (j & Hj & -> & Hlow & Hfirst).
    cbn. repeat split; try lia; try exact Hlow.
    destruct (Z.eq_dec j 1%Z) as [->|Hne]; [exact Htop|].
    apply Hfirst. lia.
  - exfalso.
    assert (Hlast := search_middle_none g phi host zpos _ _ Emid
                       (FVCOMDataReader._n_siglay g - 1)%Z).
    destruct (Z.eq_dec (FVCOMDataReader._n_siglay g) 1%Z) as [E1|E1].
    + rewrite E1 in Hbot. cbn in Hbot. lra.
    + assert (zpos < FVCOMDataReader._interp_on_sigma_layer g phi host
                        (FVCOMDataReader._n_siglay g - 1)%Z) by (apply Hlast; lia).
      lra.
Qed.

Lemma linear_fraction_closed (z lower upper : Q) :
  lower <= z -> z <= upper ->
  0 <= interp.get_linear_fraction z lower upper
  /\ interp.get_linear_fraction z lower upper <= 1.
Proof.
  intros Hlo Hhi. unfold interp.get_linear_fraction.
  destruct (Qlt_le_dec lower upper) as [Hlt|Hge].
  - assert (Hpos : 0 < upper - lower) by lra. split.
    + apply Qle_shift_div_l; [assumption | lra].
    + apply Qle_shift_div_r; [assumption | lra].
  - assert (Hz : z - lower == 0) by lra.
    unfold Qdiv. rewrite Hz, Qmult_0_l. split; lra.
Qed.

Lemma linear_fraction_outside (t t_last t_next : Q) :
  t_last < t_next ->
  (t < t_last -> interp.get_linear_fraction t t_last t_next < 0)
  /\ (t_next < t -> 1 < interp.get_linear_fraction t t_last t_next).
Proof.
  intros Hlt. unfold interp.get_linear_fraction.
  assert (Hpos : 0 < t_next - t_last) by lra. split; intros H.
  - apply Qlt_shift_div_r; [assumption | lra].
  - apply Qlt_shift_div_l; [assumption | lra].
Qed.

Lemma frame_check (t t_last t_next : Q) :
  t_last < t_next ->
  let f := interp.get_linear_fraction t t_last t_next in
  (t_last <= t -> t <= t_next -> Qltb f 0 || Qltb 1 f = false)
  /\ (t < t_last \/ t_next < t -> Qltb f 0 || Qltb 1 f = true).
Proof.
  intros Hlt f. split.
  - intros Hlo Hhi.
    destruct (linear_fraction_closed t t_last t_next Hlo Hhi) as [H0 H1].
    apply orb_false_intro; now apply Qltb_false.
  - destruct (linear_fraction_outside t t_last t_next Hlt) as [Hb Ha].
    intros [H|H]; apply orb_true_iff; [left | right]; apply Qltb_true; auto.
Qed.

Lemma interpolate_between_layers_in_bracket
  (zpos s_lower s_upper up1 vp1 up2 vp2 : Q) :
  s_lower <= zpos -> zpos <= s_upper ->
  exists uv,
    FVCOMDataReader.interpolate_between_layers zpos s_lower s_upper
      up1 vp1 up2 vp2 = Returned uv.
Proof.
  intros Hlo Hhi. unfold FVCOMDataReader.interpolate_between_layers.
  cbv zeta.
  destruct (linear_fraction_closed zpos s_lower s_upper Hlo Hhi) as [H0 H1].
  apply Qltb_false in H0, H1. rewrite H0, H1. cbn [orb]. eexists. reflexivity.
Qed.

(** With at least one sigma layer, the two lookups that work on sigma
    layers, the least-squares velocity and the horizontal eddy diffusivity,
    answer for every position: the layer search always finds a location and
    the sigma fraction it leads to is always in range.  They raise
    [ValueError] exactly when the time lies outside the reading frame
    [[t_last, t_next]]. *)
Theorem layer_lookups_raise_only_out_of_frame {M : Type}
  (g : FVCOMDataReader.Grid) (r : FVCOMDataReader.Reader M)
  (time xpos ypos zpos : Q) (host : Z) :
  (1 <= FVCOMDataReader._n_siglay g)%Z ->
  FVCOMDataReader._time_last r < FVCOMDataReader._time_next r ->
  (FVCOMDataReader._time_last r <= time ->
   time <= FVCOMDataReader._time_next r ->
   (exists uv,
      FVCOMDataReader._get_uv_velocity_using_linear_least_squares_interpolation
        g r time xpos ypos zpos host = Returned uv)
   /\ (exists a,
         FVCOMFields.get_horizontal_eddy_diffusivity g r time xpos ypos zpos
           host = Returned a))
  /\ (time < FVCOMDataReader._time_last r
      \/ FVCOMDataReader._time_next r < time ->
      FVCOMDataReader._get_uv_velocity_using_linear_least_squares_interpolation
        g r time xpos ypos zpos host = Raised ValueError
      /\ FVCOMFields.get_horizontal_eddy_diffusivity g r time xpos ypos zpos
           host = Raised ValueError).
Proof.
  intros Hn Hframe.
  destruct (find_sigma_layers_brackets g
              (FVCOMDataReader._get_phi g xpos ypos host) host zpos Hn)
    as (location & Hloc & Hbr).
  destruct (frame_check time _ _ Hframe) as [Hin Hout].
  unfold FVCOMDataReader._get_uv_velocity_using_linear_least_squares_interpolation,
    FVCOMFields.get_horizontal_eddy_diffusivity.
  cbv zeta. rewrite Hloc. split.
  - intros Hlo Hhi. rewrite (Hin Hlo Hhi). split.
    + destruct (_ <? 0)%Z; destruct location as [k|kl ku sl su];
        try (eexists; reflexivity);
        destruct Hbr as (_ & _ & _ & _ & H1 & H2);
        apply interpolate_between_layers_in_bracket; lra.
    + destruct location as [k|kl ku sl su]; [eexists; reflexivity|].
      destruct Hbr as (_ & _ & _ & _ & H1 & H2).
      assert (H3 : zpos <= su) by lra.
      destruct (linear_fraction_closed zpos sl su H1 H3) as [H0 H01].
      apply Qltb_false in H0, H01. rewrite H0, H01. cbn [orb].
      eexists. reflexivity.
  - intros Hbad. rewrite (Hout Hbad). split; reflexivity.
Qed.

Lemma layer_lookups_raise_only_out_of_frame_witness :
  (exists uv,
     FVCOMDataReader._get_uv_velocity_using_linear_least_squares_interpolation
       Fixtures.interior_grid Fixtures.fvcom_reader (1#2) (1#2) (1#4)
       (-(1#2)) 0%Z = Returned uv)
  /\ (exists a,
        FVCOMFields.get_horizontal_eddy_diffusivity
          Fixtures.interior_grid Fixtures.fvcom_reader (1#2) (1#2) (1#4)
          (-(1#2)) 0%Z = Returned a).
Proof.
  destruct (layer_lookups_raise_only_out_of_frame Fixtures.interior_grid
              Fixtures.fvcom_reader (1#2) (1#2) (1#4) (-(1#2)) 0%Z)
    as [Hin _].
  - vm_compute. discriminate.
  - reflexivity.
  - apply Hin.
    + vm_compute. discriminate.
    + vm_compute. discriminate.
Defined.

(** ** The bounding sigma levels *)

Lemma search_levels_found (g : FVCOMDataReader.Grid) (phi : Vec3) (host : Z)
  (zpos : Q) :
  forall (n : nat) (i : Z) (lv : FVCOMFields.Levels),
    FVCOMFields.search_levels g phi host zpos i n = Some lv ->
    exists j,
      (i <= j < i + Z.of_nat n)%Z
      /\ lv = FVCOMFields.mkLevels (j + 1)%Z j
                (FVCOMFields._interp_on_sigma_level g phi host (j + 1)%Z)
                (FVCOMFields._interp_on_sigma_level g phi host j)
      /\ FVCOMFields._interp_on_sigma_level g phi host (j + 1)%Z <= zpos
      /\ zpos <= FVCOMFields._interp_on_sigma_level g phi host j.
Proof.
  induction n as [|n IH]; intros i lv; cbn [FVCOMFields.search_levels];
    [discriminate|].
  cbv zeta.
  destruct (Qleb_spec zpos (FVCOMFields._interp_on_sigma_level g phi host i))
    as [Hup|Hup];
    destruct (Qleb_spec
                (FVCOMFields._interp_on_sigma_level g phi host (i + 1)%Z) zpos)
      as [Hlo|Hlo]; cbn [andb];
    try (intros Hrest; destruct (IH _ _ Hrest) as (j & Hj & Hrec);
         exists j; split; [lia | exact Hrec]).
  intros [= <-]. exists i. split; [lia|]. split; [reflexivity|]. now split.
Qed.

Lemma search_levels_none (g : FVCOMDataReader.Grid) (phi : Vec3) (host : Z)
  (zpos : Q) :
  forall (n : nat) (i : Z),
    FVCOMFields.search_levels g phi host zpos i n = None ->
    forall j, (i <= j < i + Z.of_nat n)%Z ->
      ~ (FVCOMFields._interp_on_sigma_level g phi host (j + 1)%Z <= zpos
         /\ zpos <= FVCOMFields._interp_on_sigma_level g phi host j).
Proof.
  induction n as [|n IH]; intros i; cbn [FVCOMFields.search_levels].
  - intros _ j Hj. lia.
  - cbv zeta.
    destruct (Qleb_spec zpos (FVCOMFields._interp_on_sigma_level g phi host i))
      as [Hup|Hup];
      destruct (Qleb_spec
                  (FVCOMFields._interp_on_sigma_level g phi host (i + 1)%Z)
                  zpos) as [Hlo|Hlo]; cbn [andb]; try discriminate;
      intros Hrest j Hj; (destruct (Z.eq_dec j i) as [->|Hne];
                          [tauto | apply (IH _ Hrest); lia]).
Qed.

(** A discrete intermediate-value argument: a depth between the values of
    the last and of the first of [n + 1] levels lies between two
    consecutive ones. *)
Lemma a_level_pair_brackets (sigma : Z -> Q) (zpos : Q) :
  forall n : nat,
    sigma (Z.of_nat (S n)) <= zpos -> zpos <= sigma 0%Z ->
    exists j, (0 <= j < Z.of_nat (S n))%Z
              /\ sigma (j + 1)%Z <= zpos /\ zpos <= sigma j.
Proof.
  induction n as [|n IH]; intros Hlast Hfirst.
  - exists 0%Z. split; [lia|]. now split.
  - destruct (Qlt_le_dec zpos (sigma (Z.of_nat (S n)))) as [Hlt|Hge].
    + exists (Z.of_nat (S n)). split; [lia|]. split; [|lra].
      replace (Z.of_nat (S n) + 1)%Z with (Z.of_nat (S (S n))) by lia.
      exact Hlast.
    + destruct (IH Hge Hfirst) as (j & Hj & Hb). exists j. split; [lia|].
      exact Hb.
Qed.

Lemma find_sigma_levels_in_column (g : FVCOMDataReader.Grid) (phi : Vec3)
  (host : Z) (zpos : Q) :
  (1 <= FVCOMDataReader._n_siglay g)%Z ->
  FVCOMFields._interp_on_sigma_level g phi host (FVCOMDataReader._n_siglay g)
  <= zpos ->
  zpos <= FVCOMFields._interp_on_sigma_level g phi host 0%Z ->
  exists lv,
    FVCOMFields.find_sigma_levels g phi host zpos = Some lv
    /\ FVCOMFields.sigma_lower_level lv <= zpos
    /\ zpos <= FVCOMFields.sigma_upper_level lv.
Proof.
  intros Hn Hlast Hfirst. unfold FVCOMFields.find_sigma_levels.
  destruct (FVCOMFields.search_levels g phi host zpos 0%Z
              (Z.to_nat (FVCOMDataReader._n_siglay g))) as [lv|] eqn:Es.
  - exists lv. split; [reflexivity|].
    destruct (search_levels_found g phi host zpos _ _ _ Es)
      as (j & _ & -> & Hlo & Hup). now split.
  - exfalso.
    destruct (Z.to_nat (FVCOMDataReader._n_siglay g)) as [|n] eqn:En; [lia|].
    assert (Hlast' : FVCOMFields._interp_on_sigma_level g phi host
                       (Z.of_nat (S n)) <= zpos).
    { replace (Z.of_nat (S n)) with (FVCOMDataReader._n_siglay g) by lia.
      exact Hlast. }
    destruct (a_level_pair_brackets
                (FVCOMFields._interp_on_sigma_level g phi host) zpos n
                Hlast' Hfirst) as (j & Hj & Hb).
    apply (search_levels_none g phi host zpos _ _ Es j); [lia | exact Hb].
Qed.

Lemma interpolate_between_levels_in_bracket (zpos : Q)
  (lv : FVCOMFields.Levels) (lower upper divisor : Q) :
  FVCOMFields.sigma_lower_level lv <= zpos ->
  zpos <= FVCOMFields.sigma_upper_level lv ->
  exists k,
    FVCOMFields.interpolate_between_levels zpos lv lower upper divisor
    = if Qeq_bool divisor 0 then Raised ZeroDivisionError else Returned k.
Proof.
  intros Hlo Hhi. unfold FVCOMFields.interpolate_between_levels. cbv zeta.
  destruct (linear_fraction_closed zpos _ _ Hlo Hhi) as [H0 H1].
  apply Qltb_false in H0, H1. rewrite H0, H1. cbn [orb]. eexists. reflexivity.
Qed.

Lemma Qeq_bool_square (d : Q) : Qeq_bool (d * d) 0 = Qeq_bool d 0.
Proof.
  destruct (Qeq_bool d 0) eqn:Ed.
  - apply Qeq_bool_iff in Ed. apply Qeq_bool_iff. rewrite Ed. reflexivity.
  - destruct (Qeq_bool (d * d) 0) eqn:Es; [|reflexivity].
    apply Qeq_bool_iff in Es. apply Qeq_bool_neq in Ed.
    destruct (Qmult_integral _ _ Es); contradiction.
Qed.

Lemma Qeq_bool_false (d : Q) : ~ d == 0 -> Qeq_bool d 0 = false.
Proof.
  intros Hd. destruct (Qeq_bool d 0) eqn:Ed; [|reflexivity].
  apply Qeq_bool_iff in Ed. contradiction.
Qed.

Lemma diffusivity_in_column {M : Type}
  (g : FVCOMDataReader.Grid) (r : FVCOMDataReader.Reader M)
  (time xpos ypos zpos : Q) (host : Z) :
  (1 <= FVCOMDataReader._n_siglay g)%Z ->
  FVCOMFields._interp_on_sigma_level g
    (FVCOMDataReader._get_phi g xpos ypos host) host
    (FVCOMDataReader._n_siglay g) <= zpos ->
  zpos <= FVCOMFields._interp_on_sigma_level g
            (FVCOMDataReader._get_phi g xpos ypos host) host 0%Z ->
  exists k,
    FVCOMFields.get_vertical_eddy_diffusivity g r time xpos ypos zpos host
    = if Qeq_bool (FVCOMFields.depth_at g r time xpos ypos host) 0
      then Raised ZeroDivisionError else Returned k.
Proof.
  intros Hn Hlast Hfirst.
  unfold FVCOMFields.get_vertical_eddy_diffusivity, FVCOMFields.depth_at.
  cbv zeta.
  destruct (find_sigma_levels_in_column g _ host zpos Hn Hlast Hfirst)
    as (lv & -> & Hlo & Hhi).
  rewrite <- Qeq_bool_square.
  now apply interpolate_between_levels_in_bracket.
Qed.

Lemma omega_in_column {M : Type}
  (g : FVCOMDataReader.Grid) (r : FVCOMDataReader.Reader M)
  (time xpos ypos zpos : Q) (host : Z) :
  (1 <= FVCOMDataReader._n_siglay g)%Z ->
  FVCOMFields._interp_on_sigma_level g
    (FVCOMDataReader._get_phi g xpos ypos host) host
    (FVCOMDataReader._n_siglay g) <= zpos ->
  zpos <= FVCOMFields._interp_on_sigma_level g
            (FVCOMDataReader._get_phi g xpos ypos host) host 0%Z ->
  exists w,
    FVCOMFields._get_omega_velocity g r time xpos ypos zpos host
      (FVCOMDataReader._get_phi g xpos ypos host)
    = if Qeq_bool (FVCOMFields.depth_at g r time xpos ypos host) 0
      then Raised ZeroDivisionError else Returned w.
Proof.
  intros Hn Hlast Hfirst.
  unfold FVCOMFields._get_omega_velocity, FVCOMFields.depth_at. cbv zeta.
  destruct (find_sigma_levels_in_column g _ host zpos Hn Hlast Hfirst)
    as (lv & -> & Hlo & Hhi).
  now apply interpolate_between_levels_in_bracket.
Qed.

Lemma omega_off_the_levels {M : Type}
  (g : FVCOMDataReader.Grid) (r : FVCOMDataReader.Reader M)
  (time xpos ypos zpos : Q) (host : Z) (phi : Vec3) :
  (forall j, (0 <= j < FVCOMDataReader._n_siglay g)%Z ->
             ~ (FVCOMFields._interp_on_sigma_level g phi host (j + 1)%Z
                <= zpos
                /\ zpos <= FVCOMFields._interp_on_sigma_level g phi host j)) ->
  FVCOMFields.find_sigma_levels g phi host zpos = None.
Proof.
  intros Hnone.
  destruct (FVCOMFields.find_sigma_levels g phi host zpos) as [lv|] eqn:Es;
    [|reflexivity].
  exfalso. unfold FVCOMFields.find_sigma_levels in Es.
  destruct (search_levels_found g phi host zpos _ _ _ Es)
    as (j & Hj & _ & Hlo & Hup).
  apply (Hnone j); [lia | now split].
Qed.

(** The two lookups that work on sigma levels, the vertical eddy
    diffusivity and omega, never check the time.  At a depth between the
    bottom level and the top level of the host they return a value where
    the water depth [h + zeta] they compute is not zero, and raise
    [ZeroDivisionError] where it is; they raise [ValueError] when no pair of
    consecutive levels holds the depth. *)
Theorem level_lookups_defined_in_column {M : Type}
  (g : FVCOMDataReader.Grid) (r : FVCOMDataReader.Reader M)
  (time xpos ypos zpos : Q) (host : Z) :
  let phi := FVCOMDataReader._get_phi g xpos ypos host in
  let sigma := FVCOMFields._interp_on_sigma_level g phi host in
  let depth := FVCOMFields.depth_at g r time xpos ypos host in
  (1 <= FVCOMDataReader._n_siglay g)%Z ->
  (sigma (FVCOMDataReader._n_siglay g) <= zpos -> zpos <= sigma 0%Z ->
   (~ depth == 0 ->
    (exists k, FVCOMFields.get_vertical_eddy_diffusivity g r time xpos ypos
                 zpos host = Returned k)
    /\ (exists w, FVCOMFields._get_omega_velocity g r time xpos ypos zpos
                    host phi = Returned w))
   /\ (depth == 0 ->
       FVCOMFields.get_vertical_eddy_diffusivity g r time xpos ypos zpos host
       = Raised ZeroDivisionError
       /\ FVCOMFields._get_omega_velocity g r time xpos ypos zpos host phi
          = Raised ZeroDivisionError))
  /\ ((forall j, (0 <= j < FVCOMDataReader._n_siglay g)%Z ->
                 ~ (sigma (j + 1)%Z <= zpos /\ zpos <= sigma j)) ->
      FVCOMFields.get_vertical_eddy_diffusivity g r time xpos ypos zpos host
      = Raised ValueError
      /\ FVCOMFields._get_omega_velocity g r time xpos ypos zpos host phi
         = Raised ValueError).
Proof.
  intros phi sigma depth Hn. split.
  - intros Hlast Hfirst.
    destruct (diffusivity_in_column g r time xpos ypos zpos host Hn
                Hlast Hfirst) as (k & Hk).
    destruct (omega_in_column g r time xpos ypos zpos host Hn
                Hlast Hfirst) as (w & Hw).
    fold phi in Hw. fold depth in Hk, Hw. split.
    + intros Hwet. rewrite (Qeq_bool_false _ Hwet) in Hk, Hw.
      split; [now exists k | now exists w].
    + intros Hdry. apply Qeq_bool_iff in Hdry. rewrite Hdry in Hk, Hw.
      now split.
  - intros Hnone.
    unfold FVCOMFields.get_vertical_eddy_diffusivity,
      FVCOMFields._get_omega_velocity. cbv zeta. fold phi.
    rewrite (omega_off_the_levels g r time xpos ypos zpos host phi Hnone).
    split; reflexivity.
Qed.

Lemma level_lookups_defined_in_column_witness :
  (exists k, FVCOMFields.get_vertical_eddy_diffusivity Fixtures.interior_grid
               Fixtures.fvcom_reader 5 (1#2) (1#4) (-(3#4)) 0%Z = Returned k)
  /\ (exists w, FVCOMFields._get_omega_velocity Fixtures.interior_grid
                  Fixtures.fvcom_reader 5 (1#2) (1#4) (-(3#4)) 0%Z
                  (FVCOMDataReader._get_phi Fixtures.interior_grid
                     (1#2) (1#4) 0%Z) = Returned w).
Proof.
  destruct (level_lookups_defined_in_column Fixtures.interior_grid
              Fixtures.fvcom_reader 5 (1#2) (1#4) (-(3#4)) 0%Z) as [Hin _].
  - vm_compute. discriminate.
  - destruct Hin as [Hwet _].
    + vm_compute. discriminate.
    + vm_compute. discriminate.
    + apply Hwet. vm_compute. discriminate.
Defined.

(** ** The probe point of the diffusivity derivative *)

Lemma zpos_incremented_in_column (zpos : Q) :
  -1 <= zpos -> zpos <= 0 ->
  -1 <= FVCOMFields.zpos_incremented zpos
  /\ FVCOMFields.zpos_incremented zpos <= 0
  /\ ~ FVCOMFields.zpos_increment zpos == 0.
Proof.
  intros Hlo Hhi.
  unfold FVCOMFields.zpos_incremented, FVCOMFields.zpos_increment.
  destruct (Qltb_spec 0 (zpos + (1#1000))) as [Htop|Htop].
  - repeat split; try lra; intros H; vm_compute in H; discriminate.
  - apply Qnot_lt_le in Htop.
    repeat split; try lra; intros H; vm_compute in H; discriminate.
Qed.

(** For a depth in the sigma range [[-1, 0]] the derivative of the vertical
    eddy diffusivity is taken from a second point 0.001 away that also lies
    in [[-1, 0]] (the step is turned downwards just below the surface).
    Where the levels of the host span the whole range, the derivative is
    therefore defined at every depth, the surface and the bottom included,
    provided the water depth [h + zeta] at that point and time is not zero;
    where it is zero the call raises [ZeroDivisionError]. *)
Theorem diffusivity_derivative_defined_in_column {M : Type}
  (g : FVCOMDataReader.Grid) (r : FVCOMDataReader.Reader M)
  (time xpos ypos zpos : Q) (host : Z) :
  let phi := FVCOMDataReader._get_phi g xpos ypos host in
  let sigma := FVCOMFields._interp_on_sigma_level g phi host in
  let depth := FVCOMFields.depth_at g r time xpos ypos host in
  (1 <= FVCOMDataReader._n_siglay g)%Z ->
  sigma (FVCOMDataReader._n_siglay g) <= -1 -> 0 <= sigma 0%Z ->
  -1 <= zpos -> zpos <= 0 ->
  -1 <= FVCOMFields.zpos_incremented zpos
  /\ FVCOMFields.zpos_incremented zpos <= 0
  /\ (~ depth == 0 ->
      exists k1 k2,
        FVCOMFields.get_vertical_eddy_diffusivity g r time xpos ypos zpos
          host = Returned k1
        /\ FVCOMFields.get_vertical_eddy_diffusivity g r time xpos ypos
             (FVCOMFields.zpos_incremented zpos) host = Returned k2
        /\ FVCOMFields.get_vertical_eddy_diffusivity_derivative g r time
             xpos ypos zpos host
           = Returned ((k2 - k1) / FVCOMFields.zpos_increment zpos))
  /\ (depth == 0 ->
      FVCOMFields.get_vertical_eddy_diffusivity_derivative g r time
        xpos ypos zpos host = Raised ZeroDivisionError).
Proof.
  intros phi sigma depth Hn Hbot Htop Hlo Hhi.
  destruct (zpos_incremented_in_column zpos Hlo Hhi) as (Hp1 & Hp2 & _).
  split; [exact Hp1|]. split; [exact Hp2|].
  destruct (diffusivity_in_column g r time xpos ypos zpos host Hn)
    as [k1 Hk1]; [fold phi; fold sigma; lra | fold phi; fold sigma; lra |].
  destruct (diffusivity_in_column g r time xpos ypos
              (FVCOMFields.zpos_incremented zpos) host Hn)
    as [k2 Hk2]; [fold phi; fold sigma; lra | fold phi; fold sigma; lra |].
  fold depth in Hk1, Hk2.
  unfold FVCOMFields.get_vertical_eddy_diffusivity_derivative. split.
  - intros Hwet. rewrite (Qeq_bool_false _ Hwet) in Hk1, Hk2.
    exists k1, k2. split; [exact Hk1|]. split; [exact Hk2|].
    rewrite Hk1. cbn [bind]. rewrite Hk2. reflexivity.
  - intros Hdry. apply Qeq_bool_iff in Hdry. rewrite Hdry in Hk1.
    rewrite Hk1. reflexivity.
Qed.

Lemma diffusivity_derivative_defined_in_column_witness :
  exists k1 k2,
    FVCOMFields.get_vertical_eddy_diffusivity Fixtures.interior_grid
      Fixtures.fvcom_reader (1#2) (1#2) (1#4) 0 0%Z = Returned k1
    /\ FVCOMFields.get_vertical_eddy_diffusivity Fixtures.interior_grid
         Fixtures.fvcom_reader (1#2) (1#2) (1#4)
         (FVCOMFields.zpos_incremented 0) 0%Z = Returned k2
    /\ FVCOMFields.get_vertical_eddy_diffusivity_derivative
         Fixtures.interior_grid Fixtures.fvcom_reader (1#2) (1#2) (1#4)
         0 0%Z
       = Returned ((k2 - k1) / FVCOMFields.zpos_increment 0).
Proof.
  destruct (diffusivity_derivative_defined_in_column Fixtures.interior_grid
              Fixtures.fvcom_reader (1#2) (1#2) (1#4) 0 0%Z)
    as (_ & _ & Hwet & _).
  - vm_compute. discriminate.
  - vm_compute. discriminate.
  - vm_compute. discriminate.
  - vm_compute. discriminate.
  - vm_compute. discriminate.
  - apply Hwet. vm_compute. discriminate.
Defined.
(** ** The vertical grid of the GOTM reader *)

Lemma layer_holds_iff (zlev : list Q) (z : Q) (k : Z) :
  GOTMColumn.layer_holds zlev z k = true
  <-> (GOTMColumn.zlev_at zlev k <= z
       /\ z <= GOTMColumn.zlev_at zlev (k + 1)%Z).
Proof.
  unfold GOTMColumn.layer_holds. rewrite andb_true_iff, !Qleb_true. tauto.
Qed.

Lemma search_window_found (n_zlay : Z) (zlev : list Q) (z : Q) :
  forall (ks : list Z) (k : Z),
    GOTMColumn.search_window n_zlay zlev z ks = Some k ->
    In k ks /\ (0 <= k < n_zlay)%Z
    /\ GOTMColumn.layer_holds zlev z k = true.
Proof.
  induction ks as [|a ks IH]; intros k; cbn [GOTMColumn.search_window];
    [discriminate|].
  destruct (Z.ltb_spec a 0) as [Ha|Ha]; cbn [orb].
  - intros H. destruct (IH _ H) as (Hin & Hr). split; [now right | exact Hr].
  - destruct (Z.leb_spec n_zlay a) as [Hb|Hb].
    + intros H. destruct (IH _ H) as (Hin & Hr).
      split; [now right | exact Hr].
    + destruct (GOTMColumn.layer_holds zlev z a) eqn:Ea.
      * intros [= <-]. split; [now left|]. split; [lia | exact Ea].
      * intros H. destruct (IH _ H) as (Hin & Hr).
        split; [now right | exact Hr].
Qed.

Lemma search_column_found (zlev : list Q) (z : Q) :
  forall (n : nat) (i k : Z),
    GOTMColumn.search_column zlev z i n = Some k ->
    (i <= k < i + Z.of_nat n)%Z /\ GOTMColumn.layer_holds zlev z k = true.
Proof.
  induction n as [|n IH]; intros i k; cbn [GOTMColumn.search_column];
    [discriminate|].
  destruct (GOTMColumn.layer_holds zlev z i) eqn:Ei.
  - intros [= <-]. split; [lia | exact Ei].
  - intros H. destruct (IH _ _ H) as (Hk & Hh). split; [lia | exact Hh].
Qed.

Lemma search_column_none (zlev : list Q) (z : Q) :
  forall (n : nat) (i : Z),
    GOTMColumn.search_column zlev z i n = None ->
    forall k, (i <= k < i + Z.of_nat n)%Z ->
      GOTMColumn.layer_holds zlev z k = false.
Proof.
  induction n as [|n IH]; intros i; cbn [GOTMColumn.search_column].
  - intros _ k Hk. lia.
  - destruct (GOTMColumn.layer_holds zlev z i) eqn:Ei; [discriminate|].
    intros H k Hk. destruct (Z.eq_dec k i) as [->|Hne]; [exact Ei|].
    apply (IH _ H). lia.
Qed.

(** [find_zlayer] never raises.  When some layer of the column holds the
    depth between its two interfaces, the layer it answers is a layer of
    the column that holds the depth, whatever the guess.  When no layer
    does, it answers 0, although layer 0 does not hold the depth: a failed
    search cannot be told from the answer. *)
Theorem find_zlayer_sound_and_complete {M : Type}
  (sigma_to_cartesian_coords : Q -> Q -> Q -> Q)
  (r : GOTMDataReader.Reader M) (time xpos ypos zpos : Q) (host guess : Z) :
  let z := sigma_to_cartesian_coords zpos (GOTMDataReader._H r)
             (GOTMDataReader._zeta r) in
  let n_zlay := Z.of_nat (GOTMDataReader._n_zlay r) in
  let zlev := GOTMColumn.zlev_at (GOTMDataReader._zlev r) in
  let k := GOTMColumn.find_zlayer sigma_to_cartesian_coords r time xpos ypos
             zpos host guess in
  ((exists j, (0 <= j < n_zlay)%Z /\ zlev j <= z /\ z <= zlev (j + 1)%Z) ->
   (0 <= k < n_zlay)%Z /\ zlev k <= z /\ z <= zlev (k + 1)%Z)
  /\ ((forall j, (0 <= j < n_zlay)%Z ->
                 ~ (zlev j <= z /\ z <= zlev (j + 1)%Z)) ->
      k = 0%Z /\ ~ (zlev k <= z /\ z <= zlev (k + 1)%Z
                    /\ (0 <= k < n_zlay)%Z)).
Proof.
  intros z n_zlay zlev k. unfold k, GOTMColumn.find_zlayer. cbv zeta.
  fold z. fold n_zlay.
  destruct (GOTMColumn.search_window n_zlay (GOTMDataReader._zlev r) z _)
    as [kw|] eqn:Ew.
  - destruct (search_window_found _ _ _ _ _ Ew) as (_ & Hk & Hh).
    apply layer_holds_iff in Hh. split.
    + intros _. split; [exact Hk | exact Hh].
    + intros Hnone. exfalso. exact (Hnone kw Hk Hh).
  - destruct (GOTMColumn.search_column (GOTMDataReader._zlev r) z 0%Z
                (GOTMDataReader._n_zlay r)) as [kc|] eqn:Ec.
    + destruct (search_column_found _ _ _ _ _ Ec) as (Hk & Hh).
      apply layer_holds_iff in Hh.
      assert (Hk' : (0 <= kc < n_zlay)%Z) by (unfold n_zlay; lia).
      split.
      * intros _. split; [exact Hk' | exact Hh].
      * intros Hnone. exfalso. exact (Hnone kc Hk' Hh).
    + split.
      * intros (j & Hj & Hb). exfalso.
        apply layer_holds_iff in Hb.
        rewrite (search_column_none _ _ _ _ Ec j) in Hb; [discriminate|].
        unfold n_zlay in Hj. lia.
      * intros Hnone. split; [reflexivity|].
        intros (H1 & H2 & H3). exact (Hnone 0%Z H3 (conj H1 H2)).
Qed.

(** ** Invariants of the GOTM reader *)

Lemma interface_depths_length (n : nat) (z h : list Q) :
  length (GOTMDataReader.interface_depths n z h) = S n.
Proof.
  unfold GOTMDataReader.interface_depths.
  rewrite length_app, length_map, length_seq. cbn. lia.
Qed.

Lemma interface_kh_shape (n : nat) (nuh : list Q) :
  length (GOTMDataReader.interface_kh n nuh) = S n
  /\ nth 0 (GOTMDataReader.interface_kh n nuh) 0 = 0.
Proof.
  unfold GOTMDataReader.interface_kh. cbn.
  now rewrite length_map, length_seq.
Qed.

(** The GOTM reader keeps the shape of its column.  Reading the snapshots
    gives one entry per interface ([n_zlay + 1]) with no diffusivity at the
    bottom interface; [read_data] keeps that shape at any time, and the
    fields it interpolates have one entry per interface too, with [H] equal
    to minus the depth of interface 0 and no diffusivity there. *)
Theorem gotm_reader_keeps_column_shape {M : Type}
  (med : GOTMDataReader.Mediator M) (r : GOTMDataReader.Reader M) (t : Q) :
  GOTMColumn.snapshots_shaped (GOTMDataReader._read_time_dependent_vars med r)
  /\ (GOTMColumn.snapshots_shaped r ->
      let r' := GOTMDataReader.read_data med r t in
      GOTMColumn.snapshots_shaped r'
      /\ GOTMDataReader._n_zlay r' = GOTMDataReader._n_zlay r
      /\ length (GOTMDataReader._zlev r') = GOTMDataReader._n_zlev r
      /\ length (GOTMDataReader._kh r') = GOTMDataReader._n_zlev r
      /\ GOTMDataReader._H r' = - nth 0 (GOTMDataReader._zlev r') 0
      /\ nth 0 (GOTMDataReader._kh r') 0 == 0).
Proof.
  assert (Hread : forall r0 : GOTMDataReader.Reader M,
             GOTMColumn.snapshots_shaped
               (GOTMDataReader._read_time_dependent_vars med r0)).
  { intros r0. unfold GOTMColumn.snapshots_shaped,
      GOTMDataReader._read_time_dependent_vars, GOTMDataReader._n_zlev.
    cbn. rewrite !interface_depths_length.
    repeat split;
      try apply (proj1 (interface_kh_shape _ _));
      try apply (proj2 (interface_kh_shape _ _)). }
  split; [apply Hread|]. intros Hshape r'.
  assert (Hr1 : exists r1, r' = GOTMDataReader._interpolate_in_time r1 t
                           /\ GOTMColumn.snapshots_shaped r1
                           /\ GOTMDataReader._n_zlay r1
                              = GOTMDataReader._n_zlay r).
  { unfold r', GOTMDataReader.read_data. cbv zeta.
    destruct (_ || _).
    - eexists. split; [reflexivity|]. split; [apply Hread | reflexivity].
    - exists r. split; [reflexivity|]. split; [exact Hshape | reflexivity]. }
  destruct Hr1 as (r1 & -> & Hs1 & Hn1).
  destruct Hs1 as (H1 & H2 & H3 & H4 & H5 & H6).
  unfold GOTMColumn.snapshots_shaped, GOTMDataReader._interpolate_in_time,
    GOTMDataReader._n_zlev in *.
  cbn. rewrite !length_map, !length_seq, Hn1 in *.
  repeat split; try assumption.
  rewrite H5, H6. unfold interp.linear_interp. ring.
Qed.

Lemma gotm_reader_keeps_column_shape_witness :
  GOTMColumn.snapshots_shaped
    (GOTMDataReader.read_data Fixtures.gotm_mediator Fixtures.gotm_reader (7#2))
  /\ length (GOTMDataReader._zlev
               (GOTMDataReader.read_data Fixtures.gotm_mediator
                  Fixtures.gotm_reader (7#2))) = 3%nat.
Proof.
  destruct (gotm_reader_keeps_column_shape Fixtures.gotm_mediator
              Fixtures.gotm_reader (7#2)) as [_ H].
  destruct H as (Hs & _ & Hl & _).
  - vm_compute. repeat split; reflexivity.
  - split; [exact Hs | exact Hl].
Defined.

(** ** Reading frames, continued *)

(** Calling [read_data] twice with the same time is the same as calling it
    once, also when the first call moves the reading frame, provided the
    mediator then serves a frame that holds the time
    ([t_last <= t < t_next]).  This holds for the FVCOM reader and for the
    GOTM reader. *)
Theorem read_data_twice_is_once {M N : Type}
  (fmed : FVCOMDataReader.Mediator M) (fr : FVCOMDataReader.Reader M)
  (gmed : GOTMDataReader.Mediator N) (gr : GOTMDataReader.Reader N)
  (t : Q) :
  let fm := FVCOMDataReader.update_reading_frames fmed
              (FVCOMDataReader.mediator fr) t in
  let gm := GOTMDataReader.update_reading_frames gmed
              (GOTMDataReader.mediator gr) t in
  FVCOMDataReader.get_time_at_last_time_index fmed fm <= t ->
  t < FVCOMDataReader.get_time_at_next_time_index fmed fm ->
  GOTMDataReader.get_time_at_last_time_index gmed gm <= t ->
  t < GOTMDataReader.get_time_at_next_time_index gmed gm ->
  FVCOMDataReader.read_data fmed (FVCOMDataReader.read_data fmed fr t) t
  = FVCOMDataReader.read_data fmed fr t
  /\ GOTMDataReader.read_data gmed (GOTMDataReader.read_data gmed gr t) t
     = GOTMDataReader.read_data gmed gr t.
Proof.
  intros fm gm Hf1 Hf2 Hg1 Hg2. split.
  - unfold FVCOMDataReader.read_data at 2. cbv zeta.
    destruct (_ || _) eqn:Etest.
    + fold fm. unfold FVCOMDataReader.read_data. cbv zeta.
      cbn [FVCOMDataReader._read_time_dependent_vars
             FVCOMDataReader._time_last FVCOMDataReader._time_next].
      rewrite frame_test_within_frame by assumption.
      rewrite Etest. reflexivity.
    + unfold FVCOMDataReader.read_data. cbv zeta. now rewrite Etest.
  - unfold GOTMDataReader.read_data at 2. cbv zeta.
    destruct (_ || _) eqn:Etest.
    + cbn [GOTMDataReader.with_mediator GOTMDataReader.mediator]. fold gm.
      unfold GOTMDataReader.read_data. cbv zeta.
      cbn [GOTMDataReader._interpolate_in_time
             GOTMDataReader._read_time_dependent_vars
             GOTMDataReader._time_last GOTMDataReader._time_next
             GOTMDataReader.with_mediator GOTMDataReader.mediator].
      rewrite frame_test_within_frame by assumption.
      rewrite Etest. reflexivity.
    + unfold GOTMDataReader.read_data. cbv zeta.
      cbn [GOTMDataReader._interpolate_in_time
             GOTMDataReader._time_last GOTMDataReader._time_next].
      now rewrite Etest.
Qed.

Lemma read_data_twice_is_once_witness :
  FVCOMDataReader.read_data Fixtures.fvcom_mediator
    (FVCOMDataReader.read_data Fixtures.fvcom_mediator Fixtures.fvcom_reader
       (7#2)) (7#2)
  = FVCOMDataReader.read_data Fixtures.fvcom_mediator Fixtures.fvcom_reader
      (7#2)
  /\ GOTMDataReader.read_data Fixtures.gotm_mediator
       (GOTMDataReader.read_data Fixtures.gotm_mediator Fixtures.gotm_reader
          (7#2)) (7#2)
     = GOTMDataReader.read_data Fixtures.gotm_mediator Fixtures.gotm_reader
         (7#2).
Proof.
  apply (read_data_twice_is_once Fixtures.fvcom_mediator Fixtures.fvcom_reader
           Fixtures.gotm_mediator Fixtures.gotm_reader (7#2));
    vm_compute; try discriminate; reflexivity.
Defined.

(** ** Runge-Kutta advection of the analytic test case *)

(** On the analytic reader ([u = x], [v = 1.5 y], [w = 0], every position in
    element 0) one call of [advect] with step [h] never leaves early: it
    multiplies [x] by the fourth-order Taylor polynomial of [exp] at [h] and
    [y] by the one at [1.5 h], and leaves [z] where it was. *)
Theorem rk4_on_analytic_reader (h t : Q) (p : Particle) :
  exists p',
    RK4Integrator.advect h t p AnalyticDataReader.data_reader = Returned p'
    /\ xpos p' == xpos p * AnalyticDataReader.taylor4 h
    /\ ypos p' == ypos p * AnalyticDataReader.taylor4 ((3#2) * h)
    /\ zpos p' == zpos p
    /\ host_horizontal_elem p' = 0%Z
    /\ group_id p' = group_id p
    /\ in_domain p' = in_domain p.
Proof.
  eexists. split; [reflexivity|].
  cbn [xpos ypos zpos host_horizontal_elem group_id in_domain].
  unfold AnalyticDataReader.taylor4, RK4Integrator.weighted_sum,
    RK4Integrator.stage, AnalyticDataReader._get_u_component,
    AnalyticDataReader._get_v_component.
  cbn [v0 v1 v2].
  repeat split; field.
Qed.

(** ** Reflection at a land boundary *)

Lemma sum_of_squares_null (a b : Q) : a * a + b * b == 0 -> a == 0 /\ b == 0.
Proof.
  intros H.
  assert (Ha : 0 <= a * a) by nra.
  assert (Hb : 0 <= b * b) by nra.
  assert (Ha0 : a * a == 0) by lra.
  assert (Hb0 : b * b == 0) by lra.
  split.
  - destruct (Qmult_integral _ _ Ha0); assumption.
  - destruct (Qmult_integral _ _ Hb0); assumption.
Qed.

Lemma normal_is_not_null (s : RefHorizBoundaryConditionCalculator.Intersection) :
  ~ (RefHorizBoundaryConditionCalculator.c0
       (RefHorizBoundaryConditionCalculator.side_x1 s)
     == RefHorizBoundaryConditionCalculator.c0
          (RefHorizBoundaryConditionCalculator.side_x2 s)
     /\ RefHorizBoundaryConditionCalculator.c1
          (RefHorizBoundaryConditionCalculator.side_x1 s)
        == RefHorizBoundaryConditionCalculator.c1
             (RefHorizBoundaryConditionCalculator.side_x2 s)) ->
  ~ RefHorizBoundaryConditionCalculator.inner_product
      (RefHorizBoundaryConditionCalculator.normal s)
      (RefHorizBoundaryConditionCalculator.normal s) == 0.
Proof.
  intros Hdiff Hnull. apply Hdiff.
  unfold RefHorizBoundaryConditionCalculator.inner_product,
    RefHorizBoundaryConditionCalculator.normal in Hnull.
  cbn [RefHorizBoundaryConditionCalculator.c0
         RefHorizBoundaryConditionCalculator.c1] in Hnull.
  destruct (sum_of_squares_null _ _ Hnull) as [Ha Hb]. split; lra.
Qed.

(** [apply] mirrors the new position in the side that was crossed, provided
    the two end points of the side differ: seen from the intersection point,
    the component along the normal of the side changes sign, the component
    along the side is kept, and so is the distance to the intersection;
    mirroring the result again gives the position back. *)
Theorem reflection_is_a_mirror
  (get_boundary_intersection : RefHorizBoundaryConditionCalculator.BoundaryReader)
  (x_old y_old x_new y_new : Q) (last_host : Z) :
  let s := get_boundary_intersection x_old y_old x_new y_new last_host in
  let x1 := RefHorizBoundaryConditionCalculator.side_x1 s in
  let x2 := RefHorizBoundaryConditionCalculator.side_x2 s in
  let xi := RefHorizBoundaryConditionCalculator.side_xi s in
  let n := RefHorizBoundaryConditionCalculator.normal s in
  let r := RefHorizBoundaryConditionCalculator.apply
             get_boundary_intersection x_old y_old x_new y_new last_host in
  let dx := x_new - RefHorizBoundaryConditionCalculator.c0 xi in
  let dy := y_new - RefHorizBoundaryConditionCalculator.c1 xi in
  let rx := fst r - RefHorizBoundaryConditionCalculator.c0 xi in
  let ry := snd r - RefHorizBoundaryConditionCalculator.c1 xi in
  ~ (RefHorizBoundaryConditionCalculator.c0 x1
     == RefHorizBoundaryConditionCalculator.c0 x2
     /\ RefHorizBoundaryConditionCalculator.c1 x1
        == RefHorizBoundaryConditionCalculator.c1 x2) ->
  RefHorizBoundaryConditionCalculator.c0 n * rx
  + RefHorizBoundaryConditionCalculator.c1 n * ry
  == - (RefHorizBoundaryConditionCalculator.c0 n * dx
        + RefHorizBoundaryConditionCalculator.c1 n * dy)
  /\ (RefHorizBoundaryConditionCalculator.c0 x2
      - RefHorizBoundaryConditionCalculator.c0 x1) * rx
     + (RefHorizBoundaryConditionCalculator.c1 x2
        - RefHorizBoundaryConditionCalculator.c1 x1) * ry
     == (RefHorizBoundaryConditionCalculator.c0 x2
         - RefHorizBoundaryConditionCalculator.c0 x1) * dx
        + (RefHorizBoundaryConditionCalculator.c1 x2
           - RefHorizBoundaryConditionCalculator.c1 x1) * dy
  /\ rx * rx + ry * ry == dx * dx + dy * dy
  /\ RefHorizBoundaryConditionCalculator.c0
       (RefHorizBoundaryConditionCalculator.reflect s
          (RefHorizBoundaryConditionCalculator.mkVec2 (fst r) (snd r)))
     == x_new
  /\ RefHorizBoundaryConditionCalculator.c1
       (RefHorizBoundaryConditionCalculator.reflect s
          (RefHorizBoundaryConditionCalculator.mkVec2 (fst r) (snd r)))
     == y_new.
Proof.
  intros s x1 x2 xi n r dx dy rx ry Hdiff.
  pose proof (normal_is_not_null s Hdiff) as Hn.
  unfold RefHorizBoundaryConditionCalculator.inner_product,
    RefHorizBoundaryConditionCalculator.normal in Hn.
  cbn [RefHorizBoundaryConditionCalculator.c0
         RefHorizBoundaryConditionCalculator.c1] in Hn.
  subst rx ry dx dy r n xi x1 x2.
  unfold RefHorizBoundaryConditionCalculator.apply,
    RefHorizBoundaryConditionCalculator.reflect,
    RefHorizBoundaryConditionCalculator.inner_product,
    RefHorizBoundaryConditionCalculator.normal.
  fold s.
  cbn [fst snd RefHorizBoundaryConditionCalculator.c0
         RefHorizBoundaryConditionCalculator.c1].
  repeat split; field; exact Hn.
Qed.

Lemma reflection_is_a_mirror_witness :
  RefHorizBoundaryConditionCalculator.c0
    (RefHorizBoundaryConditionCalculator.reflect
       (MoreFixtures.wall_intersection (1#2) (1#2) (3#2) 1 0%Z)
       (RefHorizBoundaryConditionCalculator.mkVec2
          (fst (RefHorizBoundaryConditionCalculator.apply
                  MoreFixtures.wall_intersection (1#2) (1#2) (3#2) 1 0%Z))
          (snd (RefHorizBoundaryConditionCalculator.apply
                  MoreFixtures.wall_intersection (1#2) (1#2) (3#2) 1 0%Z))))
  == 3#2
  /\ RefHorizBoundaryConditionCalculator.c1
       (RefHorizBoundaryConditionCalculator.reflect
          (MoreFixtures.wall_intersection (1#2) (1#2) (3#2) 1 0%Z)
          (RefHorizBoundaryConditionCalculator.mkVec2
             (fst (RefHorizBoundaryConditionCalculator.apply
                     MoreFixtures.wall_intersection (1#2) (1#2) (3#2) 1 0%Z))
             (snd (RefHorizBoundaryConditionCalculator.apply
                     MoreFixtures.wall_intersection (1#2) (1#2) (3#2) 1 0%Z))))
     == 1.
Proof.
  destruct (reflection_is_a_mirror MoreFixtures.wall_intersection
              (1#2) (1#2) (3#2) 1 0%Z) as (_ & _ & _ & Hx & Hy).
  - vm_compute. intros [_ H]. discriminate.
  - split; [exact Hx | exact Hy].
Defined.

(** ** The walls of the two-dimensional test box *)

Lemma reflect_into_unfold (fuel : nat) (xmin xmax x : Q) :
  MockTwoDNumMethod.reflect_into fuel xmin xmax x =
  if Qltb x xmin || Qltb xmax x then
    match fuel with
    | O => Diverged
    | S fuel' =>
        r <- MockTwoDNumMethod.reflect_into fuel' xmin xmax
               (if Qltb x xmin then xmin + xmin - x
                else if Qltb xmax x then xmax + xmax - x
                else x) ;;
        Returned (S (fst r), snd r)
    end
  else Returned (O, x).
Proof. destruct fuel; reflexivity. Qed.

Lemma reflect_into_within (xmin xmax : Q) :
  xmin < xmax ->
  forall (n fuel : nat) (x : Q),
    x - xmax <= inject_Z (Z.of_nat n) * (xmax - xmin) ->
    xmin - x <= inject_Z (Z.of_nat n) * (xmax - xmin) ->
    (n <= fuel)%nat ->
    exists (k : nat) (x' : Q),
      MockTwoDNumMethod.reflect_into fuel xmin xmax x = Returned (k, x')
      /\ (k <= n)%nat /\ xmin <= x' /\ x' <= xmax.
Proof.
  intros Hbox. induction n as [|n IH]; intros fuel x Hhi Hlo Hfuel;
    rewrite reflect_into_unfold.
  - cbn in Hhi, Hlo. rewrite Qmult_0_l in Hhi, Hlo.
    destruct (Qltb_spec x xmin); [lra|].
    destruct (Qltb_spec xmax x); [lra|].
    cbn [orb]. exists O, x. repeat split; try lra. lia.
  - assert (Hstep : inject_Z (Z.of_nat (S n)) * (xmax - xmin)
                    == inject_Z (Z.of_nat n) * (xmax - xmin) + (xmax - xmin)).
    { rewrite Nat2Z.inj_succ. unfold Z.succ. rewrite inject_Z_plus. ring. }
    rewrite Hstep in Hhi, Hlo.
    destruct (Qltb_spec x xmin) as [Hl|Hl].
    + cbn [orb]. destruct fuel as [|fuel]; [lia|].
      destruct (IH fuel (xmin + xmin - x)) as (k & x' & -> & Hk & Hb);
        try lra; try lia.
      * assert (0 <= inject_Z (Z.of_nat n) * (xmax - xmin)).
        { apply Qmult_le_0_compat; [|lra].
          change 0 with (inject_Z 0). rewrite <- Zle_Qle. lia. }
        lra.
      * cbn [bind fst snd]. exists (S k), x'. repeat split; try tauto. lia.
    + destruct (Qltb_spec xmax x) as [Hu|Hu].
      * cbn [orb]. destruct fuel as [|fuel]; [lia|].
        destruct (IH fuel (xmax + xmax - x)) as (k & x' & -> & Hk & Hb);
          try lra; try lia.
        -- assert (0 <= inject_Z (Z.of_nat n) * (xmax - xmin)).
           { apply Qmult_le_0_compat; [|lra].
             change 0 with (inject_Z 0). rewrite <- Zle_Qle. lia. }
           lra.
        -- cbn [bind fst snd]. exists (S k), x'. repeat split; try tauto. lia.
      * cbn [orb]. exists O, x. repeat split; try lra. lia.
Qed.

Lemma passes_needed (w d : Q) :
  0 < w ->
  d <= inject_Z (Z.of_nat (Z.to_nat (Qceiling (d / w)))) * w.
Proof.
  intros Hw.
  assert (Hc : d / w <= inject_Z (Z.of_nat (Z.to_nat (Qceiling (d / w))))).
  { apply Qle_trans with (inject_Z (Qceiling (d / w)));
      [apply Qle_ceiling|].
    rewrite <- Zle_Qle. lia. }
  apply Qmult_le_compat_r with (z := w) in Hc; [|lra].
  assert (Hd : d / w * w == d) by (field; lra).
  rewrite Hd in Hc. exact Hc.
Qed.

(** The loop that folds a coordinate back into the test box always ends for
    a box of positive width, however far out the coordinate is: there is a
    number of passes after which it has returned, with a coordinate inside
    [[xmin, xmax]]. *)
Theorem box_walls_loop_terminates (xmin xmax x : Q) :
  xmin < xmax ->
  exists n : nat,
    forall fuel : nat, (n <= fuel)%nat ->
      exists (k : nat) (x' : Q),
        MockTwoDNumMethod.reflect_into fuel xmin xmax x = Returned (k, x')
        /\ (k <= n)%nat /\ xmin <= x' /\ x' <= xmax.
Proof.
  intros Hbox.
  set (w := xmax - xmin).
  set (n1 := Z.to_nat (Qceiling ((x - xmax) / w))).
  set (n2 := Z.to_nat (Qceiling ((xmin - x) / w))).
  assert (Hw : 0 < w) by (unfold w; lra).
  assert (Hmono : forall a b : nat, (a <= b)%nat ->
            inject_Z (Z.of_nat a) * w <= inject_Z (Z.of_nat b) * w).
  { intros a b Hab. apply Qmult_le_compat_r; [|lra].
    rewrite <- Zle_Qle. lia. }
  exists (Nat.max n1 n2). intros fuel Hfuel.
  apply (reflect_into_within xmin xmax Hbox (Nat.max n1 n2) fuel x);
    [| |exact Hfuel]; fold w.
  - apply Qle_trans with (inject_Z (Z.of_nat n1) * w);
      [apply passes_needed; exact Hw | apply Hmono; lia].
  - apply Qle_trans with (inject_Z (Z.of_nat n2) * w);
      [apply passes_needed; exact Hw | apply Hmono; lia].
Qed.

Lemma box_walls_loop_terminates_witness :
  exists n : nat,
    forall fuel : nat, (n <= fuel)%nat ->
      exists (k : nat) (x' : Q),
        MockTwoDNumMethod.reflect_into fuel (-10) 10 57 = Returned (k, x')
        /\ (k <= n)%nat /\ -10 <= x' /\ x' <= 10.
Proof.
  apply (box_walls_loop_terminates (-10) 10 57). reflexivity.
Defined.

(** ** Invariants of the particle loops *)

Lemma fvcom_update_particle_keeps (fuel : nat) (m : FVCOMOPTModel.Model)
  (time : Q) (p p' : Particle) :
  FVCOMOPTModel.update_particle fuel m time p = Returned p' ->
  group_id p' = group_id p /\ (in_domain p' = true -> in_domain p = true).
Proof.
  unfold FVCOMOPTModel.update_particle.
  destruct (in_domain p) eqn:Ein; [|intros [= <-]; split; congruence].
  destruct (FVCOMOPTModel.advection m time p) as [host_err delta_0].
  destruct (match host_err with Some e => (e =? -2)%Z | None => false end);
    [intros [= <-]; split; [reflexivity | congruence]|].
  destruct (FVCOMOPTModel.bc_loop fuel m p _) as [r| |]; cbn [bind];
    try discriminate.
  destruct (_ =? -2)%Z; [intros [= <-]; split; [reflexivity | congruence]|].
  destruct (_ =? 0)%Z; [|discriminate].
  intros [= <-]. split; [reflexivity | congruence].
Qed.

Lemma gotm_update_particle_keeps (m : GOTMOPTModel.Model) (time : Q)
  (p p' : Particle) :
  GOTMOPTModel.update_particle m time p = Returned p' ->
  group_id p' = group_id p /\ in_domain p' = in_domain p
  /\ xpos p' = xpos p /\ ypos p' = ypos p
  /\ host_horizontal_elem p' = host_horizontal_elem p
  /\ (in_domain p = true ->
      get_zmin (GOTMOPTModel.data_reader m) time 0 0 0%Z <= zpos p'
      /\ zpos p' <= get_zmax (GOTMOPTModel.data_reader m) time 0 0 0%Z).
Proof.
  unfold GOTMOPTModel.update_particle.
  destruct (in_domain p) eqn:Ein;
    [|intros [= <-]; repeat split; congruence].
  cbv zeta.
  destruct (GOTMOPTModel.apply_vertical_bc _ _ _) as [z1| |] eqn:Ebc;
    try discriminate.
  intros [= <-]. cbn. repeat split; try congruence;
    unfold GOTMOPTModel.apply_vertical_bc in Ebc;
    apply check_zpos_returned in Ebc; destruct Ebc as (-> & Hlo & Hhi);
    assumption.
Qed.

(** A call of [update] keeps the particle set in shape, however it ends: the
    same number of particles in the same order, each with its group id; in
    the FVCOM driver a particle never comes back into the domain, and in
    the GOTM driver a particle keeps its horizontal position, its host and
    its [in_domain] flag. *)
Theorem update_keeps_the_particle_set
  (fuel : nat) (fm : FVCOMOPTModel.Model) (gm : GOTMOPTModel.Model)
  (time : Q) (ps : list Particle) :
  Forall2 (fun p p' => group_id p' = group_id p
                       /\ (in_domain p' = true -> in_domain p = true))
          ps (fst (FVCOMOPTModel.update fuel fm time ps))
  /\ Forall2 (fun p p' => group_id p' = group_id p
                          /\ in_domain p' = in_domain p
                          /\ xpos p' = xpos p /\ ypos p' = ypos p
                          /\ host_horizontal_elem p'
                             = host_horizontal_elem p)
             ps (fst (GOTMOPTModel.update gm time ps)).
Proof.
  split.
  - assert (Hrefl : forall l : list Particle,
              Forall2 (fun p p' => group_id p' = group_id p
                         /\ (in_domain p' = true -> in_domain p = true)) l l).
    { induction l; constructor; auto. }
    induction ps as [|p ps IH]; cbn [FVCOMOPTModel.update fst];
      [constructor|].
    destruct (FVCOMOPTModel.update_particle fuel fm time p) as [p'| |] eqn:Ep;
      cbn [fst]; try apply Hrefl.
    destruct (FVCOMOPTModel.update fuel fm time ps) as [rest o].
    cbn [fst] in *. constructor; [|exact IH].
    exact (fvcom_update_particle_keeps fuel fm time p p' Ep).
  - assert (Hrefl : forall l : list Particle,
              Forall2 (fun p p' => group_id p' = group_id p
                          /\ in_domain p' = in_domain p
                          /\ xpos p' = xpos p /\ ypos p' = ypos p
                          /\ host_horizontal_elem p'
                             = host_horizontal_elem p) l l).
    { induction l; constructor; auto; repeat split. }
    induction ps as [|p ps IH]; cbn [GOTMOPTModel.update fst];
      [constructor|].
    destruct (GOTMOPTModel.update_particle gm time p) as [p'| |] eqn:Ep;
      cbn [fst]; try apply Hrefl.
    destruct (GOTMOPTModel.update gm time ps) as [rest o].
    cbn [fst] in *. constructor; [|exact IH].
    destruct (gotm_update_particle_keeps gm time p p' Ep)
      as (H1 & H2 & H3 & H4 & H5 & _).
    repeat split; assumption.
Qed.

(** When [GOTMOPTModel.update] returns normally, every particle that is in
    the domain lies inside the water column of that time:
    [zmin <= zpos <= zmax]. *)
Theorem gotm_update_keeps_particles_in_column
  (m : GOTMOPTModel.Model) (time : Q) (ps : list Particle) :
  snd (GOTMOPTModel.update m time ps) = Returned tt ->
  Forall (fun p' =>
            in_domain p' = true ->
            get_zmin (GOTMOPTModel.data_reader m) time 0 0 0%Z <= zpos p'
            /\ zpos p' <= get_zmax (GOTMOPTModel.data_reader m) time 0 0 0%Z)
         (fst (GOTMOPTModel.update m time ps)).
Proof.
  induction ps as [|p ps IH]; cbn [GOTMOPTModel.update fst snd];
    [constructor|].
  destruct (GOTMOPTModel.update_particle m time p) as [p'| |] eqn:Ep;
    cbn [snd]; try discriminate.
  destruct (GOTMOPTModel.update m time ps) as [rest o].
  cbn [fst snd] in *. intros Ho. constructor; [|exact (IH Ho)].
  destruct (gotm_update_particle_keeps m time p p' Ep)
    as (_ & Hd & _ & _ & _ & Hcol).
  intros Hin. apply Hcol. congruence.
Qed.

Lemma gotm_update_keeps_particles_in_column_witness :
  Forall (fun p' =>
            in_domain p' = true ->
            get_zmin (GOTMOPTModel.data_reader MoreFixtures.gentle_column_model)
              0 0 0 0%Z <= zpos p'
            /\ zpos p'
               <= get_zmax
                    (GOTMOPTModel.data_reader MoreFixtures.gentle_column_model)
                    0 0 0 0%Z)
         (fst (GOTMOPTModel.update MoreFixtures.gentle_column_model 0
                 [Fixtures.p0; set_out_of_domain Fixtures.p0])).
Proof.
  apply (gotm_update_keeps_particles_in_column
           MoreFixtures.gentle_column_model 0
           [Fixtures.p0; set_out_of_domain Fixtures.p0]).
  vm_compute. reflexivity.
Defined.

(** ** Committed positions of the FVCOM driver *)

Lemma locate_agrees (m : FVCOMOPTModel.Model) (p : Particle) (x y : Q) :
  find_host (FVCOMOPTModel.data_reader m) (xpos p) (ypos p)
    (FVCOMOPTModel.loc_xpos (FVCOMOPTModel.locate m p x y))
    (FVCOMOPTModel.loc_ypos (FVCOMOPTModel.locate m p x y))
    (host_horizontal_elem p)
  = (FVCOMOPTModel.loc_flag (FVCOMOPTModel.locate m p x y),
     FVCOMOPTModel.loc_host (FVCOMOPTModel.locate m p x y)).
Proof.
  unfold FVCOMOPTModel.locate.
  destruct (find_host (FVCOMOPTModel.data_reader m) (xpos p) (ypos p) x y
              (host_horizontal_elem p)) as [flag host] eqn:E.
  cbn. exact E.
Qed.

Lemma bc_loop_agrees (m : FVCOMOPTModel.Model) (p : Particle) :
  forall (fuel : nat) (s : FVCOMOPTModel.Located)
         (r : nat * FVCOMOPTModel.Located),
    find_host (FVCOMOPTModel.data_reader m) (xpos p) (ypos p)
      (FVCOMOPTModel.loc_xpos s) (FVCOMOPTModel.loc_ypos s)
      (host_horizontal_elem p)
    = (FVCOMOPTModel.loc_flag s, FVCOMOPTModel.loc_host s) ->
    FVCOMOPTModel.bc_loop fuel m p s = Returned r ->
    find_host (FVCOMOPTModel.data_reader m) (xpos p) (ypos p)
      (FVCOMOPTModel.loc_xpos (snd r)) (FVCOMOPTModel.loc_ypos (snd r))
      (host_horizontal_elem p)
    = (FVCOMOPTModel.loc_flag (snd r), FVCOMOPTModel.loc_host (snd r)).
Proof.
  induction fuel as [|fuel IH]; intros s r Hs; rewrite bc_loop_unfold;
    destruct (FVCOMOPTModel.loc_flag s =? -1)%Z;
    try discriminate; try (intros [= <-]; exact Hs).
  destruct (FVCOMOPTModel.bc_loop fuel m p (FVCOMOPTModel.bc_body m p s))
    as [r'| |] eqn:Er; cbn [bind]; try discriminate.
  intros [= <-]. cbn [snd]. eapply IH; [|exact Er].
  unfold FVCOMOPTModel.bc_body.
  destruct (FVCOMOPTModel.horiz_bc_calculator m _ _ _ _ _ _) as [x' y'].
  apply locate_agrees.
Qed.

(** The FVCOM driver only commits positions that the host search accepted:
    when [update] moves a particle that stays in the domain, [find_host],
    asked about the move from the old to the new position, answers flag 0
    and the host that the particle now carries.  A particle that leaves the
    domain is not moved at all. *)
Theorem update_commits_accepted_positions
  (fuel : nat) (m : FVCOMOPTModel.Model) (time : Q) (p p' : Particle) :
  FVCOMOPTModel.update_particle fuel m time p = Returned p' ->
  in_domain p = true ->
  (in_domain p' = true ->
   find_host (FVCOMOPTModel.data_reader m) (xpos p) (ypos p)
     (xpos p') (ypos p') (host_horizontal_elem p)
   = (0%Z, host_horizontal_elem p'))
  /\ (in_domain p' = false -> p' = set_out_of_domain p).
Proof.
  intros Hup Hin. unfold FVCOMOPTModel.update_particle in Hup.
  rewrite Hin in Hup.
  destruct (FVCOMOPTModel.advection m time p) as [host_err delta_0].
  destruct (match host_err with Some e => (e =? -2)%Z | None => false end).
  { injection Hup as <-. split; [discriminate | reflexivity]. }
  destruct (FVCOMOPTModel.bc_loop fuel m p _) as [r| |] eqn:Er;
    cbn [bind] in Hup; try discriminate.
  apply bc_loop_agrees in Er; [|apply locate_agrees].
  destruct (_ =? -2)%Z.
  { injection Hup as <-. split; [discriminate | reflexivity]. }
  destruct (Z.eqb_spec (FVCOMOPTModel.loc_flag (snd r)) 0) as [E0|E0];
    [|discriminate].
  injection Hup as <-. split.
  - intros _. unfold FVCOMOPTModel.commit. cbn.
    rewrite Er, E0. reflexivity.
  - unfold FVCOMOPTModel.commit. cbn. congruence.
Qed.

Lemma update_commits_accepted_positions_witness :
  find_host (FVCOMOPTModel.data_reader MoreFixtures.nudged_model)
    (xpos Fixtures.p0) (ypos Fixtures.p0)
    (xpos (mkParticle 7%Z (6#8) (1#2) (-1#2) 0%Z 0%Z true))
    (ypos (mkParticle 7%Z (6#8) (1#2) (-1#2) 0%Z 0%Z true))
    (host_horizontal_elem Fixtures.p0)
  = (0%Z,
     host_horizontal_elem (mkParticle 7%Z (6#8) (1#2) (-1#2) 0%Z 0%Z true)).
Proof.
  destruct (update_commits_accepted_positions 3 MoreFixtures.nudged_model 0
              Fixtures.p0 (mkParticle 7%Z (6#8) (1#2) (-1#2) 0%Z 0%Z true))
    as [Hin _].
  - vm_compute. reflexivity.
  - reflexivity.
  - apply Hin. reflexivity.
Defined.

(** ** Diagnostics *)

(** The six lists returned by [get_diagnostics] are aligned with the
    particle set: entry [i] of each list describes particle [i], with [h]
    and [zeta] evaluated at that particle's position and host; for an empty
    set all six lists are empty. *)
Theorem diagnostics_are_aligned (m : FVCOMOPTModel.Model) (time : Q)
  (ps : list Particle) :
  FVCOMOPTModel.get_diagnostics m time ps
  = FVCOMOPTModel.mkDiagnostics
      (map xpos ps) (map ypos ps) (map zpos ps)
      (map host_horizontal_elem ps)
      (map (fun p => get_zmin (FVCOMOPTModel.data_reader m) time
                       (xpos p) (ypos p) (host_horizontal_elem p)) ps)
      (map (fun p => get_zmax (FVCOMOPTModel.data_reader m) time
                       (xpos p) (ypos p) (host_horizontal_elem p)) ps).
Proof.
  unfold FVCOMOPTModel.get_diagnostics.
  rewrite fold_append_diagnostics. reflexivity.
Qed.

(** ** The particle seed of the two drivers *)

Lemma fvcom_seed_particle_appends
  (s2c : Q -> Q -> Q -> Q) (m : FVCOMOPTModel.Model) (time : Q)
  (st st' : FVCOMOPTModel.SeedState) (row : FVCOMOPTModel.SeedRow) :
  FVCOMOPTModel.create_seed_particle s2c m time st row = Returned st' ->
  exists p,
    FVCOMOPTModel.particle_seed_smart_ptrs st'
    = FVCOMOPTModel.particle_seed_smart_ptrs st ++ [p]
    /\ group_id p = FVCOMOPTModel.row_group row
    /\ (in_domain p = true ->
        xpos p = FVCOMOPTModel.row_x row
        /\ ypos p = FVCOMOPTModel.row_y row
        /\ (0 <= host_horizontal_elem p)%Z
        /\ get_zmin (FVCOMOPTModel.data_reader m) time (xpos p) (ypos p)
             (host_horizontal_elem p) <= zpos p
        /\ zpos p <= get_zmax (FVCOMOPTModel.data_reader m) time (xpos p)
                       (ypos p) (host_horizontal_elem p)
        /\ host_z_layer p
           = find_zlayer (FVCOMOPTModel.data_reader m) time (xpos p) (ypos p)
               (zpos p) (host_horizontal_elem p) 0%Z)
    /\ (in_domain p = false ->
        p = FVCOMOPTModel.ParticleSmartPtr_default
              (FVCOMOPTModel.row_group row) false).
Proof.
  unfold FVCOMOPTModel.create_seed_particle. cbv zeta.
  destruct (Z.leb_spec 0 (FVCOMOPTModel.seed_host m st row)) as [Hhost|Hhost].
  - destruct (FVCOMOPTModel.seed_depth s2c m st row _ _) as [z'|];
      [|discriminate].
    destruct (Qltb_spec z' (get_zmin (FVCOMOPTModel.data_reader m) time
                              (FVCOMOPTModel.row_x row)
                              (FVCOMOPTModel.row_y row)
                              (FVCOMOPTModel.seed_host m st row)))
      as [Hlo|Hlo]; [discriminate|].
    destruct (Qltb_spec (get_zmax (FVCOMOPTModel.data_reader m) time
                           (FVCOMOPTModel.row_x row)
                           (FVCOMOPTModel.row_y row)
                           (FVCOMOPTModel.seed_host m st row)) z')
      as [Hhi|Hhi]; [discriminate|].
    intros [= <-]. eexists. split; [reflexivity|]. cbn.
    split; [reflexivity|]. split; [|discriminate].
    intros _. repeat split; try assumption; lra.
  - intros [= <-]. eexists. split; [reflexivity|]. cbn.
    split; [reflexivity|]. split; [discriminate | reflexivity].
Qed.

(** When the FVCOM driver's [_create_seed] returns, the seed holds one
    particle per input row, in the order of the rows and with the row's
    group id.  A seed particle that is in the domain sits at the row's
    horizontal position in a host element ([host >= 0]), at a depth within
    [[zmin, zmax]] of that position, in the layer that [find_zlayer]
    answers for it; every other seed particle is the default particle
    ([-999] in every field). *)
Theorem fvcom_seed_is_located
  (sigma_to_cartesian_coords : Q -> Q -> Q -> Q)
  (m : FVCOMOPTModel.Model) (time : Q)
  (rows : list FVCOMOPTModel.SeedRow) (ps : list Particle) :
  FVCOMOPTModel._create_seed sigma_to_cartesian_coords m time rows
  = Returned ps ->
  Forall2
    (fun row p =>
       group_id p = FVCOMOPTModel.row_group row
       /\ (in_domain p = true ->
           xpos p = FVCOMOPTModel.row_x row
           /\ ypos p = FVCOMOPTModel.row_y row
           /\ (0 <= host_horizontal_elem p)%Z
           /\ get_zmin (FVCOMOPTModel.data_reader m) time (xpos p) (ypos p)
                (host_horizontal_elem p) <= zpos p
           /\ zpos p <= get_zmax (FVCOMOPTModel.data_reader m) time (xpos p)
                          (ypos p) (host_horizontal_elem p)
           /\ host_z_layer p
              = find_zlayer (FVCOMOPTModel.data_reader m) time (xpos p)
                  (ypos p) (zpos p) (host_horizontal_elem p) 0%Z)
       /\ (in_domain p = false ->
           p = FVCOMOPTModel.ParticleSmartPtr_default
                 (FVCOMOPTModel.row_group row) false))
    rows ps.
Proof.
  unfold FVCOMOPTModel._create_seed.
  destruct (FVCOMOPTModel.create_seed_loop sigma_to_cartesian_coords m time
              _ rows) as [st| |] eqn:Eloop; cbn [bind]; try discriminate.
  intros [= <-].
  enough (Hgen : forall rs st0 st1,
             FVCOMOPTModel.create_seed_loop sigma_to_cartesian_coords m time
               st0 rs = Returned st1 ->
             exists new,
               FVCOMOPTModel.particle_seed_smart_ptrs st1
               = FVCOMOPTModel.particle_seed_smart_ptrs st0 ++ new
               /\ Forall2
                    (fun row p =>
                       group_id p = FVCOMOPTModel.row_group row
                       /\ (in_domain p = true ->
                           xpos p = FVCOMOPTModel.row_x row
                           /\ ypos p = FVCOMOPTModel.row_y row
                           /\ (0 <= host_horizontal_elem p)%Z
                           /\ get_zmin (FVCOMOPTModel.data_reader m) time
                                (xpos p) (ypos p) (host_horizontal_elem p)
                              <= zpos p
                           /\ zpos p
                              <= get_zmax (FVCOMOPTModel.data_reader m) time
                                   (xpos p) (ypos p) (host_horizontal_elem p)
                           /\ host_z_layer p
                              = find_zlayer (FVCOMOPTModel.data_reader m)
                                  time (xpos p) (ypos p) (zpos p)
                                  (host_horizontal_elem p) 0%Z)
                       /\ (in_domain p = false ->
                           p = FVCOMOPTModel.ParticleSmartPtr_default
                                 (FVCOMOPTModel.row_group row) false))
                    rs new).
  { destruct (Hgen _ _ _ Eloop) as (new & Hnew & Hall).
    cbn in Hnew. rewrite Hnew. exact Hall. }
  induction rs as [|row rs IH]; intros st0 st1;
    cbn [FVCOMOPTModel.create_seed_loop].
  - intros [= <-]. exists []. split; [now rewrite app_nil_r | constructor].
  - destruct (FVCOMOPTModel.create_seed_particle sigma_to_cartesian_coords
                m time st0 row) as [st'| |] eqn:Ebody; cbn [bind];
      try discriminate.
    intros Hrest.
    destruct (fvcom_seed_particle_appends _ _ _ _ _ _ Ebody)
      as (p & Hp & Hrow).
    destruct (IH _ _ Hrest) as (new & Hnew & Hall).
    exists (p :: new). split.
    + rewrite Hnew, Hp, <- app_assoc. reflexivity.
    + constructor; assumption.
Qed.

Lemma fvcom_seed_is_located_witness :
  Forall2
    (fun row p =>
       group_id p = FVCOMOPTModel.row_group row
       /\ (in_domain p = true ->
           xpos p = FVCOMOPTModel.row_x row
           /\ ypos p = FVCOMOPTModel.row_y row
           /\ (0 <= host_horizontal_elem p)%Z
           /\ get_zmin (FVCOMOPTModel.data_reader Fixtures.channel_model) 0
                (xpos p) (ypos p) (host_horizontal_elem p) <= zpos p
           /\ zpos p
              <= get_zmax (FVCOMOPTModel.data_reader Fixtures.channel_model)
                   0 (xpos p) (ypos p) (host_horizontal_elem p)
           /\ host_z_layer p
              = find_zlayer (FVCOMOPTModel.data_reader Fixtures.channel_model)
                  0 (xpos p) (ypos p) (zpos p) (host_horizontal_elem p) 0%Z)
       /\ (in_domain p = false ->
           p = FVCOMOPTModel.ParticleSmartPtr_default
                 (FVCOMOPTModel.row_group row) false))
    MoreFixtures.seed_rows
    [mkParticle 7%Z (1#2) (1#2)
       (Fixtures.sigma_to_cartesian_coords (-(1#2)) (-1) 0) 0%Z 0%Z true;
     FVCOMOPTModel.ParticleSmartPtr_default 8%Z false;
     mkParticle 9%Z (1#4) (1#2)
       (Fixtures.sigma_to_cartesian_coords 0 (-1) 0) 0%Z 0%Z true].
Proof.
  apply (fvcom_seed_is_located Fixtures.sigma_to_cartesian_coords
           Fixtures.channel_model 0 MoreFixtures.seed_rows).
  vm_compute. reflexivity.
Defined.

Lemma gotm_seed_particle_appends
  (c2s : Q -> Q -> Q -> Q) (gb : Q -> Q -> Z -> Q) (gs : Q -> Q -> Q -> Z -> Q)
  (dc : FVCOMOPTModel.DepthCoordinates) (dr : DataReader) (time : Q)
  (st st' : GOTMSeed.SeedState) (row : FVCOMOPTModel.SeedRow) :
  GOTMSeed.create_seed_particle c2s gb gs dc dr time st row = Returned st' ->
  exists p,
    GOTMSeed.particle_seed_smart_ptrs st'
    = GOTMSeed.particle_seed_smart_ptrs st ++ [p]
    /\ group_id p = FVCOMOPTModel.row_group row
    /\ xpos p = FVCOMOPTModel.row_x row
    /\ ypos p = FVCOMOPTModel.row_y row
    /\ in_domain p = true
    /\ host_horizontal_elem p = 0%Z
    /\ get_zmin dr time (xpos p) (ypos p) 0%Z <= zpos p
    /\ zpos p <= get_zmax dr time (xpos p) (ypos p) 0%Z.
Proof.
  unfold GOTMSeed.create_seed_particle. cbv zeta.
  destruct (GOTMSeed.seed_sigma c2s gb gs dc dr time st row) as [sigma'|];
    [|discriminate].
  destruct (Qltb_spec sigma' (get_zmin dr time (FVCOMOPTModel.row_x row)
                                (FVCOMOPTModel.row_y row) 0%Z))
    as [Hlo|Hlo]; [discriminate|].
  destruct (Qltb_spec (get_zmax dr time (FVCOMOPTModel.row_x row)
                         (FVCOMOPTModel.row_y row) 0%Z) sigma')
    as [Hhi|Hhi]; [discriminate|].
  intros [= <-]. eexists. split; [reflexivity|]. cbn.
  repeat split; lra.
Qed.

(** When the GOTM driver's [_create_seed] returns, the seed holds one
    particle per input row, in order and with the row's group id and
    horizontal position; every seed particle is in the domain, in host 0,
    at a depth within [[zmin, zmax]]: a row is never seeded out of the
    domain. *)
Theorem gotm_seed_is_in_column
  (cartesian_to_sigma_coords : Q -> Q -> Q -> Q)
  (get_bathymetry : Q -> Q -> Z -> Q)
  (get_sea_sur_elev : Q -> Q -> Q -> Z -> Q)
  (dc : FVCOMOPTModel.DepthCoordinates) (dr : DataReader) (time : Q)
  (rows : list FVCOMOPTModel.SeedRow) (ps : list Particle) :
  GOTMSeed._create_seed cartesian_to_sigma_coords get_bathymetry
    get_sea_sur_elev dc dr time rows = Returned ps ->
  Forall2
    (fun row p =>
       group_id p = FVCOMOPTModel.row_group row
       /\ xpos p = FVCOMOPTModel.row_x row
       /\ ypos p = FVCOMOPTModel.row_y row
       /\ in_domain p = true
       /\ host_horizontal_elem p = 0%Z
       /\ get_zmin dr time (xpos p) (ypos p) 0%Z <= zpos p
       /\ zpos p <= get_zmax dr time (xpos p) (ypos p) 0%Z)
    rows ps.
Proof.
  unfold GOTMSeed._create_seed.
  destruct (GOTMSeed.create_seed_loop _ _ _ dc dr time _ rows)
    as [st| |] eqn:Eloop; cbn [bind]; try discriminate.
  intros [= <-].
  enough (Hgen : forall rs st0 st1,
             GOTMSeed.create_seed_loop cartesian_to_sigma_coords
               get_bathymetry get_sea_sur_elev dc dr time st0 rs
             = Returned st1 ->
             exists new,
               GOTMSeed.particle_seed_smart_ptrs st1
               = GOTMSeed.particle_seed_smart_ptrs st0 ++ new
               /\ Forall2
                    (fun row p =>
                       group_id p = FVCOMOPTModel.row_group row
                       /\ xpos p = FVCOMOPTModel.row_x row
                       /\ ypos p = FVCOMOPTModel.row_y row
                       /\ in_domain p = true
                       /\ host_horizontal_elem p = 0%Z
                       /\ get_zmin dr time (xpos p) (ypos p) 0%Z <= zpos p
                       /\ zpos p <= get_zmax dr time (xpos p) (ypos p) 0%Z)
                    rs new).
  { destruct (Hgen _ _ _ Eloop) as (new & Hnew & Hall).
    cbn in Hnew. rewrite Hnew. exact Hall. }
  induction rs as [|row rs IH]; intros st0 st1;
    cbn [GOTMSeed.create_seed_loop].
  - intros [= <-]. exists []. split; [now rewrite app_nil_r | constructor].
  - destruct (GOTMSeed.create_seed_particle cartesian_to_sigma_coords
                get_bathymetry get_sea_sur_elev dc dr time st0 row)
      as [st'| |] eqn:Ebody; cbn [bind]; try discriminate.
    intros Hrest.
    destruct (gotm_seed_particle_appends _ _ _ _ _ _ _ _ _ Ebody)
      as (p & Hp & Hrow).
    destruct (IH _ _ Hrest) as (new & Hnew & Hall).
    exists (p :: new). split.
    + rewrite Hnew, Hp, <- app_assoc. reflexivity.
    + constructor; assumption.
Qed.

Lemma gotm_seed_is_in_column_witness :
  Forall2
    (fun row p =>
       group_id p = FVCOMOPTModel.row_group row
       /\ xpos p = FVCOMOPTModel.row_x row
       /\ ypos p = FVCOMOPTModel.row_y row
       /\ in_domain p = true
       /\ host_horizontal_elem p = 0%Z
       /\ get_zmin MoreFixtures.column_reader 0 (xpos p) (ypos p) 0%Z
          <= zpos p
       /\ zpos p
          <= get_zmax MoreFixtures.column_reader 0 (xpos p) (ypos p) 0%Z)
    MoreFixtures.seed_rows
    [mkParticle 7%Z (1#2) (1#2) (-(1#2)) 0%Z 0%Z true;
     mkParticle 8%Z (3#2) (1#2) (-(1#4)) 0%Z 0%Z true;
     mkParticle 9%Z (1#4) (1#2) 0 0%Z 0%Z true].
Proof.
  apply (gotm_seed_is_in_column (fun z _ _ => z) (fun _ _ _ => 1)
           (fun _ _ _ _ => 0) FVCOMOPTModel.sigma MoreFixtures.column_reader
           0 MoreFixtures.seed_rows).
  vm_compute. reflexivity.
Defined.

(** With depths given in sigma coordinates the GOTM driver's
    [_create_seed] is a map with a global check: it raises [ValueError] as
    soon as one row has a depth outside [[zmin, zmax]], and otherwise
    returns, for every row, the particle at the row's position and depth,
    in host 0 and in the layer that [find_zlayer] answers. *)
Theorem gotm_seed_in_sigma_coordinates
  (cartesian_to_sigma_coords : Q -> Q -> Q -> Q)
  (get_bathymetry : Q -> Q -> Z -> Q)
  (get_sea_sur_elev : Q -> Q -> Q -> Z -> Q)
  (dr : DataReader) (time : Q) (rows : list FVCOMOPTModel.SeedRow) :
  GOTMSeed._create_seed cartesian_to_sigma_coords get_bathymetry
    get_sea_sur_elev FVCOMOPTModel.sigma dr time rows
  = if forallb
         (fun row =>
            negb (Qltb (FVCOMOPTModel.row_z_temp row)
                    (get_zmin dr time (FVCOMOPTModel.row_x row)
                       (FVCOMOPTModel.row_y row) 0%Z))
            && negb (Qltb (get_zmax dr time (FVCOMOPTModel.row_x row)
                             (FVCOMOPTModel.row_y row) 0%Z)
                       (FVCOMOPTModel.row_z_temp row)))
         rows
    then Returned
           (map (fun row =>
                   mkParticle (FVCOMOPTModel.row_group row)
                     (FVCOMOPTModel.row_x row) (FVCOMOPTModel.row_y row)
                     (FVCOMOPTModel.row_z_temp row) 0%Z
                     (find_zlayer dr time (FVCOMOPTModel.row_x row)
                        (FVCOMOPTModel.row_y row)
                        (FVCOMOPTModel.row_z_temp row) 0%Z 0%Z)
                     true)
                rows)
    else Raised ValueError.
Proof.
  unfold GOTMSeed._create_seed.
  set (ok := fun row =>
            negb (Qltb (FVCOMOPTModel.row_z_temp row)
                    (get_zmin dr time (FVCOMOPTModel.row_x row)
                       (FVCOMOPTModel.row_y row) 0%Z))
            && negb (Qltb (get_zmax dr time (FVCOMOPTModel.row_x row)
                             (FVCOMOPTModel.row_y row) 0%Z)
                       (FVCOMOPTModel.row_z_temp row))).
  set (mk := fun row =>
                   mkParticle (FVCOMOPTModel.row_group row)
                     (FVCOMOPTModel.row_x row) (FVCOMOPTModel.row_y row)
                     (FVCOMOPTModel.row_z_temp row) 0%Z
                     (find_zlayer dr time (FVCOMOPTModel.row_x row)
                        (FVCOMOPTModel.row_y row)
                        (FVCOMOPTModel.row_z_temp row) 0%Z 0%Z)
                     true).
  enough (Hgen : forall rs st0,
             (st <- GOTMSeed.create_seed_loop cartesian_to_sigma_coords
                      get_bathymetry get_sea_sur_elev FVCOMOPTModel.sigma
                      dr time st0 rs ;;
              Returned (GOTMSeed.particle_seed_smart_ptrs st))
             = if forallb ok rs
               then Returned (GOTMSeed.particle_seed_smart_ptrs st0
                              ++ map mk rs)
               else Raised ValueError).
  { rewrite Hgen. reflexivity. }
  induction rs as [|row rs IH]; intros st0;
    cbn [GOTMSeed.create_seed_loop forallb map].
  - cbn [bind]. now rewrite app_nil_r.
  - unfold GOTMSeed.create_seed_particle at 1. cbv zeta.
    cbn [GOTMSeed.seed_sigma]. unfold ok at 1.
    destruct (Qltb (FVCOMOPTModel.row_z_temp row) _); [reflexivity|].
    destruct (Qltb _ (FVCOMOPTModel.row_z_temp row)); [reflexivity|].
    cbn [negb andb bind]. rewrite IH.
    destruct (forallb ok rs); [|reflexivity].
    cbn [GOTMSeed.particle_seed_smart_ptrs]. rewrite <- app_assoc.
    reflexivity.
Qed.

(** ** Surface fields and the full velocity of the FVCOM reader *)

Lemma barycentric_reproduces_planes (g : FVCOMDataReader.Grid)
  (xpos ypos : Q) (host : Z) (f0 f1 f2 a b c : Q) :
  let vertex := fun i => FVCOMDataReader._nv g i host in
  ~ FVCOMFields.twice_area g host == 0 ->
  f0 == a + b * FVCOMDataReader._x g (vertex 0%Z)
        + c * FVCOMDataReader._y g (vertex 0%Z) ->
  f1 == a + b * FVCOMDataReader._x g (vertex 1%Z)
        + c * FVCOMDataReader._y g (vertex 1%Z) ->
  f2 == a + b * FVCOMDataReader._x g (vertex 2%Z)
        + c * FVCOMDataReader._y g (vertex 2%Z) ->
  interp.interpolate_within_element (mkVec3 f0 f1 f2)
    (FVCOMDataReader._get_phi g xpos ypos host)
  == a + b * xpos + c * ypos.
Proof.
  intros vertex Harea H0 H1 H2.
  unfold interp.interpolate_within_element, FVCOMDataReader._get_phi,
    interp.get_barycentric_coords. cbn [v0 v1 v2].
  unfold FVCOMFields.twice_area in Harea. cbv zeta in Harea.
  rewrite H0, H1, H2. unfold vertex. field. exact Harea.
Qed.

(** Interpolation within an element is exact for planes.  In an element
    that is not degenerate, a bed that equals [a + b x + c y] at the three
    vertices gives [get_bathymetry = a + b xpos + c ypos] at every point,
    and a surface that is such a plane in each of the two snapshots gives
    for [get_sea_sur_elev] the interpolation in time of the two planes
    evaluated at the point. *)
Theorem surface_fields_reproduce_planes {M : Type}
  (g : FVCOMDataReader.Grid) (r : FVCOMDataReader.Reader M)
  (time xpos ypos : Q) (host : Z) (a b c al bl cl an bn cn : Q) :
  ~ FVCOMFields.twice_area g host == 0 ->
  FVCOMFields.on_plane g host (FVCOMDataReader._h g) a b c ->
  FVCOMFields.on_plane g host (FVCOMDataReader._zeta_last r) al bl cl ->
  FVCOMFields.on_plane g host (FVCOMDataReader._zeta_next r) an bn cn ->
  FVCOMFields.get_bathymetry g xpos ypos host == a + b * xpos + c * ypos
  /\ FVCOMFields.get_sea_sur_elev g r time xpos ypos host
     == interp.linear_interp
          (interp.get_linear_fraction time (FVCOMDataReader._time_last r)
             (FVCOMDataReader._time_next r))
          (al + bl * xpos + cl * ypos) (an + bn * xpos + cn * ypos).
Proof.
  intros Harea (Hh0 & Hh1 & Hh2) (Hl0 & Hl1 & Hl2) (Hn0 & Hn1 & Hn2).
  split.
  - unfold FVCOMFields.get_bathymetry, FVCOMFields.h_at,
      FVCOMFields.at_vertices.
    now apply barycentric_reproduces_planes.
  - unfold FVCOMFields.get_sea_sur_elev, FVCOMFields.zeta_at,
      FVCOMFields.interp_vertices, FVCOMFields.at_vertices. cbv zeta.
    cbn [v0 v1 v2].
    set (f := interp.get_linear_fraction _ _ _).
    rewrite (barycentric_reproduces_planes g xpos ypos host _ _ _
               (interp.linear_interp f al an)
               (interp.linear_interp f bl bn)
               (interp.linear_interp f cl cn) Harea).
    + unfold interp.linear_interp. ring.
    + unfold interp.linear_interp. rewrite Hl0, Hn0. ring.
    + unfold interp.linear_interp. rewrite Hl1, Hn1. ring.
    + unfold interp.linear_interp. rewrite Hl2, Hn2. ring.
Qed.

Lemma surface_fields_reproduce_planes_witness :
  FVCOMFields.get_bathymetry MoreFixtures.sloping_grid (1#2) (1#4) 0%Z
  == 10 + 2 * (1#2) + 3 * (1#4)
  /\ FVCOMFields.get_sea_sur_elev MoreFixtures.sloping_grid
       MoreFixtures.tilting_reader (1#4) (1#2) (1#4) 0%Z
     == interp.linear_interp
          (interp.get_linear_fraction (1#4)
             (FVCOMDataReader._time_last MoreFixtures.tilting_reader)
             (FVCOMDataReader._time_next MoreFixtures.tilting_reader))
          (0 + 1 * (1#2) + 0 * (1#4)) (1 + 0 * (1#2) + 1 * (1#4)).
Proof.
  apply (surface_fields_reproduce_planes MoreFixtures.sloping_grid
           MoreFixtures.tilting_reader (1#4) (1#2) (1#4) 0%Z
           10 2 3 0 1 0 1 0 1).
  - vm_compute. discriminate.
  - vm_compute. repeat split.
  - vm_compute. repeat split.
  - vm_compute. repeat split.
Defined.

Lemma lls_answers_in_frame {M : Type}
  (g : FVCOMDataReader.Grid) (r : FVCOMDataReader.Reader M)
  (time xpos ypos zpos : Q) (host : Z) :
  (1 <= FVCOMDataReader._n_siglay g)%Z ->
  FVCOMDataReader._time_last r < FVCOMDataReader._time_next r ->
  FVCOMDataReader._time_last r <= time ->
  time <= FVCOMDataReader._time_next r ->
  exists uv,
    FVCOMDataReader._get_uv_velocity_using_linear_least_squares_interpolation
      g r time xpos ypos zpos host = Returned uv.
Proof.
  intros Hn Hframe Hlo Hhi.
  destruct (find_sigma_layers_brackets g
              (FVCOMDataReader._get_phi g xpos ypos host) host zpos Hn)
    as (location & Hloc & Hbr).
  destruct (frame_check time _ _ Hframe) as [Hin _].
  unfold FVCOMDataReader._get_uv_velocity_using_linear_least_squares_interpolation.
  cbv zeta. rewrite Hloc, (Hin Hlo Hhi).
  destruct (_ <? 0)%Z; destruct location as [k|kl ku sl su];
    try (eexists; reflexivity);
    destruct Hbr as (_ & _ & _ & _ & H1 & H2);
    apply interpolate_between_layers_in_bracket; lra.
Qed.

Lemma lls_raises_out_of_frame {M : Type}
  (g : FVCOMDataReader.Grid) (r : FVCOMDataReader.Reader M)
  (time xpos ypos zpos : Q) (host : Z) :
  (1 <= FVCOMDataReader._n_siglay g)%Z ->
  FVCOMDataReader._time_last r < FVCOMDataReader._time_next r ->
  time < FVCOMDataReader._time_last r
  \/ FVCOMDataReader._time_next r < time ->
  FVCOMDataReader._get_uv_velocity_using_linear_least_squares_interpolation
    g r time xpos ypos zpos host = Raised ValueError.
Proof.
  intros Hn Hframe Hbad.
  destruct (find_sigma_layers_brackets g
              (FVCOMDataReader._get_phi g xpos ypos host) host zpos Hn)
    as (location & Hloc & Hbr).
  destruct (frame_check time _ _ Hframe) as [_ Hout].
  unfold FVCOMDataReader._get_uv_velocity_using_linear_least_squares_interpolation.
  cbv zeta. rewrite Hloc, (Hout Hbad). reflexivity.
Qed.

(** [get_velocity] needs the reading frame, the column and water.  With
    the time in [[t_last, t_next]], the depth between the bottom and the
    top level of the host and a water depth [h + zeta] that is not zero it
    returns the horizontal components of the least-squares lookup followed
    by omega; with a water depth of zero it raises [ZeroDivisionError].  It
    raises [ValueError] when the time is outside the frame, whatever the
    depth, and also, with the time in the frame, when no pair of consecutive
    levels holds the depth, although the horizontal lookup alone answers
    there. *)
Theorem velocity_needs_frame_and_column {M : Type}
  (g : FVCOMDataReader.Grid) (r : FVCOMDataReader.Reader M)
  (time xpos ypos zpos : Q) (host : Z) :
  let phi := FVCOMDataReader._get_phi g xpos ypos host in
  let sigma := FVCOMFields._interp_on_sigma_level g phi host in
  let depth := FVCOMFields.depth_at g r time xpos ypos host in
  (1 <= FVCOMDataReader._n_siglay g)%Z ->
  FVCOMDataReader._time_last r < FVCOMDataReader._time_next r ->
  (FVCOMDataReader._time_last r <= time ->
   time <= FVCOMDataReader._time_next r ->
   sigma (FVCOMDataReader._n_siglay g) <= zpos -> zpos <= sigma 0%Z ->
   (~ depth == 0 ->
    exists u v w,
      FVCOMDataReader._get_uv_velocity_using_linear_least_squares_interpolation
        g r time xpos ypos zpos host = Returned (u, v)
      /\ FVCOMFields._get_omega_velocity g r time xpos ypos zpos host phi
         = Returned w
      /\ FVCOMFields.get_velocity g r time xpos ypos zpos host
         = Returned (mkVec3 u v w))
   /\ (depth == 0 ->
       FVCOMFields.get_velocity g r time xpos ypos zpos host
       = Raised ZeroDivisionError))
  /\ (time < FVCOMDataReader._time_last r
      \/ FVCOMDataReader._time_next r < time ->
      FVCOMFields.get_velocity g r time xpos ypos zpos host
      = Raised ValueError)
  /\ (FVCOMDataReader._time_last r <= time ->
      time <= FVCOMDataReader._time_next r ->
      (forall j, (0 <= j < FVCOMDataReader._n_siglay g)%Z ->
                 ~ (sigma (j + 1)%Z <= zpos /\ zpos <= sigma j)) ->
      FVCOMFields.get_velocity g r time xpos ypos zpos host
      = Raised ValueError
      /\ exists uv,
           FVCOMDataReader._get_uv_velocity_using_linear_least_squares_interpolation
             g r time xpos ypos zpos host = Returned uv).
Proof.
  intros phi sigma depth Hn Hframe. unfold FVCOMFields.get_velocity.
  cbv zeta. fold phi. split; [|split].
  - intros Hlo Hhi Hlast Hfirst.
    destruct (lls_answers_in_frame g r time xpos ypos zpos host Hn Hframe
                Hlo Hhi) as ([u v] & Euv).
    destruct (omega_in_column g r time xpos ypos zpos host Hn Hlast Hfirst)
      as (w & Ew).
    fold phi in Ew. fold depth in Ew. rewrite Euv. cbn [bind]. split.
    + intros Hwet. rewrite (Qeq_bool_false _ Hwet) in Ew.
      exists u, v, w. rewrite Ew. cbn [bind fst snd]. repeat split.
    + intros Hdry. apply Qeq_bool_iff in Hdry. rewrite Hdry in Ew.
      rewrite Ew. reflexivity.
  - intros Hbad.
    rewrite (lls_raises_out_of_frame g r time xpos ypos zpos host Hn Hframe
               Hbad). reflexivity.
  - intros Hlo Hhi Hnone.
    destruct (lls_answers_in_frame g r time xpos ypos zpos host Hn Hframe
                Hlo Hhi) as (uv & Euv).
    split; [|now exists uv].
    rewrite Euv. cbn [bind]. unfold FVCOMFields._get_omega_velocity.
    rewrite (omega_off_the_levels g r time xpos ypos zpos host phi Hnone).
    reflexivity.
Qed.

Lemma velocity_needs_frame_and_column_witness :
  exists u v w,
    FVCOMDataReader._get_uv_velocity_using_linear_least_squares_interpolation
      Fixtures.interior_grid Fixtures.fvcom_reader (1#2) (1#2) (1#4)
      (-(1#2)) 0%Z = Returned (u, v)
    /\ FVCOMFields._get_omega_velocity Fixtures.interior_grid
         Fixtures.fvcom_reader (1#2) (1#2) (1#4) (-(1#2)) 0%Z
         (FVCOMDataReader._get_phi Fixtures.interior_grid (1#2) (1#4) 0%Z)
       = Returned w
    /\ FVCOMFields.get_velocity Fixtures.interior_grid Fixtures.fvcom_reader
         (1#2) (1#2) (1#4) (-(1#2)) 0%Z
       = Returned (mkVec3 u v w).
Proof.
  destruct (velocity_needs_frame_and_column Fixtures.interior_grid
              Fixtures.fvcom_reader (1#2) (1#2) (1#4) (-(1#2)) 0%Z)
    as [Hin _].
  - vm_compute. discriminate.
  - reflexivity.
  - destruct Hin as [Hwet _]; try (vm_compute; discriminate).
    apply Hwet. vm_compute. discriminate.
Defined.

(** ** The diffusivity of the GOTM reader *)

Lemma linear_fraction_safe_unit (var var1 var2 : Q) :
  0 <= interp.get_linear_fraction_safe var var1 var2
  /\ interp.get_linear_fraction_safe var var1 var2 <= 1.
Proof.
  unfold interp.get_linear_fraction_safe. cbv zeta.
  destruct (Qltb_spec (interp.get_linear_fraction var var1 var2) 0);
    [lra|].
  destruct (Qltb_spec 1 (interp.get_linear_fraction var var1 var2)); lra.
Qed.

Lemma linear_interp_between (f a b lo hi : Q) :
  0 <= f -> f <= 1 -> lo <= a -> a <= hi -> lo <= b -> b <= hi ->
  lo <= interp.linear_interp f a b /\ interp.linear_interp f a b <= hi.
Proof.
  intros H0 H1 Ha Ha' Hb Hb'. unfold interp.linear_interp. split; nra.
Qed.

(** The vertical eddy diffusivity of the GOTM reader never leaves the range
    of the two interfaces of the layer it is given: in a column of non-zero
    depth, bounds [lo] and [hi] on the diffusivity at the two interfaces
    bound the answer, scaled by the square of the depth, at every depth
    [zpos], inside the layer or not.  In particular it is not negative
    where the interface values are not. *)
Theorem gotm_diffusivity_between_interfaces {M : Type}
  (sigma_to_cartesian_coords : Q -> Q -> Q -> Q)
  (r : GOTMDataReader.Reader M) (time xpos ypos zpos : Q)
  (host zlayer : Z) (lo hi : Q) :
  let depth := GOTMDataReader._H r + GOTMDataReader._zeta r in
  let kh := GOTMColumn.zlev_at (GOTMDataReader._kh r) in
  ~ depth == 0 ->
  lo <= kh zlayer -> kh zlayer <= hi ->
  lo <= kh (zlayer + 1)%Z -> kh (zlayer + 1)%Z <= hi ->
  lo / (depth * depth)
  <= GOTMColumn.get_vertical_eddy_diffusivity sigma_to_cartesian_coords r
       time xpos ypos zpos host zlayer
  /\ GOTMColumn.get_vertical_eddy_diffusivity sigma_to_cartesian_coords r
       time xpos ypos zpos host zlayer
     <= hi / (depth * depth).
Proof.
  intros depth kh Hdepth Hl1 Hh1 Hl2 Hh2.
  unfold GOTMColumn.get_vertical_eddy_diffusivity. cbv zeta.
  fold depth. fold (kh zlayer). fold (kh (zlayer + 1)%Z).
  set (f := interp.get_linear_fraction_safe _ _ _).
  destruct (linear_fraction_safe_unit
              (sigma_to_cartesian_coords zpos (GOTMDataReader._H r)
                 (GOTMDataReader._zeta r))
              (GOTMColumn.zlev_at (GOTMDataReader._zlev r) zlayer)
              (GOTMColumn.zlev_at (GOTMDataReader._zlev r) (zlayer + 1)%Z))
    as [Hf0 Hf1].
  fold f in Hf0, Hf1.
  destruct (linear_interp_between f (kh zlayer) (kh (zlayer + 1)%Z) lo hi
              Hf0 Hf1 Hl1 Hh1 Hl2 Hh2) as [Hlo Hhi].
  assert (Hpos : 0 < depth * depth).
  { destruct (Qlt_le_dec 0 (depth * depth)) as [H|H]; [exact H|].
    exfalso. apply Hdepth. nra. }
  assert (Hinv : 0 <= / (depth * depth)).
  { apply Qlt_le_weak, Qinv_lt_0_compat, Hpos. }
  unfold Qdiv. split; apply Qmult_le_compat_r; assumption.
Qed.

Lemma gotm_diffusivity_between_interfaces_witness :
  (1#50) / ((GOTMDataReader._H MoreFixtures.gotm_reader_at_half
             + GOTMDataReader._zeta MoreFixtures.gotm_reader_at_half)
            * (GOTMDataReader._H MoreFixtures.gotm_reader_at_half
               + GOTMDataReader._zeta MoreFixtures.gotm_reader_at_half))
  <= GOTMColumn.get_vertical_eddy_diffusivity
       Fixtures.sigma_to_cartesian_coords MoreFixtures.gotm_reader_at_half
       (1#2) 0 0 (-(1#4)) 0%Z 1%Z
  /\ GOTMColumn.get_vertical_eddy_diffusivity
       Fixtures.sigma_to_cartesian_coords MoreFixtures.gotm_reader_at_half
       (1#2) 0 0 (-(1#4)) 0%Z 1%Z
     <= (3#100) / ((GOTMDataReader._H MoreFixtures.gotm_reader_at_half
                    + GOTMDataReader._zeta MoreFixtures.gotm_reader_at_half)
                   * (GOTMDataReader._H MoreFixtures.gotm_reader_at_half
                      + GOTMDataReader._zeta
                          MoreFixtures.gotm_reader_at_half)).
Proof.
  apply (gotm_diffusivity_between_interfaces
           Fixtures.sigma_to_cartesian_coords MoreFixtures.gotm_reader_at_half
           (1#2) 0 0 (-(1#4)) 0%Z 1%Z (1#50) (3#100)).
  - vm_compute. discriminate.
  - vm_compute. discriminate.
  - vm_compute. discriminate.
  - vm_compute. discriminate.
  - vm_compute. discriminate.
Defined.

